(** * The running-challenge rules engine: distance rule, goal evaluator,
      progress store, streak and miss analysis, elimination, bailout ledger
      and winner resolution.

    The definitions below follow [database.js] (the SQLite-backed store) and
    the helper functions of the server file ([getRequiredDistance],
    [checkDailyGoal], [validateStreak], [calculateStreaks],
    [getTotalDaysRun], [determineWinner]).

    Modelling conventions.
    - A JavaScript number that holds a count is a [nat] or a [Z]; a number
      that holds a distance is an exact rational [Qc].  Binary64 rounding is
      not modelled: a decimal literal denotes the rational it spells, and
      [None] stands for [NaN] where a parse can fail.
    - A status is the string stored in the [status] column; nothing restricts
      it to the four values the server writes.
    - A SQL table is the list of its rows in insertion order; the surrogate
      [id] and [created_at] columns of [daily_progress], which no function
      below reads, are left out.
    - A [Date] is the calendar triple its getters return.  The server clock
      is taken to be in UTC, so that [getMonth]/[getDate] and the date part
      of [toISOString] read the same triple; the time of day is dropped. *)

From Stdlib Require Import ZArith QArith Qcanon String Ascii DecimalString List.
From stdpp Require Import gmap strings list numbers sorting.

Local Open Scope string_scope.
Local Open Scope Z_scope.

(** ** Sorting

    [Array.prototype.sort(cmp)] is stable: elements that compare equal keep
    their order, and an element is placed in front of another exactly when
    the comparator result for the pair is negative (or zero and it came
    first).  [cmp] returns the integer of the JavaScript comparator, with a
    [NaN] result already read as 0.  The same function orders the rows of a
    SQL [ORDER BY]: within one user no two rows share a date, so no tie is
    ever broken there. *)

Section StableSort.
Context {A : Type} (cmp : A -> A -> Z).

Fixpoint insert_sorted (x : A) (l : list A) : list A :=
  match l with
  | [] => [x]
  | y :: ys => if cmp x y <=? 0 then x :: l else y :: insert_sorted x ys
  end.

Definition stable_sort (l : list A) : list A :=
  fold_right insert_sorted [] l.
End StableSort.

(** ** JavaScript primitives used by the rules *)

Module Js.

(** [n.toString()] for an integer-valued number. *)
Definition toString (n : Z) : string :=
  NilZero.string_of_int (Z.to_int n).

(** [pad.repeat(n)]. *)
Fixpoint repeat_string (pad : string) (n : nat) : string :=
  match n with
  | O => ""
  | S k => pad ++ repeat_string pad k
  end.

(** [s.padStart(target, pad)]: [s] itself when it is long enough or [pad]
    is empty, otherwise [s] preceded by [pad] repeated and cut to the
    missing length. *)
Definition padStart (target : nat) (pad : string) (s : string) : string :=
  let fill := (target - String.length s)%nat in
  match fill, pad with
  | O, _ => s
  | _, EmptyString => s
  | _, _ => String.substring 0 fill (repeat_string pad fill) ++ s
  end.

Definition is_digit (c : ascii) : bool :=
  let n := N_of_ascii c in (48 <=? n)%N && (n <=? 57)%N.

Definition digit_value (c : ascii) : Z :=
  Z.of_N (N_of_ascii c) - 48.

(** The longest prefix of decimal digits, and what follows it. *)
Fixpoint span_digits (s : string) : list ascii * string :=
  match s with
  | String c rest =>
      if is_digit c
      then let '(ds, tl) := span_digits rest in (c :: ds, tl)
      else ([], s)
  | EmptyString => ([], s)
  end.

Definition digits_value (ds : list ascii) : Z :=
  fold_left (fun acc c => 10 * acc + digit_value c) ds 0.

(** The magnitude read by [parseFloat] after the optional sign: digits,
    then optionally a point and more digits; at least one digit overall.
    Whatever follows the longest such prefix is ignored. *)
Definition parse_unsigned (s : string) : option Qc :=
  let '(ip, rest) := span_digits s in
  let fp := match rest with
            | String "." rest' => fst (span_digits rest')
            | _ => []
            end in
  match ip, fp with
  | [], [] => None
  | _, _ =>
      Some (Q2Qc (Qmake (digits_value (ip ++ fp))
                        (Z.to_pos (10 ^ Z.of_nat (List.length fp)))))
  end.

(** [parseFloat(s)] on a plain decimal literal.  [None] is [NaN].  Leading
    white space, exponents and [Infinity] are not read: the one caller
    passes digits, a point and digits. *)
Definition parseFloat (s : string) : option Qc :=
  match s with
  | String "-" rest => option_map Qcopp (parse_unsigned rest)
  | String "+" rest => parse_unsigned rest
  | _ => parse_unsigned s
  end.

(** [Math.max(a, b)] on two numbers. *)
Definition Math_max (a b : Qc) : Qc :=
  if decide (a <= b)%Qc then b else a.

(** The value of [a - b] as a sort comparator result, when the operands
    may be [NaN] ([None]): a [NaN] difference counts as 0. *)
Definition cmp_sub (a b : option Z) : Z :=
  match a, b with
  | Some x, Some y => x - y
  | _, _ => 0
  end.

End Js.

(** ** Dates *)

(** The calendar fields of a [Date]: [getFullYear()], [getMonth()] (0-11) and
    [getDate()] (1-31). *)
Record JsDate := mkDate {
  getFullYear : Z;
  getMonth : Z;
  getDate : Z
}.

Definition is_leap (y : Z) : bool :=
  ((y mod 4 =? 0) && negb (y mod 100 =? 0)) || (y mod 400 =? 0).

(** Days in the 1-based month [m] of year [y]. *)
Definition days_in_month (y m : Z) : Z :=
  if m =? 2 then (if is_leap y then 29 else 28)
  else if (m =? 4) || (m =? 6) || (m =? 9) || (m =? 11) then 30
  else 31.

(** [date.toISOString().split('T')[0]]: [YYYY-MM-DD], with the signed
    six-digit year of the extended format outside 0..9999. *)
Definition isoDate (d : JsDate) : string :=
  let y := getFullYear d in
  let ys := if (0 <=? y) && (y <=? 9999)
            then Js.padStart 4 "0" (Js.toString y)
            else (if y <? 0 then "-" else "+")
                 ++ Js.padStart 6 "0" (Js.toString (Z.abs y)) in
  ys ++ "-" ++ Js.padStart 2 "0" (Js.toString (getMonth d + 1))
     ++ "-" ++ Js.padStart 2 "0" (Js.toString (getDate d)).

(** Days from 1970-01-01 to the civil date [y]-[m]-[d] ([m] 1-based). *)
Definition days_from_civil (y m d : Z) : Z :=
  let y' := if m <=? 2 then y - 1 else y in
  let era := y' / 400 in
  let yoe := y' - era * 400 in
  let mp := if m <=? 2 then m + 9 else m - 3 in
  let doy := (153 * mp + 2) / 5 + d - 1 in
  let doe := yoe * 365 + yoe / 4 - yoe / 100 + doy in
  era * 146097 + doe - 719468.

Definition all_digits (s : string) : bool :=
  forallb Js.is_digit (list_ascii_of_string s).

Definition number_of (s : string) : Z :=
  Js.digits_value (list_ascii_of_string s).

(** The month and day part [-MM-DD] of a date-only string. *)
Definition parse_month_day (y : Z) (s : string) : option Z :=
  let ms := String.substring 1 2 s in
  let ds := String.substring 4 2 s in
  if (String.length s =? 6)%nat
     && (String.substring 0 1 s =? "-")%string
     && (String.substring 3 1 s =? "-")%string
     && all_digits ms && all_digits ds
  then
    let m := number_of ms in
    let d := number_of ds in
    if (1 <=? m) && (m <=? 12) && (1 <=? d) && (d <=? days_in_month y m)
    then Some (days_from_civil y m d * 86400000)
    else None
  else None.

(** The time value of [new Date(s)] for a date-only string as the store
    holds them ([YYYY-MM-DD] or the extended [+YYYYYY-MM-DD]), in
    milliseconds since the epoch, midnight UTC.  [None] is the [NaN] time
    value of an invalid date; strings of any other shape are read as
    invalid. *)
Definition Date_parse (s : string) : option Z :=
  match s with
  | String "+" rest =>
      let ys := String.substring 0 6 rest in
      if all_digits ys && (String.length rest =? 12)%nat
      then parse_month_day (number_of ys) (String.substring 6 6 rest)
      else None
  | String "-" rest =>
      let ys := String.substring 0 6 rest in
      if all_digits ys && (String.length rest =? 12)%nat
         && negb (number_of ys =? 0)
      then parse_month_day (- number_of ys) (String.substring 6 6 rest)
      else None
  | _ =>
      let ys := String.substring 0 4 s in
      if all_digits ys && (String.length s =? 10)%nat
      then parse_month_day (number_of ys) (String.substring 4 6 s)
      else None
  end.

(** ** Distance rule and goal evaluator *)

(** [getRequiredDistance(date)]: the month number, a point and the
    two-digit day, read back as a number. *)
Definition getRequiredDistance (date : JsDate) : option Qc :=
  let month := getMonth date + 1 in
  let day := getDate date in
  Js.parseFloat
    (Js.toString month ++ "." ++ Js.padStart 2 "0" (Js.toString day)).

(** An activity as the goal evaluator reads it. *)
Record Run := mkRun {
  run_type : string;
  distance : Qc
}.

Record GoalCheck := mkGoalCheck {
  totalDistance : Qc;
  requiredDistance : Qc;
  goalMet : bool;
  shortfall : Qc
}.

(** [checkDailyGoal(runs, requiredDistance)]. *)
Definition checkDailyGoal (runs : list Run) (required : Qc) : GoalCheck :=
  let total := fold_left (fun sum run => (sum + distance run)%Qc) runs 0%Qc in
  {| totalDistance := total;
     requiredDistance := required;
     goalMet := bool_decide (required <= total)%Qc;
     shortfall := Js.Math_max 0%Qc (required - total)%Qc |}.

(** ** The store *)

(** A row of [users]; the token columns are left out. *)
Record UserRow := mkUser {
  id : Z;
  firstname : string;
  lastname : string;
  bailout_passes : Z;
  elimination_date : option string;
  elimination_reason : option string
}.

(** A row of [daily_progress]. *)
Record ProgressRow := mkProgress {
  user_id : Z;
  date : string;
  required_distance : Qc;
  completed_distance : Qc;
  status : string
}.

Record Db := mkDb {
  users : list UserRow;
  daily_progress : list ProgressRow
}.

(** The [changes] count of a statement is returned next to the new store. *)

Definition spend_pass (u : UserRow) : UserRow :=
  mkUser (id u) (firstname u) (lastname u) (bailout_passes u - 1)
         (elimination_date u) (elimination_reason u).

(** [useBailoutPass(userId)]:
    [UPDATE users SET bailout_passes = bailout_passes - 1
     WHERE id = ? AND bailout_passes > 0]. *)
Definition useBailoutPass (userId : Z) (db : Db) : Db * nat :=
  let hit u := (id u =? userId) && (0 <? bailout_passes u) in
  (mkDb (map (fun u => if hit u then spend_pass u else u) (users db))
        (daily_progress db),
   List.length (List.filter hit (users db))).

(** [getBailoutPasses(userId)]. *)
Definition getBailoutPasses (userId : Z) (db : Db) : Z :=
  match List.find (fun u => id u =? userId) (users db) with
  | Some result => bailout_passes result
  | None => 0
  end.

Definition set_elimination (d reason : string) (u : UserRow) : UserRow :=
  mkUser (id u) (firstname u) (lastname u) (bailout_passes u)
         (Some d) (Some reason).

(** [eliminateUser(userId, eliminationDate, reason)]:
    [UPDATE users SET elimination_date = ?, elimination_reason = ?
     WHERE id = ?]. *)
Definition eliminateUser (userId : Z) (eliminationDate reason : string)
    (db : Db) : Db * nat :=
  let hit u := id u =? userId in
  (mkDb (map (fun u => if hit u then set_elimination eliminationDate reason u
                       else u) (users db))
        (daily_progress db),
   List.length (List.filter hit (users db))).

Definition same_key (userId : Z) (dateStr : string) (r : ProgressRow) : bool :=
  (user_id r =? userId) && (date r =? dateStr)%string.

(** What [ON CONFLICT(user_id, date) DO UPDATE SET completed_distance = ...,
    status = ...] leaves of the row in conflict. *)
Definition on_conflict_update (excluded r : ProgressRow) : ProgressRow :=
  mkProgress (user_id r) (date r) (required_distance r)
             (completed_distance excluded) (status excluded).

(** [INSERT ... ON CONFLICT(user_id, date) DO UPDATE ...] on the table. *)
Fixpoint upsert_progress (new : ProgressRow) (rows : list ProgressRow)
    : list ProgressRow :=
  match rows with
  | [] => [new]
  | r :: rest =>
      if same_key (user_id new) (date new) r
      then on_conflict_update new r :: rest
      else r :: upsert_progress new rest
  end.

(** [saveDailyProgress(userId, date, requiredDistance, completedDistance,
    status)]. *)
Definition saveDailyProgress (userId : Z) (d : JsDate)
    (required completed : Qc) (st : string) (db : Db) : Db * nat :=
  let dateStr := isoDate d in
  (mkDb (users db)
        (upsert_progress (mkProgress userId dateStr required completed st)
                         (daily_progress db)),
   1%nat).

(** SQLite compares [TEXT] byte by byte. *)
Definition text_cmp (a b : string) : Z :=
  match String.compare a b with
  | Lt => -1
  | Eq => 0
  | Gt => 1
  end.

(** [ORDER BY date DESC]. *)
Definition order_by_date_desc (rows : list ProgressRow) : list ProgressRow :=
  stable_sort (fun a b => text_cmp (date b) (date a)) rows.

(** [getDailyProgress(userId, startDate, endDate)]. *)
Definition getDailyProgress (userId : Z) (startDate endDate : JsDate)
    (db : Db) : list ProgressRow :=
  let startStr := isoDate startDate in
  let endStr := isoDate endDate in
  order_by_date_desc
    (List.filter (fun r => (user_id r =? userId)
                           && String.leb startStr (date r)
                           && String.leb (date r) endStr)
                 (daily_progress db)).

(** The rows [getConsecutiveMisses] reads: [WHERE user_id = ? AND date <= ?
    ORDER BY date DESC LIMIT 10]. *)
Definition recent_days (userId : Z) (endStr : string) (db : Db)
    : list ProgressRow :=
  firstn 10
    (order_by_date_desc
       (List.filter (fun r => (user_id r =? userId)
                              && String.leb (date r) endStr)
                    (daily_progress db))).

(** The loop of [getConsecutiveMisses], started with the counter. *)
Fixpoint count_misses (days : list ProgressRow) (consecutiveMisses : nat)
    : nat :=
  match days with
  | [] => consecutiveMisses
  | day :: rest =>
      if (status day =? "missed")%string
      then count_misses rest (S consecutiveMisses)
      else if (status day =? "completed")%string
              || (status day =? "bailout")%string
      then consecutiveMisses
      else count_misses rest consecutiveMisses
  end.

(** [getConsecutiveMisses(userId, endDate)]. *)
Definition getConsecutiveMisses (userId : Z) (endDate : JsDate) (db : Db)
    : nat :=
  let endStr := isoDate endDate in
  let recentDays := recent_days userId endStr db in
  count_misses recentDays 0%nat.

(** ** Elimination controller *)

Record StreakStatus := mkStreakStatus {
  streak_status : string;
  streak_reason : option string
}.

(** [validateStreak(userId, consecutiveMisses)].  [now] is the value of
    [new Date()] at the call. *)
Definition validateStreak (now : JsDate) (userId : Z) (consecutiveMisses : Z)
    (db : Db) : StreakStatus * Db :=
  if 3 <=? consecutiveMisses then
    let today := isoDate now in
    let db' := fst (eliminateUser userId today
                                  "Three consecutive missed days" db) in
    (mkStreakStatus "eliminated" (Some "Three consecutive missed days"), db')
  else if consecutiveMisses =? 2 then
    (mkStreakStatus "at_risk"
       (Some "Two consecutive misses - one more and you're eliminated!"), db)
  else
    (mkStreakStatus "active" None, db).

(** ** Streak analyzer *)

Record Streaks := mkStreaks {
  currentStreak : nat;
  longestStreak : nat
}.

Definition counts_for_streak (st : string) : bool :=
  (st =? "completed")%string || (st =? "bailout")%string.

(** One turn of the first loop of [calculateStreaks] on the pair
    ([longestStreak], [tempStreak]). *)
Definition streak_step (acc : nat * nat) (day : ProgressRow) : nat * nat :=
  let '(longest, temp) := acc in
  if counts_for_streak (status day)
  then (Nat.max longest (S temp), S temp)
  else if (status day =? "missed")%string
  then (longest, 0%nat)
  else (longest, temp).

(** The second loop, over the reversed array, started with the counter. *)
Fixpoint count_current (reversed : list ProgressRow) (current : nat) : nat :=
  match reversed with
  | [] => current
  | day :: rest =>
      if counts_for_streak (status day)
      then count_current rest (S current)
      else if (status day =? "missed")%string
      then current
      else count_current rest current
  end.

(** The comparator [(a, b) => new Date(a.date) - new Date(b.date)]. *)
Definition by_date_asc (a b : ProgressRow) : Z :=
  Js.cmp_sub (Date_parse (date a)) (Date_parse (date b)).

(** [calculateStreaks(progressData)]. *)
Definition calculateStreaks (progressData : list ProgressRow) : Streaks :=
  let sorted := stable_sort by_date_asc progressData in
  let '(longest, _) := fold_left streak_step sorted (0%nat, 0%nat) in
  let reversed := rev sorted in
  let current := count_current reversed 0%nat in
  mkStreaks current longest.

(** [getTotalDaysRun(progressData)]. *)
Definition getTotalDaysRun (progressData : list ProgressRow) : nat :=
  List.length
    (List.filter (fun d => (status d =? "completed")%string) progressData).

(** ** Winner resolver *)

(** Whether a nullable [TEXT] value is truthy: neither [null] nor the empty
    string. *)
Definition truthy (v : option string) : bool :=
  match v with
  | Some s => negb (s =? "")%string
  | None => false
  end.

(** The time value of [new Date(v)] for a truthy column value. *)
Definition date_value (v : option string) : option Z :=
  match v with
  | Some s => Date_parse s
  | None => None
  end.

(** [{...u, totalDaysRun}] and [{...u, streaks}]. *)
Record WithDayCount := mkWithDayCount {
  counted_user : UserRow;
  totalDaysRun : nat
}.

Record WithStreaks := mkWithStreaks {
  streaked : WithDayCount;
  streaks : Streaks
}.

(** What [determineWinner] hands back: a bare user row, or a copy carrying
    the figures of the tie-break that settled it. *)
Inductive Winner :=
| Bare (u : UserRow)
| ByDays (w : WithDayCount)
| ByStreak (w : WithStreaks).

Definition winner_user (w : Winner) : UserRow :=
  match w with
  | Bare u => u
  | ByDays w => counted_user w
  | ByStreak w => counted_user (streaked w)
  end.

(** [progressDataMap[u.id] || []]. *)
Definition progress_of (progressDataMap : gmap Z (list ProgressRow))
    (u : UserRow) : list ProgressRow :=
  default [] (progressDataMap !! id u).

Definition by_elimination_desc (a b : UserRow) : Z :=
  Js.cmp_sub (date_value (elimination_date b))
             (date_value (elimination_date a)).

Definition by_days_desc (a b : WithDayCount) : Z :=
  Z.of_nat (totalDaysRun b) - Z.of_nat (totalDaysRun a).

Definition by_streak_desc (a b : WithStreaks) : Z :=
  Z.of_nat (longestStreak (streaks b)) - Z.of_nat (longestStreak (streaks a)).

(** [u => ({...u, totalDaysRun: getTotalDaysRun(progressDataMap[u.id] || [])})]
    and [u => ({...u, streaks: calculateStreaks(progressDataMap[u.id] || [])})]. *)
Definition with_day_count (progressDataMap : gmap Z (list ProgressRow))
    (u : UserRow) : WithDayCount :=
  mkWithDayCount u (getTotalDaysRun (progress_of progressDataMap u)).

Definition with_streaks (progressDataMap : gmap Z (list ProgressRow))
    (w : WithDayCount) : WithStreaks :=
  mkWithStreaks w (calculateStreaks (progress_of progressDataMap
                                                 (counted_user w))).

(** The two tie-breaks of [determineWinner], which reach them with two or
    more candidates.  [withDayCount[1]?.totalDaysRun] is [undefined] on a
    one-element array, and the comparison with it false. *)
Definition break_ties (progressDataMap : gmap Z (list ProgressRow))
    (candidates : list UserRow) : option Winner :=
  let withDayCount :=
    stable_sort by_days_desc
      (map (with_day_count progressDataMap) candidates) in
  let outright :=
    match withDayCount with
    | w0 :: w1 :: _ => (totalDaysRun w1 <? totalDaysRun w0)%nat
    | _ => false
    end in
  if outright then option_map ByDays (head withDayCount)
  else
    let withStreaks :=
      stable_sort by_streak_desc
        (map (with_streaks progressDataMap) withDayCount) in
    option_map ByStreak (head withStreaks).

(** [determineWinner(users, progressDataMap)]; [None] is [null]. *)
Definition determineWinner (users : list UserRow)
    (progressDataMap : gmap Z (list ProgressRow)) : option Winner :=
  let active :=
    List.filter (fun u => negb (truthy (elimination_date u))) users in
  let eliminated :=
    stable_sort by_elimination_desc
      (List.filter (fun u => truthy (elimination_date u)) users) in
  let candidates :=
    if (0 <? List.length active)%nat then active else eliminated in
  match candidates with
  | [] => None
  | [c] => Some (Bare c)
  | _ =>
      let candidates :=
        if (0 <? List.length active)%nat && (0 <? List.length eliminated)%nat
        then active else candidates in
      match candidates with
      | [c] => Some (Bare c)
      | _ => break_ties progressDataMap candidates
      end
  end.

(** ** Notions used to state the properties *)

(** The number with integer value [z]. *)
Definition num (z : Z) : Qc := Q2Qc (inject_Z z).

(** A day of the month written with two digits. *)
Definition two_digits (n : Z) : string :=
  if n <? 10 then "0" ++ Js.toString n else Js.toString n.

(** The first day of the month that follows the month of [d] in the
    calendar: December is followed by January of the next year. *)
Definition next_month_first (d : JsDate) : JsDate :=
  if getMonth d =? 11
  then mkDate (getFullYear d + 1) 0 1
  else mkDate (getFullYear d) (getMonth d + 1) 1.

(** The sum of the distances of a list of runs. *)
Fixpoint sum_distances (runs : list Run) : Qc :=
  match runs with
  | [] => 0%Qc
  | run :: rest => (distance run + sum_distances rest)%Qc
  end.

(** The days of the years 1970 to 2099, and the check that the string
    written for a day is read back as that day. *)
Definition calendar_days : list JsDate :=
  y ← seqZ 1970 130; m ← seqZ 0 12;
  d ← seqZ 1 (days_in_month y (m + 1)); [mkDate y m d].

Definition written_date_reads_back (d : JsDate) : bool :=
  bool_decide
    (Date_parse (isoDate d)
     = Some (days_from_civil (getFullYear d) (getMonth d + 1) (getDate d)
             * 86400000)).

(** All month and day pairs a [Date] can show. *)
Definition month_day_pairs : list (Z * Z) :=
  m ← seqZ 0 12; d ← seqZ 1 31; [(m, d)].

Definition distance_rule_holds (md : Z * Z) : bool :=
  let '(m, d) := md in
  bool_decide
    (getRequiredDistance (mkDate 0 m d)
     = Js.parseFloat (Js.toString (m + 1) ++ "." ++ two_digits d)
     /\ getRequiredDistance (mkDate 0 m d)
        = Some (num (m + 1) + num d / num 100)%Qc).

(** The rows of a scan that come before the first "completed" or "bailout"
    row. *)
Fixpoint before_stop (days : list ProgressRow) : list ProgressRow :=
  match days with
  | [] => []
  | day :: rest =>
      if counts_for_streak (status day) then [] else day :: before_stop rest
  end.

(** The number of "missed" rows before the first "completed" or "bailout"
    row. *)
Definition leading_misses (days : list ProgressRow) : nat :=
  List.length
    (List.filter (fun d => (status d =? "missed")%string) (before_stop days)).

(** Rows in descending date order, as [TEXT] values compare. *)
Definition newer_first (a b : ProgressRow) : Prop :=
  String.leb (date b) (date a) = true.

(** The key of the [UNIQUE(user_id, date)] constraint, and the constraint. *)
Definition progress_key (r : ProgressRow) : Z * string :=
  (user_id r, date r).

Definition unique_keys (rows : list ProgressRow) : Prop :=
  NoDup (map progress_key rows).

(** The primary key of [users]. *)
Definition primary_key (us : list UserRow) : Prop :=
  NoDup (map id us).

(** Every balance of the table is 0 or more. *)
Definition balances_nonneg (us : list UserRow) : Prop :=
  Forall (fun u => 0 <= bailout_passes u) us.

(** A sequence of [useBailoutPass] calls, one per listed user id. *)
Definition use_passes (userIds : list Z) (db : Db) : Db :=
  fold_left (fun db u => fst (useBailoutPass u db)) userIds db.

(** A store with the history missed, missed, completed, missed in
    descending date order for user 1, inserted out of order, next to rows
    of another user and a row after the date asked for. *)
Definition sample_history : Db :=
  mkDb
    [mkUser 1 "Ada" "Lovelace" 4 None None]
    [mkProgress 1 "2024-03-08" (Q2Qc (308 # 100)) (Q2Qc (4 # 1)) "completed";
     mkProgress 2 "2024-03-10" (Q2Qc (310 # 100)) (Q2Qc (5 # 1)) "completed";
     mkProgress 1 "2024-03-10" (Q2Qc (310 # 100)) 0%Qc "missed";
     mkProgress 1 "2024-03-07" (Q2Qc (307 # 100)) 0%Qc "missed";
     mkProgress 1 "2024-03-11" (Q2Qc (311 # 100)) (Q2Qc (6 # 1)) "completed";
     mkProgress 1 "2024-03-09" (Q2Qc (309 # 100)) (Q2Qc (1 # 1)) "missed"].

(** The [required_distance] the store holds for a key after an upsert that
    passes [required]: the one already stored when the key has a row, the
    passed one otherwise. *)
Definition stored_requirement (userId : Z) (dateStr : string) (required : Qc)
    (rows : list ProgressRow) : Qc :=
  match List.find (same_key userId dateStr) rows with
  | Some old => required_distance old
  | None => required
  end.


(** What a statement [UPDATE users SET elimination_date = d,
    elimination_reason = reason WHERE id = userId] makes of a row. *)
Definition eliminated_row (userId : Z) (d reason : string) (u : UserRow)
    : UserRow :=
  if id u =? userId then set_elimination d reason u else u.

(** A store with one user holding two passes and one holding none. *)
Definition sample_users : Db :=
  mkDb [mkUser 1 "Ada" "Lovelace" 2 None None;
        mkUser 2 "Alan" "Turing" 0 None None] [].

(** The number of "completed" or "bailout" rows of a list. *)
Definition count_done (l : list ProgressRow) : nat :=
  List.length (List.filter (fun d => counts_for_streak (status d)) l).

(** A stretch of rows without a "missed" one. *)
Definition missed_free (l : list ProgressRow) : Prop :=
  Forall (fun d => status d <> "missed") l.

(** Rows whose date strings denote dates, the time value of a row, and the
    ascending order of time values. *)
Definition valid_dates (l : list ProgressRow) : Prop :=
  Forall (fun r => is_Some (Date_parse (date r))) l.

Definition time_of (r : ProgressRow) : Z :=
  default 0 (Date_parse (date r)).

Definition oldest_first (a b : ProgressRow) : Prop :=
  time_of a <= time_of b.

(** The list ends right after a "missed" row, or is empty. *)
Definition ends_with_missed (pre : list ProgressRow) : Prop :=
  pre = [] \/ exists pre' m, pre = (pre' ++ [m])%list /\ status m = "missed".

(** What the first loop of [calculateStreaks] has established after the
    rows [l], with [longest] and [temp] the values of its two counters:
    [temp] counts the rows that count for a streak since the last "missed"
    row, and [longest] is the greatest such count over all stretches
    without a "missed" row. *)
Definition streak_inv (l : list ProgressRow) (longest temp : nat) : Prop :=
  (forall pre tail, l = (pre ++ tail)%list -> missed_free tail ->
                    (count_done tail <= temp)%nat)
  /\ (exists pre tail, l = (pre ++ tail)%list /\ missed_free tail
                       /\ ends_with_missed pre /\ count_done tail = temp)
  /\ (forall pre run post, l = (pre ++ run ++ post)%list -> missed_free run ->
                           (count_done run <= longest)%nat)
  /\ (exists pre run post, l = (pre ++ run ++ post)%list /\ missed_free run
                           /\ count_done run = longest)
  /\ (temp <= longest)%nat.

(** Three weeks of one runner, out of date order. *)
Definition sample_progress : list ProgressRow :=
  [mkProgress 1 "2024-03-09" (Q2Qc (309 # 100)) (Q2Qc (4 # 1)) "completed";
   mkProgress 1 "2024-03-07" (Q2Qc (307 # 100)) (Q2Qc (4 # 1)) "completed";
   mkProgress 1 "2024-03-08" (Q2Qc (308 # 100)) 0%Qc "missed";
   mkProgress 1 "2024-03-10" (Q2Qc (310 # 100)) 0%Qc "pending";
   mkProgress 1 "2024-03-11" (Q2Qc (311 # 100)) 0%Qc "bailout"].

(** A user row with an elimination date: neither [null] nor empty. *)
Definition has_elimination_date (u : UserRow) : bool :=
  truthy (elimination_date u).

(** The candidates of the winner resolver: the users without an elimination
    date, or, when there is none, the eliminated users with the latest
    elimination first. *)
Definition candidate_pool (users : list UserRow) : list UserRow :=
  match List.filter (fun u => negb (has_elimination_date u)) users with
  | [] =>
      stable_sort by_elimination_desc (List.filter has_elimination_date users)
  | active => active
  end.

Definition elimination_time (u : UserRow) : Z :=
  default 0 (date_value (elimination_date u)).

Definition latest_elimination_first (a b : UserRow) : Prop :=
  elimination_time b <= elimination_time a.

Definition valid_elimination_dates (us : list UserRow) : Prop :=
  Forall (fun u => is_Some (date_value (elimination_date u))) us.

Definition more_days_first (a b : WithDayCount) : Prop :=
  (totalDaysRun b <= totalDaysRun a)%nat.

Definition streak_length (w : WithStreaks) : nat :=
  longestStreak (streaks w).

(** Two runners still in the challenge, with 2 and 1 completed days, and the
    same pair tied at 1 completed day with longest streaks 1 and 2. *)
Definition sample_runners : list UserRow :=
  [mkUser 1 "Ada" "Lovelace" 4 None None;
   mkUser 2 "Alan" "Turing" 4 None None].

Definition sample_days (first second : list string)
    : gmap Z (list ProgressRow) :=
  let rows uid sts :=
    imap (fun i st =>
            mkProgress uid (isoDate (mkDate 2024 2 (Z.of_nat i + 1)))
                       (Q2Qc (3 # 1)) (Q2Qc (3 # 1)) st) sts in
  <[1 := rows 1 first]> (<[2 := rows 2 second]> ∅).

(** ** Further store functions *)

(** [getUserById(id)]: the row, or [None] for [undefined]. *)
Definition getUserById (userId : Z) (db : Db) : option UserRow :=
  List.find (fun u => id u =? userId) (users db).

(** ** Activities

    An activity as the feed delivers it and as [saveActivity] receives it,
    and a row of the [activities] table (without the surrogate [id] and
    [created_at]).  The table is kept next to the store record: no function
    reads it together with the other two tables. *)
Record Activity := mkActivity {
  activity_id : Z;
  activity_name : string;
  activity_distance : Qc;
  activity_moving_time : Z;
  activity_elapsed_time : Z;
  activity_type : string;
  start_date : string
}.

Record ActivityRow := mkActivityRow {
  row_user_id : Z;
  strava_activity_id : string;
  row_name : string;
  row_distance : Qc;
  row_moving_time : Z;
  row_elapsed_time : Z;
  row_type : string;
  row_start_date : string
}.

(** The factor [0.000621371] from meters to miles. *)
Definition meters_to_miles : Qc := Q2Qc (621371 # 1000000000).

(** What [ON CONFLICT(strava_activity_id) DO UPDATE SET distance = ...,
    moving_time = ..., elapsed_time = ...] leaves of the row in conflict. *)
Definition activity_conflict_update (excluded r : ActivityRow) : ActivityRow :=
  mkActivityRow (row_user_id r) (strava_activity_id r) (row_name r)
                (row_distance excluded) (row_moving_time excluded)
                (row_elapsed_time excluded) (row_type r) (row_start_date r).

Fixpoint upsert_activity (new : ActivityRow) (rows : list ActivityRow)
    : list ActivityRow :=
  match rows with
  | [] => [new]
  | r :: rest =>
      if (strava_activity_id r =? strava_activity_id new)%string
      then activity_conflict_update new r :: rest
      else r :: upsert_activity new rest
  end.

(** [saveActivity(userId, activityData)]. *)
Definition saveActivity (userId : Z) (activityData : Activity)
    (activities : list ActivityRow) : list ActivityRow * nat :=
  (upsert_activity
     (mkActivityRow userId
                    (Js.toString (activity_id activityData))
                    (activity_name activityData)
                    (activity_distance activityData * meters_to_miles)%Qc
                    (activity_moving_time activityData)
                    (activity_elapsed_time activityData)
                    (activity_type activityData)
                    (start_date activityData))
     activities,
   1%nat).

(** [getActivitiesByUser(userId, limit = 30)]: [None] is a call without the
    second argument; a negative [LIMIT] is no limit. *)
Definition getActivitiesByUser (userId : Z) (limit : option Z)
    (activities : list ActivityRow) : list ActivityRow :=
  let limit := default 30 limit in
  let rows :=
    stable_sort (fun a b => text_cmp (row_start_date b) (row_start_date a))
                (List.filter (fun r => row_user_id r =? userId) activities) in
  if limit <? 0 then rows else firstn (Z.to_nat limit) rows.

(** ** Runs of a day

    [new_Date s] stands for [new Date(s)]: the calendar day of the time the
    string denotes, or [None] for an invalid date, on which [toISOString]
    throws.  The functions below take it as an argument, so that what is
    proved of them holds however date strings are read. *)

Definition is_run (activity : Activity) : bool :=
  (activity_type activity =? "Run")%string
  || (activity_type activity =? "VirtualRun")%string.

(** [getRunsForDate(activities, date)]; [None] when the callback throws on
    an activity whose start date is invalid. *)
Fixpoint getRunsForDate (new_Date : string -> option JsDate)
    (activities : list Activity) (date : JsDate) : option (list Activity) :=
  let dateStr := isoDate date in
  match activities with
  | [] => Some []
  | activity :: rest =>
      match new_Date (start_date activity) with
      | None => None
      | Some started =>
          let activityDate := isoDate started in
          match getRunsForDate new_Date rest date with
          | None => None
          | Some runs =>
              if (activityDate =? dateStr)%string && is_run activity
              then Some (activity :: runs)
              else Some runs
          end
      end
  end.

(** The fields of an activity that [checkDailyGoal] reads. *)
Definition run_of (activity : Activity) : Run :=
  mkRun (activity_type activity) (activity_distance activity).

(** The day [new Date(s)] denotes for a date-only string as the pages
    write them, from the time value [Date_parse] gives. *)
Definition civil_from_days (z : Z) : JsDate :=
  let z := z + 719468 in
  let era := z / 146097 in
  let doe := z - era * 146097 in
  let yoe := (doe - doe / 1460 + doe / 36524 - doe / 146096) / 365 in
  let y := yoe + era * 400 in
  let doy := doe - (365 * yoe + yoe / 4 - yoe / 100) in
  let mp := (5 * doy + 2) / 153 in
  let d := doy - (153 * mp + 2) / 5 + 1 in
  let m := if mp <? 10 then mp + 3 else mp - 9 in
  mkDate (if m <=? 2 then y + 1 else y) (m - 1) d.

Definition Date_of_string (s : string) : option JsDate :=
  option_map (fun t => civil_from_days (t / 86400000)) (Date_parse s).

(** ** The day evaluation of the progress page

    What a handler leaves behind: the store when it returns, or the store
    as it is when an exception leaves the handler. *)
Inductive Outcome :=
| Returned (db : Db)
| Threw (db : Db).

Definition outcome_store (o : Outcome) : Db :=
  match o with
  | Returned db | Threw db => db
  end.

(** The day count of a date, and [date.setDate(n)]: the day [n] of the
    month of [date], counted on into the neighbouring months when [n] is
    not a day of that month. *)
Definition day_number (d : JsDate) : Z :=
  days_from_civil (getFullYear d) (getMonth d + 1) (getDate d).

Definition setDate (d : JsDate) (n : Z) : JsDate :=
  civil_from_days
    (days_from_civil (getFullYear d) (getMonth d + 1) 1 + (n - 1)).

(** [a.toDateString() === b.toDateString()]. *)
Definition same_day (a b : JsDate) : bool :=
  (getFullYear a =? getFullYear b) && (getMonth a =? getMonth b)
  && (getDate a =? getDate b).

(** One turn of the loop [for (let i = 29; i >= 0; i--)] of the progress
    page, for the offset [i]: the day [i] days before [today] is evaluated
    against the activities and saved.  [date > today] compares the two time
    values, which share their time of day.  A requirement that is [NaN]
    cannot be stored ([required_distance] is [NOT NULL]). *)
Definition evaluate_day (new_Date : string -> option JsDate)
    (today : JsDate) (activities : list Activity) (userId : Z) (i : Z)
    (db : Db) : Outcome :=
  let date := setDate today (getDate today - i) in
  match getRunsForDate new_Date activities date with
  | None => Threw db
  | Some runsForDay =>
      match getRequiredDistance date with
      | None => Threw db
      | Some requiredDistance =>
          let goalCheck :=
            checkDailyGoal (map run_of runsForDay) requiredDistance in
          let isFuture := day_number today <? day_number date in
          let isToday := same_day date today in
          let status :=
            if isFuture then "pending"
            else if goalMet goalCheck then "completed"
            else if isToday then "pending"
            else "missed" in
          Returned (fst (saveDailyProgress userId date requiredDistance
                                           (totalDistance goalCheck)
                                           status db))
      end
  end.

Fixpoint evaluate_days (new_Date : string -> option JsDate)
    (today : JsDate) (activities : list Activity) (userId : Z)
    (offsets : list Z) (db : Db) : Outcome :=
  match offsets with
  | [] => Returned db
  | i :: rest =>
      match evaluate_day new_Date today activities userId i db with
      | Returned db' =>
          evaluate_days new_Date today activities userId rest db'
      | Threw db' => Threw db'
      end
  end.

(** The loop of the progress page, from 29 days ago to today, on the
    activities of the feed with their distances already in miles. *)
Definition progress_days (new_Date : string -> option JsDate)
    (today : JsDate) (activities : list Activity) (userId : Z) (db : Db)
    : Outcome :=
  evaluate_days new_Date today activities userId
                (map (fun k => 29 - Z.of_nat k) (seq 0 30)) db.

(** ** The bailout page *)

Inductive Response :=
| Redirect (path : string)
| Send (body : string)
| Failed.

(** The handler of [/use-bailout].  [sessionUserId] is [req.session.userId]
    and [queryDate] is [req.query.date]; [Failed] is an exception that
    leaves the handler: reading [bailout_passes] of a missing user, or
    [saveDailyProgress] on an invalid date. *)
Definition use_bailout (new_Date : string -> option JsDate)
    (sessionUserId : option Z) (queryDate : option string) (db : Db)
    : Response * Db :=
  match sessionUserId with
  | None => (Redirect "/", db)
  | Some userId =>
      if userId =? 0 then (Redirect "/", db)
      else
        let user := getUserById userId db in
        let dateStr := queryDate in
        let refusal :=
          "Cannot use bailout pass. Either no date specified or no passes remaining." in
        match dateStr with
        | None => (Send refusal, db)
        | Some s =>
            if (s =? "")%string then (Send refusal, db)
            else
              match user with
              | None => (Failed, db)
              | Some user =>
                  if bailout_passes user <=? 0 then (Send refusal, db)
                  else
                    let db1 := fst (useBailoutPass (id user) db) in
                    match new_Date s with
                    | None => (Failed, db1)
                    | Some date =>
                        match getRequiredDistance date with
                        | None => (Failed, db1)
                        | Some requiredDistance =>
                            (Redirect "/progress",
                             fst (saveDailyProgress (id user) date
                                                    requiredDistance 0%Qc
                                                    "bailout" db1))
                        end
                    end
              end
        end
  end.

(** ** Further notions used to state the properties *)

(** Month and day pairs in calendar order within a year. *)
Definition earlier_in_year (p q : Z * Z) : bool :=
  (fst p <? fst q) || ((fst p =? fst q) && (snd p <? snd q)).

(** The required distance of every month and day pair, and the check that
    each lies between 1.01 and 12.31 and that the earlier of any two pairs
    requires less. *)
Definition distance_values : list ((Z * Z) * option Qc) :=
  map (fun md => (md, getRequiredDistance (mkDate 0 (fst md) (snd md))))
      month_day_pairs.

Definition distance_bounded (x : (Z * Z) * option Qc) : bool :=
  match snd x with
  | Some a =>
      bool_decide (Q2Qc (101 # 100) <= a)%Qc
      && bool_decide (a <= Q2Qc (1231 # 100))%Qc
  | None => false
  end.

Definition distance_pair_ordered (x y : (Z * Z) * option Qc) : bool :=
  match snd x, snd y with
  | Some a, Some b =>
      implb (earlier_in_year (fst x) (fst y)) (bool_decide (a < b)%Qc)
  | _, _ => false
  end.

Definition distance_ordered_after (x : (Z * Z) * option Qc) : bool :=
  distance_bounded x && forallb (distance_pair_ordered x) distance_values.


Definition newest_activity_first (a b : ActivityRow) : Prop :=
  String.leb (row_start_date b) (row_start_date a) = true.

(** The row that holds an activity after [saveActivity]: a new row owned by
    the caller, or the row already there with its distance and times
    replaced. *)
Definition stored_activity (userId : Z) (activityData : Activity)
    (rows : list ActivityRow) : ActivityRow :=
  let sid := Js.toString (activity_id activityData) in
  let miles := (activity_distance activityData * meters_to_miles)%Qc in
  match List.find (fun r => (strava_activity_id r =? sid)%string) rows with
  | Some old =>
      mkActivityRow (row_user_id old) sid (row_name old) miles
                    (activity_moving_time activityData)
                    (activity_elapsed_time activityData)
                    (row_type old) (row_start_date old)
  | None =>
      mkActivityRow userId sid (activity_name activityData) miles
                    (activity_moving_time activityData)
                    (activity_elapsed_time activityData)
                    (activity_type activityData) (start_date activityData)
  end.

(** A morning run of 5 km, a walk and a virtual run. *)
Definition sample_feed : list Activity :=
  [mkActivity 101 "Morning run" (Q2Qc (5000 # 1)) 1500 1600 "Run"
              "2024-03-07";
   mkActivity 102 "Walk" (Q2Qc (2000 # 1)) 1500 1600 "Walk" "2024-03-07";
   mkActivity 103 "Treadmill" (Q2Qc (3000 # 1)) 900 900 "VirtualRun"
              "2024-03-08"].

(** A calendar day of the years 1971 to 2099. *)
Definition calendar_day (d : JsDate) : Prop :=
  1971 <= getFullYear d <= 2099
  /\ 0 <= getMonth d <= 11
  /\ 1 <= getDate d <= days_in_month (getFullYear d) (getMonth d + 1).

(** The day [i] days before [today]. *)
Definition days_before (today : JsDate) (i : Z) : JsDate :=
  civil_from_days (day_number today - i).

(** The status the progress page gives a day [i] days ago. *)
Definition evaluated_status (met : bool) (i : Z) : string :=
  if met then "completed" else if i =? 0 then "pending" else "missed".

(** The offsets the loop of the progress page runs through. *)
Definition progress_offsets : list Z :=
  map (fun k => 29 - Z.of_nat k) (seq 0 30).

(** A store where user 1 has spent a bailout on 2024-03-08. *)
Definition sample_bailout : Db :=
  mkDb [mkUser 1 "Ada" "Lovelace" 3 None None]
       [mkProgress 1 "2024-03-08" (Q2Qc (308 # 100)) 0%Qc "bailout"].

(** * Properties *)

Local Open Scope list_scope.

(** ** The primitives on sample inputs *)

Example padStart_pads : Js.padStart 2 "0" (Js.toString 7) = "07".
Proof. reflexivity. Qed.

Example padStart_keeps : Js.padStart 2 "0" (Js.toString 31) = "31".
Proof. reflexivity. Qed.

Example parseFloat_reads_prefix :
  Js.parseFloat "4.03 miles" = Some (Q2Qc (403 # 100))
  /\ Js.parseFloat "." = None.
Proof. split; [vm_compute; f_equal; apply Qc_is_canon |]; reflexivity. Qed.

Example isoDate_sample :
  isoDate (mkDate 2024 2 7) = "2024-03-07"
  /\ isoDate (mkDate 12024 11 31) = "+012024-12-31".
Proof. split; reflexivity. Qed.

Example Date_parse_sample :
  Date_parse "1970-01-02" = Some 86400000
  /\ Date_parse "2024-03-07" = Some 1709769600000
  /\ Date_parse "2024-02-30" = None
  /\ Date_parse "yesterday" = None.
Proof. repeat split; reflexivity. Qed.

Example stable_sort_keeps_ties :
  stable_sort (fun a b => fst b - fst a) [(1, "a"); (3, "b"); (1, "c"); (3, "d")]
  = [(3, "b"); (3, "d"); (1, "a"); (1, "c")].
Proof. reflexivity. Qed.

(** The date strings the store writes are read back as dates: checked for
    every day from 1970 to 2099. *)
Lemma Date_parse_isoDate (d : JsDate) :
  1970 <= getFullYear d <= 2099 ->
  0 <= getMonth d <= 11 ->
  1 <= getDate d <= days_in_month (getFullYear d) (getMonth d + 1) ->
  Date_parse (isoDate d)
  = Some (days_from_civil (getFullYear d) (getMonth d + 1) (getDate d)
          * 86400000).
Proof.
  intros Hy Hm Hd.
  assert (Hall : forallb written_date_reads_back calendar_days = true)
    by (vm_compute; reflexivity).
  rewrite forallb_forall in Hall.
  assert (Hin : In d calendar_days).
  { apply list_elem_of_In. unfold calendar_days.
    apply list_elem_of_bind. exists (getFullYear d).
    split; [| apply elem_of_seqZ; lia].
    apply list_elem_of_bind. exists (getMonth d).
    split; [| apply elem_of_seqZ; lia].
    apply list_elem_of_bind. exists (getDate d).
    split; [| apply elem_of_seqZ; lia].
    destruct d. apply list_elem_of_singleton. reflexivity. }
  apply Hall in Hin. unfold written_date_reads_back in Hin.
  apply bool_decide_eq_true in Hin. exact Hin.
Qed.

(** ** Distance rule *)

Lemma getRequiredDistance_year_irrelevant (y y' m d : Z) :
  getRequiredDistance (mkDate y m d) = getRequiredDistance (mkDate y' m d).
Proof. reflexivity. Qed.

Lemma month_day_pairs_complete (m d : Z) :
  0 <= m <= 11 -> 1 <= d <= 31 -> (m, d) ∈ month_day_pairs.
Proof.
  intros Hm Hd. unfold month_day_pairs.
  apply list_elem_of_bind. exists m. split; [| apply elem_of_seqZ; lia].
  apply list_elem_of_bind. exists d. split; [| apply elem_of_seqZ; lia].
  apply list_elem_of_singleton. reflexivity.
Qed.

Lemma distance_rule_all_pairs :
  forallb distance_rule_holds month_day_pairs = true.
Proof. vm_compute. reflexivity. Qed.

(** C4: for every calendar date, [getRequiredDistance] is the parse of the
    month number, a point and the two-digit day, which is the number
    month + day/100; 2024-03-07 gives 3.07, 2024-12-31 gives 12.31 and
    2024-01-05 gives 1.05. *)
Theorem getRequiredDistance_is_month_point_day (date : JsDate) :
  0 <= getMonth date <= 11 ->
  1 <= getDate date <= 31 ->
  getRequiredDistance date
    = Js.parseFloat (Js.toString (getMonth date + 1) ++ "."
                     ++ two_digits (getDate date))%string
  /\ getRequiredDistance date
     = Some (num (getMonth date + 1) + num (getDate date) / num 100)%Qc
  /\ getRequiredDistance (mkDate 2024 2 7) = Some (Q2Qc (307 # 100))
  /\ getRequiredDistance (mkDate 2024 11 31) = Some (Q2Qc (1231 # 100))
  /\ getRequiredDistance (mkDate 2024 0 5) = Some (Q2Qc (105 # 100)).
Proof.
  intros Hm Hd.
  assert (Hall := distance_rule_all_pairs).
  rewrite forallb_forall in Hall.
  specialize (Hall (getMonth date, getDate date)).
  assert (Hin : In (getMonth date, getDate date) month_day_pairs).
  { apply list_elem_of_In. apply month_day_pairs_complete; assumption. }
  apply Hall in Hin. unfold distance_rule_holds in Hin.
  apply bool_decide_eq_true in Hin. destruct Hin as [Hs Hv].
  destruct date as [y m d]. simpl in *.
  rewrite (getRequiredDistance_year_irrelevant y 0).
  split; [exact Hs |]. split; [exact Hv |].
  repeat split; vm_compute; f_equal; apply Qc_is_canon; reflexivity.
Qed.

Lemma getRequiredDistance_is_month_point_day_witness :
  getRequiredDistance (mkDate 2024 3 3) = Some (Q2Qc (403 # 100)).
Proof.
  pose proof (getRequiredDistance_is_month_point_day (mkDate 2024 3 3)
                ltac:(simpl; lia) ltac:(simpl; lia)) as (_ & Hv & _).
  rewrite Hv. f_equal; apply Qc_is_canon; reflexivity.
Defined.

Lemma month_cases (m : Z) :
  0 <= m <= 11 ->
  m = 0 \/ m = 1 \/ m = 2 \/ m = 3 \/ m = 4 \/ m = 5 \/ m = 6 \/ m = 7
  \/ m = 8 \/ m = 9 \/ m = 10 \/ m = 11.
Proof. lia. Qed.

Ltac each_month m H :=
  destruct (month_cases m H)
    as [-> | [-> | [-> | [-> | [-> | [-> | [-> | [-> | [-> | [-> | [-> | ->
       ]]]]]]]]]]].

Lemma not_Qclt_by_computation (a b : Qc) :
  bool_decide (a < b)%Qc = false -> ~ (a < b)%Qc.
Proof. intros H. apply bool_decide_eq_false in H. exact H. Qed.

Lemma Qclt_by_computation (a b : Qc) :
  bool_decide (a < b)%Qc = true -> (a < b)%Qc.
Proof. intros H. apply bool_decide_eq_true in H. exact H. Qed.

(** C9, as stated, fails: there is no month x whose day 31 requires more
    than day 1 of the following month with that day's requirement being
    (x+1).01.  Within a year x.31 is below (x+1).01, and after December the
    following month is January, whose first day requires 1.01, not 13.01. *)
Lemma no_month_exceeds_next_month_value :
  ~ exists d : JsDate,
      0 <= getMonth d <= 11 /\ getDate d = 31 /\
      exists a b : Qc,
        getRequiredDistance d = Some a /\
        getRequiredDistance (next_month_first d) = Some b /\
        b = (num (getMonth d + 1 + 1) + num 1 / num 100)%Qc /\
        (b < a)%Qc.
Proof.
  intros ([y m dd] & Hm & Hd & a & b & Ha & Hb & Hval & Hlt).
  simpl in *. subst dd.
  each_month m Hm;
    unfold next_month_first in Hb; simpl in Hb;
    injection Ha as <-; injection Hb as <-;
    first
      [ revert Hlt; apply not_Qclt_by_computation; vm_compute; reflexivity
      | apply (f_equal this) in Hval; vm_compute in Hval; discriminate Hval ].
Qed.

(** C9 (amended): on the last day of a 31-day month other than December the
    requirement is below that of the first day of the next month; the one
    drop is at the turn of the year, from 12.31 on 31 December to 1.01 on
    1 January. *)
Theorem distance_rule_drops_only_at_new_year (d : JsDate) :
  0 <= getMonth d <= 11 ->
  getDate d = 31 ->
  exists a b : Qc,
    getRequiredDistance d = Some a /\
    getRequiredDistance (next_month_first d) = Some b /\
    (getMonth d < 11 -> (a < b)%Qc) /\
    (getMonth d = 11 ->
     a = Q2Qc (1231 # 100) /\ b = Q2Qc (101 # 100) /\ (b < a)%Qc).
Proof.
  intros Hm Hd. destruct d as [y m dd]. simpl in *. subst dd.
  each_month m Hm;
    unfold next_month_first; simpl;
    (eexists; eexists; split; [reflexivity |]; split; [reflexivity |];
     split;
     [ intros Hlt; first [ lia | apply Qclt_by_computation; vm_compute;
                                 reflexivity ]
     | intros Heq; first [ lia | repeat split;
                                 first [ apply Qc_is_canon; reflexivity
                                       | apply Qclt_by_computation;
                                         vm_compute; reflexivity ] ] ]).
Qed.

Lemma distance_rule_drops_only_at_new_year_witness :
  exists a b : Qc,
    getRequiredDistance (mkDate 2024 11 31) = Some a /\
    getRequiredDistance (mkDate 2025 0 1) = Some b /\
    (b < a)%Qc.
Proof.
  destruct (distance_rule_drops_only_at_new_year (mkDate 2024 11 31)
              ltac:(simpl; lia) ltac:(reflexivity))
    as (a & b & Ha & Hb & _ & Hdec).
  exists a, b. split; [exact Ha |]. split; [exact Hb |].
  apply Hdec. reflexivity.
Defined.

(** ** Goal evaluator *)

Lemma fold_left_distance (runs : list Run) (acc : Qc) :
  fold_left (fun sum run => (sum + distance run)%Qc) runs acc
  = (acc + sum_distances runs)%Qc.
Proof.
  revert acc. induction runs as [| run rest IH]; intros acc; simpl.
  - ring.
  - rewrite IH. ring.
Qed.





(** ** Facts about the stable sort *)

Section StableSortFacts.
Context {A : Type} (cmp : A -> A -> Z).

Lemma insert_sorted_Permutation (x : A) (l : list A) :
  insert_sorted cmp x l ≡ₚ x :: l.
Proof.
  induction l as [| y ys IH]; simpl; [reflexivity |].
  destruct (cmp x y <=? 0); [reflexivity |].
  rewrite IH. apply Permutation_swap.
Qed.

Lemma stable_sort_Permutation (l : list A) : stable_sort cmp l ≡ₚ l.
Proof.
  induction l as [| x xs IH]; simpl; [reflexivity |].
  rewrite insert_sorted_Permutation, IH. reflexivity.
Qed.

Lemma stable_sort_length (l : list A) :
  List.length (stable_sort cmp l) = List.length l.
Proof. apply Permutation_length, stable_sort_Permutation. Qed.

Lemma stable_sort_nil_inv (l : list A) : stable_sort cmp l = [] -> l = [].
Proof.
  intros H. apply (f_equal (@List.length A)) in H.
  rewrite stable_sort_length in H. destruct l; [reflexivity | discriminate].
Qed.

Lemma stable_sort_elem_of (x : A) (l : list A) :
  x ∈ stable_sort cmp l <-> x ∈ l.
Proof. rewrite stable_sort_Permutation. reflexivity. Qed.

(** The sort puts its result in the order [R] whenever the comparator
    decides [R] on the elements at hand. *)
Section Ordered.
Context (R : A -> A -> Prop) (P : A -> Prop).
Hypothesis R_trans : forall x y z, R x y -> R y z -> R x z.
Hypothesis cmp_R :
  forall x y, P x -> P y ->
              (cmp x y <= 0 -> R x y) /\ (0 < cmp x y -> R y x).

Lemma insert_sorted_StronglySorted (x : A) (l : list A) :
  P x -> Forall P l -> StronglySorted R l ->
  StronglySorted R (insert_sorted cmp x l).
Proof.
  intros Px HP HS. induction HS as [| y ys HS IH Hy]; simpl.
  - constructor; constructor.
  - apply Forall_cons in HP as [Py HP].
    destruct (Z.leb_spec (cmp x y) 0) as [Hle | Hgt].
    + constructor; [constructor; assumption |].
      assert (Rxy : R x y) by (apply (proj1 (cmp_R x y Px Py)); exact Hle).
      constructor; [exact Rxy |].
      eapply Forall_impl; [exact Hy |].
      intros z Ryz. simpl in Ryz. eapply R_trans; eassumption.
    + constructor; [apply IH; exact HP |].
      rewrite insert_sorted_Permutation.
      constructor; [apply (proj2 (cmp_R x y Px Py)); exact Hgt | exact Hy].
Qed.

Lemma stable_sort_StronglySorted (l : list A) :
  Forall P l -> StronglySorted R (stable_sort cmp l).
Proof.
  induction l as [| x xs IH]; intros HP; simpl; [constructor |].
  apply Forall_cons in HP as [Px HP].
  apply insert_sorted_StronglySorted; [exact Px | | apply IH; exact HP].
  rewrite stable_sort_Permutation. exact HP.
Qed.
End Ordered.
End StableSortFacts.

(** The head of a descending sort on a numeric key is the first element
    that carries the greatest key. *)
Lemma stable_sort_desc_head {A : Type} (key : A -> nat) (l : list A)
    (x : A) (rest : list A) :
  stable_sort (fun a b => Z.of_nat (key b) - Z.of_nat (key a)) l = x :: rest ->
  exists pre post,
    l = pre ++ x :: post
    /\ Forall (fun c => (key c < key x)%nat) pre
    /\ Forall (fun c => (key c <= key x)%nat) post.
Proof.
  revert x rest. induction l as [| a l IH]; intros x rest; simpl; [discriminate |].
  destruct (stable_sort _ l) as [| y ys] eqn:Hs; simpl.
  - intros [= <- <-]. apply stable_sort_nil_inv in Hs. subst l.
    exists [], []. repeat split; constructor.
  - destruct (IH y ys eq_refl) as (pre & post & -> & Hpre & Hpost).
    destruct (Z.leb_spec (Z.of_nat (key y) - Z.of_nat (key a)) 0) as [Hle | Hgt].
    + intros [= <- <-]. exists [], (pre ++ y :: post).
      split; [reflexivity |]. split; [constructor |].
      apply Forall_app. split; [| constructor].
      * eapply Forall_impl; [exact Hpre |]. simpl. intros; lia.
      * lia.
      * eapply Forall_impl; [exact Hpost |]. simpl. intros; lia.
    + intros [= <- <-]. exists (a :: pre), post.
      split; [reflexivity |]. split; [| exact Hpost].
      constructor; [lia | exact Hpre].
Qed.

(** ** The order of [TEXT] values *)

Lemma ascii_compare_spec (a b : ascii) :
  CompareSpec (a = b) (N_of_ascii a < N_of_ascii b)%N
              (N_of_ascii b < N_of_ascii a)%N (Ascii.compare a b).
Proof.
  unfold Ascii.compare.
  destruct (N.compare_spec (N_of_ascii a) (N_of_ascii b)) as [He | Hl | Hg];
    constructor; try assumption.
  rewrite <- (ascii_N_embedding a), <- (ascii_N_embedding b), He. reflexivity.
Qed.

Lemma string_leb_trans (a b c : string) :
  String.leb a b = true -> String.leb b c = true -> String.leb a c = true.
Proof.
  unfold String.leb. revert b c.
  induction a as [| x a IH]; intros [| y b] [| z c]; simpl; try easy.
  destruct (ascii_compare_spec x y) as [-> | Hxy | Hxy]; [| | easy].
  - destruct (ascii_compare_spec y z) as [-> | Hyz | Hyz]; [| easy | easy].
    apply IH.
  - intros _.
    destruct (ascii_compare_spec y z) as [-> | Hyz | Hyz]; [| | easy]; intros _.
    + destruct (ascii_compare_spec x z) as [-> | Hxz | Hxz]; [lia | easy | lia].
    + destruct (ascii_compare_spec x z) as [-> | Hxz | Hxz]; [lia | easy | lia].
Qed.

Lemma text_cmp_le (a b : string) :
  text_cmp a b <= 0 <-> String.leb a b = true.
Proof.
  unfold text_cmp, String.leb.
  destruct (String.compare a b); split; (lia || easy).
Qed.

Lemma text_cmp_gt (a b : string) :
  0 < text_cmp a b -> String.leb b a = true.
Proof.
  unfold text_cmp, String.leb. rewrite (String.compare_antisym b a).
  destruct (String.compare a b); simpl; (lia || easy).
Qed.

(** ** Consecutive misses *)

Lemma missed_does_not_stop (st : string) :
  (st =? "missed")%string = true -> counts_for_streak st = false.
Proof. intros H. apply String.eqb_eq in H. subst st. reflexivity. Qed.

Lemma count_misses_leading (days : list ProgressRow) (n : nat) :
  count_misses days n = (n + leading_misses days)%nat.
Proof.
  unfold leading_misses. revert n.
  induction days as [| day rest IH]; intros n; simpl; [lia |].
  destruct (status day =? "missed")%string eqn:Hm.
  - rewrite (missed_does_not_stop _ Hm). simpl. rewrite Hm. simpl.
    rewrite IH. lia.
  - fold (counts_for_streak (status day)).
    destruct (counts_for_streak (status day)); simpl; [lia |].
    rewrite Hm. apply IH.
Qed.

Lemma order_by_date_desc_sorted (rows : list ProgressRow) :
  StronglySorted newer_first (order_by_date_desc rows).
Proof.
  unfold order_by_date_desc.
  apply (stable_sort_StronglySorted _ newer_first (fun _ => True)).
  - intros x y z Hxy Hyz. unfold newer_first in *.
    eapply string_leb_trans; eassumption.
  - intros x y _ _. unfold newer_first. split.
    + apply text_cmp_le.
    + apply text_cmp_gt.
  - apply Forall_forall. intros; exact I.
Qed.

(** C1: [getConsecutiveMisses] reads at most the 10 most recent rows of the
    user dated on or before the given day, newest first, and returns the
    number of "missed" rows that come before the first "completed" or
    "bailout" row: a "missed" row adds one, a "completed" or "bailout" row
    ends the scan, any other row is stepped over.  The history missed,
    missed, completed, missed gives 2. *)
Theorem getConsecutiveMisses_spec (userId : Z) (asOfDate : JsDate) (db : Db) :
  let endStr := isoDate asOfDate in
  let matching :=
    List.filter (fun r => (user_id r =? userId) && String.leb (date r) endStr)
                (daily_progress db) in
  let window := recent_days userId endStr db in
  getConsecutiveMisses userId asOfDate db = leading_misses window
  /\ (List.length window <= 10)%nat
  /\ (exists older,
        window ++ older ≡ₚ matching
        /\ StronglySorted newer_first (window ++ older)
        /\ List.length window = Nat.min 10 (List.length matching))
  /\ (forall day rest n,
        count_misses (day :: rest) n
        = if (status day =? "missed")%string then count_misses rest (S n)
          else if (status day =? "completed")%string
                  || (status day =? "bailout")%string then n
          else count_misses rest n)
  /\ getConsecutiveMisses 1 (mkDate 2024 2 10) sample_history = 2%nat.
Proof.
  intros endStr matching window.
  split; [apply (count_misses_leading window 0) |].
  split; [apply firstn_le_length |].
  split.
  - exists (skipn 10 (order_by_date_desc matching)).
    unfold window, recent_days. fold matching.
    rewrite firstn_skipn. split; [| split].
    + apply stable_sort_Permutation.
    + apply order_by_date_desc_sorted.
    + rewrite length_take.
      unfold order_by_date_desc. rewrite stable_sort_length. reflexivity.
  - split; [reflexivity |]. vm_compute. reflexivity.
Qed.

(** ** Progress store *)

Lemma same_key_spec (userId : Z) (dateStr : string) (r : ProgressRow) :
  same_key userId dateStr r = true <-> progress_key r = (userId, dateStr).
Proof.
  unfold same_key, progress_key. rewrite andb_true_iff, Z.eqb_eq, String.eqb_eq.
  split; [intros [-> ->]; reflexivity | intros [= -> ->]; auto].
Qed.

Lemma find_same_key_None (userId : Z) (dateStr : string)
    (rows : list ProgressRow) :
  List.find (same_key userId dateStr) rows = None ->
  (userId, dateStr) ∉ map progress_key rows.
Proof.
  induction rows as [| r rest IH]; simpl; intros Hf; [apply not_elem_of_nil |].
  destruct (same_key userId dateStr r) eqn:Hk; [discriminate |].
  apply not_elem_of_cons. split; [| apply IH; exact Hf].
  intros Heq. symmetry in Heq. apply same_key_spec in Heq. congruence.
Qed.

Lemma upsert_progress_written (userId : Z) (dateStr : string)
    (required completed : Qc) (st : string) (rows : list ProgressRow) :
  mkProgress userId dateStr (stored_requirement userId dateStr required rows)
             completed st
  ∈ upsert_progress (mkProgress userId dateStr required completed st) rows.
Proof.
  unfold stored_requirement.
  induction rows as [| r rest IH]; simpl; [apply list_elem_of_here |].
  destruct (same_key userId dateStr r) eqn:Hk.
  - apply same_key_spec in Hk. injection Hk as Hu Hd.
    unfold on_conflict_update. simpl. rewrite Hu, Hd. apply list_elem_of_here.
  - apply list_elem_of_further. exact IH.
Qed.

Lemma upsert_progress_keys (new : ProgressRow) (rows : list ProgressRow) :
  map progress_key (upsert_progress new rows)
  = match List.find (same_key (user_id new) (date new)) rows with
    | Some _ => map progress_key rows
    | None => map progress_key rows ++ [progress_key new]
    end.
Proof.
  induction rows as [| r rest IH]; simpl; [reflexivity |].
  destruct (same_key (user_id new) (date new) r) eqn:Hk; simpl.
  - reflexivity.
  - rewrite IH. destruct (List.find _ rest); reflexivity.
Qed.

Lemma upsert_progress_unique (new : ProgressRow) (rows : list ProgressRow) :
  unique_keys rows -> unique_keys (upsert_progress new rows).
Proof.
  unfold unique_keys. intros Hnd. rewrite upsert_progress_keys.
  destruct (List.find _ rows) eqn:Hf; [exact Hnd |].
  apply NoDup_app. split; [exact Hnd |]. split; [| apply NoDup_singleton].
  intros k Hk Hin. apply list_elem_of_singleton in Hin. subst k.
  exact (find_same_key_None _ _ _ Hf Hk).
Qed.

Lemma unique_keys_agree (rows : list ProgressRow) (r r' : ProgressRow) :
  unique_keys rows -> r ∈ rows -> r' ∈ rows ->
  progress_key r = progress_key r' -> r = r'.
Proof.
  unfold unique_keys. induction rows as [| x rest IH]; simpl; intros Hnd Hr Hr' Hk.
  - apply elem_of_nil in Hr. contradiction.
  - apply NoDup_cons in Hnd as [Hx Hnd].
    apply elem_of_cons in Hr as [-> | Hr]; apply elem_of_cons in Hr' as [-> | Hr'].
    + reflexivity.
    + exfalso. apply Hx. rewrite Hk. apply list_elem_of_fmap_2. exact Hr'.
    + exfalso. apply Hx. rewrite <- Hk. apply list_elem_of_fmap_2. exact Hr.
    + apply IH; assumption.
Qed.

Lemma getDailyProgress_elem_of (userId : Z) (startDate endDate : JsDate)
    (db : Db) (r : ProgressRow) :
  r ∈ getDailyProgress userId startDate endDate db
  <-> r ∈ daily_progress db
      /\ user_id r = userId
      /\ String.leb (isoDate startDate) (date r) = true
      /\ String.leb (date r) (isoDate endDate) = true.
Proof.
  unfold getDailyProgress, order_by_date_desc.
  rewrite stable_sort_elem_of, !list_elem_of_In, filter_In.
  rewrite !andb_true_iff, Z.eqb_eq. tauto.
Qed.




(** ** Bailout ledger *)

Lemma getBailoutPasses_after_use (userId v : Z) (db : Db) :
  getBailoutPasses userId (fst (useBailoutPass v db))
  = if (v =? userId) && (0 <? getBailoutPasses userId db)
    then getBailoutPasses userId db - 1
    else getBailoutPasses userId db.
Proof.
  unfold getBailoutPasses, useBailoutPass. simpl.
  induction (users db) as [| u us IH]; simpl.
  - rewrite andb_false_r. reflexivity.
  - destruct (id u =? v) eqn:Hv; simpl.
    + apply Z.eqb_eq in Hv.
      destruct (0 <? bailout_passes u) eqn:Hp; simpl.
      * destruct (id u =? userId) eqn:Hu.
        -- apply Z.eqb_eq in Hu.
           assert (Hvu : (v =? userId) = true) by (apply Z.eqb_eq; congruence).
           rewrite Hvu, Hp. reflexivity.
        -- exact IH.
      * destruct (id u =? userId) eqn:Hu.
        -- rewrite Hp, andb_false_r. reflexivity.
        -- exact IH.
    + destruct (id u =? userId) eqn:Hu.
      * apply Z.eqb_eq in Hu. apply Z.eqb_neq in Hv.
        assert (Hvu : (v =? userId) = false) by (apply Z.eqb_neq; congruence).
        rewrite Hvu. reflexivity.
      * exact IH.
Qed.

Lemma useBailoutPass_noop (userId : Z) (us : list UserRow) :
  Forall (fun u => id u = userId -> bailout_passes u <= 0) us ->
  map (fun u => if (id u =? userId) && (0 <? bailout_passes u)
                then spend_pass u else u) us = us
  /\ List.filter (fun u => (id u =? userId) && (0 <? bailout_passes u)) us = [].
Proof.
  induction 1 as [| u us Hu _ [IHm IHf]]; simpl; [split; reflexivity |].
  assert (Hhit : (id u =? userId) && (0 <? bailout_passes u) = false).
  { destruct (Z.eqb_spec (id u) userId) as [Heq | Hne]; [| reflexivity].
    simpl. apply Z.ltb_ge. apply Hu. exact Heq. }
  rewrite Hhit, IHm, IHf. split; reflexivity.
Qed.

Lemma zero_balance_rows (userId : Z) (us : list UserRow) :
  primary_key us ->
  match List.find (fun u => id u =? userId) us with
  | Some result => bailout_passes result
  | None => 0
  end = 0 ->
  Forall (fun u => id u = userId -> bailout_passes u <= 0) us.
Proof.
  unfold primary_key. induction us as [| u us IH]; simpl; intros Hnd Hb.
  - constructor.
  - apply NoDup_cons in Hnd as [Hu Hnd].
    destruct (Z.eqb_spec (id u) userId) as [Heq | Hne].
    + constructor; [intros _; lia |].
      apply Forall_forall. intros w Hw Hid. exfalso. apply Hu.
      rewrite Heq, <- Hid. apply list_elem_of_fmap_2. exact Hw.
    + constructor; [intros Heq; contradiction |]. apply IH; assumption.
Qed.

Lemma use_passes_nonneg (userId : Z) (calls : list Z) (db : Db) :
  0 <= getBailoutPasses userId db ->
  0 <= getBailoutPasses userId (use_passes calls db).
Proof.
  unfold use_passes. revert db.
  induction calls as [| v calls IH]; intros db Hb; cbn [fold_left];
    [exact Hb |].
  apply IH. rewrite getBailoutPasses_after_use.
  destruct ((v =? userId) && (0 <? getBailoutPasses userId db)) eqn:Hc;
    [| exact Hb].
  apply andb_true_iff in Hc as [_ Hp]. apply Z.ltb_lt in Hp. lia.
Qed.

Lemma use_passes_repeat (userId : Z) (n : nat) (db : Db) :
  0 <= getBailoutPasses userId db ->
  getBailoutPasses userId (use_passes (replicate n userId) db)
  = Z.max 0 (getBailoutPasses userId db - Z.of_nat n).
Proof.
  unfold use_passes. revert db.
  induction n as [| n IH]; intros db Hb; cbn [replicate fold_left]; [lia |].
  assert (Hstep := getBailoutPasses_after_use userId userId db).
  rewrite Z.eqb_refl, andb_true_l in Hstep.
  destruct (Z.ltb_spec 0 (getBailoutPasses userId db)) as [Hpos | Hzero];
    rewrite IH; rewrite Hstep; lia.
Qed.

Lemma use_passes_balances_nonneg (calls : list Z) (db : Db) :
  balances_nonneg (users db) -> balances_nonneg (users (use_passes calls db)).
Proof.
  unfold use_passes, balances_nonneg. revert db.
  induction calls as [| v calls IH]; intros db Hb; cbn [fold_left];
    [exact Hb |].
  apply IH. unfold useBailoutPass. cbn [fst users].
  apply Forall_fmap. eapply Forall_impl; [exact Hb |].
  intros u Hu. simpl.
  destruct ((id u =? v) && (0 <? bailout_passes u)) eqn:Hc; [| exact Hu].
  apply andb_true_iff in Hc as [_ Hp]. apply Z.ltb_lt in Hp. simpl. lia.
Qed.

(** C7: [useBailoutPass] takes exactly one pass from a user whose balance is
    above 0 and leaves a user whose balance is 0 as they are, returning
    normally with the store unchanged; a balance that starts at 0 or above
    stays at 0 or above through any sequence of calls; and a balance of 2
    is 1 after one use. *)
Theorem useBailoutPass_spec (userId : Z) (db : Db) :
  let db' := fst (useBailoutPass userId db) in
  (0 < getBailoutPasses userId db ->
   getBailoutPasses userId db' = getBailoutPasses userId db - 1)
  /\ (getBailoutPasses userId db = 0 ->
      getBailoutPasses userId db' = 0
      /\ (primary_key (users db) ->
          useBailoutPass userId db = (db, 0%nat)))
  /\ (forall calls : list Z,
        (0 <= getBailoutPasses userId db ->
         0 <= getBailoutPasses userId (use_passes calls db))
        /\ (balances_nonneg (users db) ->
            balances_nonneg (users (use_passes calls db))))
  /\ (forall n : nat,
        0 <= getBailoutPasses userId db ->
        getBailoutPasses userId (use_passes (replicate n userId) db)
        = Z.max 0 (getBailoutPasses userId db - Z.of_nat n))
  /\ (getBailoutPasses userId db = 2 -> getBailoutPasses userId db' = 1)
  /\ (forall other, other <> userId ->
        getBailoutPasses other db' = getBailoutPasses other db)
  /\ daily_progress db' = daily_progress db.
Proof.
  intros db'. subst db'.
  split; [| split; [| split; [| split; [| split; [| split]]]]].
  - intros Hp. rewrite getBailoutPasses_after_use.
    rewrite Z.eqb_refl. apply Z.ltb_lt in Hp. rewrite Hp. reflexivity.
  - intros Hz. split.
    + rewrite getBailoutPasses_after_use, Hz, andb_false_r. reflexivity.
    + intros Hpk. unfold useBailoutPass.
      destruct (useBailoutPass_noop userId (users db)
                  (zero_balance_rows userId (users db) Hpk Hz)) as [Hm Hf].
      rewrite Hm, Hf. destruct db; reflexivity.
  - intros calls. split.
    + apply use_passes_nonneg.
    + apply use_passes_balances_nonneg.
  - intros n. apply use_passes_repeat.
  - intros H2. rewrite getBailoutPasses_after_use, H2, Z.eqb_refl. reflexivity.
  - intros other Hne. rewrite getBailoutPasses_after_use.
    assert (Hf : (userId =? other) = false) by (apply Z.eqb_neq; congruence).
    rewrite Hf. reflexivity.
  - reflexivity.
Qed.

Lemma useBailoutPass_spec_witness :
  getBailoutPasses 1 (fst (useBailoutPass 1 sample_users)) = 1
  /\ useBailoutPass 2 sample_users = (sample_users, 0%nat)
  /\ 0 <= getBailoutPasses 1 (use_passes [1; 2; 1; 1; 1] sample_users).
Proof.
  pose proof (useBailoutPass_spec 1 sample_users)
    as (_ & _ & Hseq & _ & Htwo & _).
  pose proof (useBailoutPass_spec 2 sample_users) as (_ & Hzero & _).
  split; [| split].
  - apply Htwo. reflexivity.
  - apply Hzero; [reflexivity |].
    unfold primary_key. simpl. apply NoDup_ListNoDup.
    repeat constructor; simpl; intuition discriminate.
  - apply (proj1 (Hseq [1; 2; 1; 1; 1])). change (0 <= 2). lia.
Defined.

(** ** Elimination controller *)

Lemma eliminated_row_idem (userId : Z) (d reason : string) (u : UserRow) :
  eliminated_row userId d reason (eliminated_row userId d reason u)
  = eliminated_row userId d reason u.
Proof.
  unfold eliminated_row. destruct (id u =? userId) eqn:Hu; simpl.
  - rewrite Hu. reflexivity.
  - rewrite Hu. reflexivity.
Qed.

(** C2: with 3 or more consecutive misses [validateStreak] answers
    "eliminated" with the reason "Three consecutive missed days" and writes
    today's date and that reason into the elimination fields of the user's
    row, leaving every other row and column as it was, a second call
    writing the same again; with exactly 2 it answers "at_risk" with a
    warning and writes nothing; with 0 or 1 it answers "active" with no
    reason and writes nothing. *)
Theorem validateStreak_spec (now : JsDate) (userId consecutiveMisses : Z)
    (db : Db) :
  let result := fst (validateStreak now userId consecutiveMisses db) in
  let db' := snd (validateStreak now userId consecutiveMisses db) in
  let reason := "Three consecutive missed days" in
  (3 <= consecutiveMisses ->
   result = mkStreakStatus "eliminated" (Some reason)
   /\ (forall i u, users db !! i = Some u ->
         exists u', users db' !! i = Some u'
           /\ id u' = id u /\ firstname u' = firstname u
           /\ lastname u' = lastname u
           /\ bailout_passes u' = bailout_passes u
           /\ (id u = userId ->
               elimination_date u' = Some (isoDate now)
               /\ elimination_reason u' = Some reason)
           /\ (id u <> userId -> u' = u))
   /\ List.length (users db') = List.length (users db)
   /\ daily_progress db' = daily_progress db
   /\ snd (validateStreak now userId consecutiveMisses db') = db')
  /\ (consecutiveMisses = 2 ->
      streak_status result = "at_risk"
      /\ (exists warning, streak_reason result = Some warning)
      /\ db' = db)
  /\ (consecutiveMisses = 0 \/ consecutiveMisses = 1 ->
      result = mkStreakStatus "active" None /\ db' = db).
Proof.
  intros result db' reason. subst result db'. unfold validateStreak.
  split; [| split].
  - intros H3. apply Z.leb_le in H3. rewrite H3. simpl.
    split; [reflexivity |]. split; [| split; [| split]].
    + intros i u Hi. rewrite list_lookup_fmap, Hi. simpl.
      eexists. split; [reflexivity |].
      fold (eliminated_row userId (isoDate now) reason u).
      unfold eliminated_row.
      destruct (Z.eqb_spec (id u) userId) as [Heq | Hne]; simpl;
        repeat split; try reflexivity; try contradiction; intros; congruence.
    + apply length_map.
    + reflexivity.
    + f_equal. rewrite map_map. apply map_ext. intros u.
      apply (eliminated_row_idem userId (isoDate now) reason u).
  - intros ->. simpl. split; [reflexivity |]. split; [eexists |]; reflexivity.
  - intros [-> | ->]; simpl; split; reflexivity.
Qed.

Lemma validateStreak_spec_witness :
  fst (validateStreak (mkDate 2024 2 10) 1 3 sample_users)
  = mkStreakStatus "eliminated" (Some "Three consecutive missed days")
  /\ snd (validateStreak (mkDate 2024 2 10) 1 2 sample_users) = sample_users
  /\ snd (validateStreak (mkDate 2024 2 10) 1 1 sample_users) = sample_users.
Proof.
  split; [| split].
  - pose proof (validateStreak_spec (mkDate 2024 2 10) 1 3 sample_users)
      as (H3 & _ & _).
    apply H3. lia.
  - pose proof (validateStreak_spec (mkDate 2024 2 10) 1 2 sample_users)
      as (_ & H2 & _).
    apply H2. reflexivity.
  - pose proof (validateStreak_spec (mkDate 2024 2 10) 1 1 sample_users)
      as (_ & _ & H1).
    apply H1. right. reflexivity.
Defined.

(** ** Streak analyzer *)

Lemma snoc_split {A : Type} (l a b : list A) (x : A) :
  l ++ [x] = a ++ b ->
  (b = [] /\ a = l ++ [x]) \/ (exists b', b = b' ++ [x] /\ l = a ++ b').
Proof.
  intros Heq. destruct b as [| y b _] using rev_ind.
  - left. rewrite app_nil_r in Heq. auto.
  - right. rewrite app_assoc in Heq. apply app_inj_tail in Heq as [-> ->].
    exists b. auto.
Qed.

Lemma count_done_snoc (l : list ProgressRow) (x : ProgressRow) :
  count_done (l ++ [x])
  = (count_done l + (if counts_for_streak (status x) then 1 else 0))%nat.
Proof.
  unfold count_done. rewrite List.filter_app, length_app. simpl.
  destruct (counts_for_streak (status x)); reflexivity.
Qed.

Lemma missed_free_snoc (l : list ProgressRow) (x : ProgressRow) :
  missed_free (l ++ [x]) <-> missed_free l /\ status x <> "missed".
Proof.
  unfold missed_free. rewrite Forall_app, Forall_singleton. reflexivity.
Qed.

Lemma done_is_not_missed (st : string) :
  counts_for_streak st = true -> st <> "missed".
Proof. intros H ->. discriminate H. Qed.

Lemma streak_inv_nil : streak_inv [] 0 0.
Proof.
  split; [| split; [| split; [| split]]].
  - intros pre tail Heq _. symmetry in Heq. apply app_eq_nil in Heq as [_ ->].
    reflexivity.
  - exists [], []. split; [reflexivity |]. split; [constructor |].
    split; [left; reflexivity | reflexivity].
  - intros pre run post Heq _. symmetry in Heq.
    apply app_eq_nil in Heq as [_ Heq]. apply app_eq_nil in Heq as [-> _].
    reflexivity.
  - exists [], [], []. split; [reflexivity |]. split; [constructor | reflexivity].
  - lia.
Qed.

Section StreakStep.
Context (l : list ProgressRow) (longest temp : nat) (x : ProgressRow).
Hypothesis Hinv : streak_inv l longest temp.

(** The bound on stretches that reach the end, after one more row that
    adds [k] to a stretch it extends. *)
Lemma tail_bound_snoc (temp' : nat) :
  (status x <> "missed" ->
   (temp + (if counts_for_streak (status x) then 1 else 0) <= temp')%nat) ->
  forall pre tail, l ++ [x] = pre ++ tail -> missed_free tail ->
                   (count_done tail <= temp')%nat.
Proof.
  destruct Hinv as (I1 & _). intros Hk pre tail Heq Hmf.
  apply snoc_split in Heq as [[-> _] | (t' & -> & Hl)];
    [unfold count_done; simpl; lia |].
  apply missed_free_snoc in Hmf as [Hmf Hx].
  rewrite count_done_snoc. specialize (I1 pre t' Hl Hmf).
  specialize (Hk Hx). lia.
Qed.

Lemma run_bound_snoc (longest' temp' : nat) :
  (forall pre tail, l ++ [x] = pre ++ tail -> missed_free tail ->
                    (count_done tail <= temp')%nat) ->
  (temp' <= longest')%nat -> (longest <= longest')%nat ->
  forall pre run post, l ++ [x] = pre ++ run ++ post -> missed_free run ->
                       (count_done run <= longest')%nat.
Proof.
  destruct Hinv as (_ & _ & I3 & _). intros Htail Ht Hl pre run post Heq Hmf.
  rewrite app_assoc in Heq.
  apply snoc_split in Heq as [[-> Heq] | (post' & -> & Heq)].
  - symmetry in Heq. specialize (Htail pre run Heq Hmf). lia.
  - rewrite <- app_assoc in Heq. specialize (I3 pre run post' Heq Hmf). lia.
Qed.

Lemma run_kept_snoc :
  exists pre run post, l ++ [x] = pre ++ run ++ post /\ missed_free run
                       /\ count_done run = longest.
Proof.
  destruct Hinv as (_ & _ & _ & (p & r & q & -> & Hmf & Hc) & _).
  exists p, r, (q ++ [x]). rewrite <- !app_assoc. auto.
Qed.

Lemma streak_inv_done :
  counts_for_streak (status x) = true ->
  streak_inv (l ++ [x]) (Nat.max longest (S temp)) (S temp).
Proof.
  intros Hd.
  assert (Htail : forall pre tail, l ++ [x] = pre ++ tail ->
                                   missed_free tail ->
                                   (count_done tail <= S temp)%nat).
  { apply tail_bound_snoc. rewrite Hd. lia. }
  assert (Hext : exists pre tail, l ++ [x] = pre ++ tail /\ missed_free tail
                                  /\ ends_with_missed pre
                                  /\ count_done tail = S temp).
  { destruct Hinv as (_ & (p & t & -> & Hmf & Hend & Hc) & _).
    exists p, (t ++ [x]). rewrite <- app_assoc. split; [reflexivity |].
    split; [apply missed_free_snoc; split;
            [exact Hmf | apply done_is_not_missed; exact Hd] |].
    split; [exact Hend |]. rewrite count_done_snoc, Hd. lia. }
  split; [exact Htail |]. split; [exact Hext |].
  split; [apply (run_bound_snoc _ (S temp)); [exact Htail | lia | lia] |].
  split; [| lia].
  destruct (Nat.max_spec longest (S temp)) as [[_ ->] | [_ ->]].
  - destruct Hext as (p & t & Heq & Hmf & _ & Hc).
    exists p, t, []. rewrite app_nil_r. auto.
  - apply run_kept_snoc.
Qed.

Lemma streak_inv_missed :
  status x = "missed" -> streak_inv (l ++ [x]) longest 0.
Proof.
  intros Hm.
  assert (Htail : forall pre tail, l ++ [x] = pre ++ tail ->
                                   missed_free tail ->
                                   (count_done tail <= 0)%nat).
  { apply tail_bound_snoc. intros Hx. contradiction. }
  split; [exact Htail |]. split.
  { exists (l ++ [x]), []. rewrite app_nil_r. split; [reflexivity |].
    split; [constructor |]. split; [| reflexivity].
    right. exists l, x. auto. }
  split; [apply (run_bound_snoc _ 0%nat); [exact Htail | lia | lia] |].
  split; [apply run_kept_snoc | lia].
Qed.

Lemma streak_inv_other :
  counts_for_streak (status x) = false -> status x <> "missed" ->
  streak_inv (l ++ [x]) longest temp.
Proof.
  intros Hd Hm.
  assert (Hle : (temp <= longest)%nat) by (destruct Hinv as (_&_&_&_&H); exact H).
  assert (Htail : forall pre tail, l ++ [x] = pre ++ tail ->
                                   missed_free tail ->
                                   (count_done tail <= temp)%nat).
  { apply tail_bound_snoc. rewrite Hd. lia. }
  split; [exact Htail |]. split.
  { destruct Hinv as (_ & (p & t & -> & Hmf & Hend & Hc) & _).
    exists p, (t ++ [x]). rewrite <- app_assoc. split; [reflexivity |].
    split; [apply missed_free_snoc; auto |].
    split; [exact Hend |]. rewrite count_done_snoc, Hd. lia. }
  split; [apply (run_bound_snoc _ temp); [exact Htail | lia | lia] |].
  split; [apply run_kept_snoc | exact Hle].
Qed.

Lemma streak_inv_step :
  streak_inv (l ++ [x]) (fst (streak_step (longest, temp) x))
             (snd (streak_step (longest, temp) x)).
Proof.
  unfold streak_step.
  destruct (counts_for_streak (status x)) eqn:Hd; simpl.
  - apply streak_inv_done. exact Hd.
  - destruct (String.eqb_spec (status x) "missed") as [Hm | Hm]; simpl.
    + apply streak_inv_missed. exact Hm.
    + apply streak_inv_other; assumption.
Qed.
End StreakStep.

Lemma streak_inv_fold (l : list ProgressRow) :
  streak_inv l (fst (fold_left streak_step l (0, 0)%nat))
             (snd (fold_left streak_step l (0, 0)%nat)).
Proof.
  induction l as [| x l IH] using rev_ind; [apply streak_inv_nil |].
  rewrite fold_left_app. simpl.
  destruct (fold_left streak_step l (0, 0)%nat) as [longest temp].
  apply streak_inv_step. exact IH.
Qed.

Lemma count_current_shift (l : list ProgressRow) (c : nat) :
  count_current l c = (c + count_current l 0)%nat.
Proof.
  revert c. induction l as [| day rest IH]; intros c; simpl; [lia |].
  destruct (counts_for_streak (status day)).
  - rewrite (IH (S c)), (IH 1%nat). lia.
  - destruct (status day =? "missed")%string; [lia | apply IH].
Qed.

Lemma count_current_rev_fold (l : list ProgressRow) :
  count_current (rev l) 0 = snd (fold_left streak_step l (0, 0)%nat).
Proof.
  induction l as [| x l IH] using rev_ind; [reflexivity |].
  rewrite rev_unit, fold_left_app. simpl.
  destruct (fold_left streak_step l (0, 0)%nat) as [longest temp].
  simpl in IH. unfold streak_step.
  destruct (counts_for_streak (status x)); simpl.
  - rewrite count_current_shift, IH. reflexivity.
  - destruct (status x =? "missed")%string; simpl; [reflexivity | exact IH].
Qed.

Lemma calculateStreaks_fields (progressData : list ProgressRow) :
  let sorted := stable_sort by_date_asc progressData in
  longestStreak (calculateStreaks progressData)
  = fst (fold_left streak_step sorted (0, 0)%nat)
  /\ currentStreak (calculateStreaks progressData)
     = snd (fold_left streak_step sorted (0, 0)%nat).
Proof.
  intros sorted. unfold calculateStreaks. fold sorted.
  rewrite count_current_rev_fold.
  destruct (fold_left streak_step sorted (0, 0)%nat); split; reflexivity.
Qed.

Lemma by_date_asc_sorted (l : list ProgressRow) :
  valid_dates l -> StronglySorted oldest_first (stable_sort by_date_asc l).
Proof.
  apply (stable_sort_StronglySorted by_date_asc oldest_first
           (fun r => is_Some (Date_parse (date r)))).
  - intros x y z. unfold oldest_first. lia.
  - intros x y [tx Hx] [ty Hy].
    unfold by_date_asc, oldest_first, time_of. rewrite Hx, Hy. simpl. lia.
Qed.

(** C6: [calculateStreaks] puts the rows in ascending date order;
    [longestStreak] is the greatest number of "completed" or "bailout" rows
    found in a stretch of consecutive rows without a "missed" one, so a
    "missed" row resets the count and any other row neither adds to it nor
    resets it; [currentStreak] is the number of "completed" or "bailout"
    rows after the last "missed" row, the others being stepped over. *)
Theorem calculateStreaks_spec (progressData : list ProgressRow) :
  let sorted := stable_sort by_date_asc progressData in
  let s := calculateStreaks progressData in
  sorted ≡ₚ progressData
  /\ (valid_dates progressData -> StronglySorted oldest_first sorted)
  /\ (forall pre run post, sorted = pre ++ run ++ post -> missed_free run ->
                           (count_done run <= longestStreak s)%nat)
  /\ (exists pre run post, sorted = pre ++ run ++ post /\ missed_free run
                           /\ count_done run = longestStreak s)
  /\ (exists pre tail, sorted = pre ++ tail /\ missed_free tail
                       /\ ends_with_missed pre
                       /\ count_done tail = currentStreak s).
Proof.
  intros sorted s.
  destruct (calculateStreaks_fields progressData) as [Hl Hc].
  fold sorted in Hl, Hc. fold s in Hl, Hc.
  destruct (streak_inv_fold sorted) as (_ & Hcur & Hub & Hex & _).
  rewrite <- Hl in Hub, Hex. rewrite <- Hc in Hcur.
  split; [apply stable_sort_Permutation |].
  split; [apply by_date_asc_sorted |].
  split; [exact Hub |]. split; [exact Hex | exact Hcur].
Qed.

Lemma calculateStreaks_spec_witness :
  StronglySorted oldest_first (stable_sort by_date_asc sample_progress)
  /\ calculateStreaks sample_progress = mkStreaks 2 2.
Proof.
  split; [| reflexivity].
  apply (calculateStreaks_spec sample_progress).
  unfold valid_dates, sample_progress.
  repeat (apply List.Forall_cons; [eexists; vm_compute; reflexivity |]).
  apply List.Forall_nil.
Defined.

(** C10: for every list of progress records the [currentStreak] that
    [calculateStreaks] returns is at most the [longestStreak] it returns. *)
Theorem currentStreak_le_longestStreak (progressData : list ProgressRow) :
  (currentStreak (calculateStreaks progressData)
   <= longestStreak (calculateStreaks progressData))%nat.
Proof.
  destruct (calculateStreaks_fields progressData) as [-> ->].
  apply (streak_inv_fold (stable_sort by_date_asc progressData)).
Qed.

(** ** Winner resolver *)

(** Elements with the same key keep their order through a descending
    sort. *)
Lemma stable_sort_desc_stable {A : Type} (key : A -> nat) (k : nat)
    (l : list A) :
  List.filter (fun c => (key c =? k)%nat)
              (stable_sort (fun a b => Z.of_nat (key b) - Z.of_nat (key a)) l)
  = List.filter (fun c => (key c =? k)%nat) l.
Proof.
  induction l as [| x l IH]; simpl; [reflexivity |].
  rewrite <- IH. clear IH.
  induction (stable_sort _ l) as [| y ys IHs]; simpl; [reflexivity |].
  destruct (Z.leb_spec (Z.of_nat (key y) - Z.of_nat (key x)) 0) as [Hle | Hgt];
    simpl; [reflexivity |].
  rewrite IHs.
  destruct (Nat.eqb_spec (key x) k) as [Hx | Hx];
    destruct (Nat.eqb_spec (key y) k) as [Hy | Hy]; try reflexivity.
  lia.
Qed.

Lemma filter_both_nil {A : Type} (p : A -> bool) (l : list A) :
  List.filter (fun x => negb (p x)) l = [] -> List.filter p l = [] -> l = [].
Proof.
  destruct l as [| x l]; [reflexivity |]. simpl.
  destruct (p x); simpl; discriminate.
Qed.

Lemma determineWinner_pool (users : list UserRow)
    (m : gmap Z (list ProgressRow)) :
  determineWinner users m
  = match candidate_pool users with
    | [] => None
    | [c] => Some (Bare c)
    | cs => break_ties m cs
    end.
Proof.
  unfold determineWinner, candidate_pool, has_elimination_date.
  destruct (List.filter (fun u => negb (truthy (elimination_date u))) users)
    as [| a [| a' active]]; simpl.
  - destruct (stable_sort by_elimination_desc _) as [| c [| c' cs]];
      reflexivity.
  - reflexivity.
  - destruct (0 <? List.length (stable_sort by_elimination_desc _))%nat;
      reflexivity.
Qed.

Lemma by_days_desc_sorted (l : list WithDayCount) :
  StronglySorted more_days_first (stable_sort by_days_desc l).
Proof.
  apply (stable_sort_StronglySorted by_days_desc more_days_first
           (fun _ => True)).
  - intros x y z. unfold more_days_first. lia.
  - intros x y _ _. unfold by_days_desc, more_days_first. lia.
  - apply Forall_forall. intros; exact I.
Qed.

Lemma by_elimination_desc_sorted (l : list UserRow) :
  valid_elimination_dates l ->
  StronglySorted latest_elimination_first (stable_sort by_elimination_desc l).
Proof.
  apply (stable_sort_StronglySorted by_elimination_desc
           latest_elimination_first
           (fun u => is_Some (date_value (elimination_date u)))).
  - intros x y z. unfold latest_elimination_first. lia.
  - intros x y [tx Hx] [ty Hy].
    unfold by_elimination_desc, latest_elimination_first, elimination_time.
    rewrite Hx, Hy. simpl. lia.
Qed.

Lemma break_ties_outright (m : gmap Z (list ProgressRow))
    (cs : list UserRow) (w0 w1 : WithDayCount) (rest : list WithDayCount) :
  stable_sort by_days_desc (map (with_day_count m) cs) = w0 :: w1 :: rest ->
  (totalDaysRun w1 < totalDaysRun w0)%nat ->
  break_ties m cs = Some (ByDays w0).
Proof.
  intros Hs Hlt. unfold break_ties. rewrite Hs.
  apply Nat.ltb_lt in Hlt. rewrite Hlt. reflexivity.
Qed.

Lemma break_ties_by_streak (m : gmap Z (list ProgressRow))
    (cs : list UserRow) (w0 w1 : WithDayCount) (rest : list WithDayCount) :
  stable_sort by_days_desc (map (with_day_count m) cs) = w0 :: w1 :: rest ->
  (totalDaysRun w0 <= totalDaysRun w1)%nat ->
  exists pre ws post,
    break_ties m cs = Some (ByStreak ws)
    /\ map (with_streaks m) (w0 :: w1 :: rest) = pre ++ ws :: post
    /\ Forall (fun c => (streak_length c < streak_length ws)%nat) pre
    /\ Forall (fun c => (streak_length c <= streak_length ws)%nat) post.
Proof.
  intros Hs Hle. unfold break_ties. rewrite Hs.
  apply Nat.ltb_ge in Hle. rewrite Hle.
  destruct (stable_sort by_streak_desc
              (map (with_streaks m) (w0 :: w1 :: rest))) as [| ws tl] eqn:Hss.
  - apply stable_sort_nil_inv in Hss. discriminate Hss.
  - destruct (stable_sort_desc_head streak_length _ ws tl Hss)
      as (pre & post & Heq & Hpre & Hpost).
    exists pre, ws, post. auto.
Qed.

Lemma break_ties_is_Some (m : gmap Z (list ProgressRow)) (c : UserRow)
    (cs : list UserRow) :
  is_Some (break_ties m (c :: cs)).
Proof.
  unfold break_ties.
  set (byDays := stable_sort by_days_desc _).
  assert (Hd : byDays <> []).
  { intros H. apply stable_sort_nil_inv in H. discriminate H. }
  set (byStreak := stable_sort by_streak_desc _).
  assert (Hs : byStreak <> []).
  { intros H. apply stable_sort_nil_inv in H.
    destruct byDays; [contradiction | discriminate H]. }
  match goal with |- is_Some (if ?b then _ else _) => destruct b end.
  - destruct byDays; [contradiction |]. eexists; reflexivity.
  - destruct byStreak; [contradiction |]. eexists; reflexivity.
Qed.

Lemma candidate_pool_nil (users : list UserRow) :
  candidate_pool users = [] <-> users = [].
Proof.
  split; [| intros ->; reflexivity].
  unfold candidate_pool.
  destruct (List.filter (fun u => negb (has_elimination_date u)) users)
    as [| a active] eqn:Ha; [| discriminate].
  intros Hs. apply stable_sort_nil_inv in Hs.
  exact (filter_both_nil has_elimination_date users Ha Hs).
Qed.

(** C3: [determineWinner] returns none only for an empty user list.
    Otherwise the candidates are the users without an elimination date, or,
    when every user is eliminated, the eliminated users with the latest
    elimination first.  A single candidate wins.  Among two or more, ordered
    by their number of "completed" days with ties left in place, the first
    wins outright when its number is above the runner-up's; otherwise the
    winner has the greatest longest streak of all candidates and is the
    first such candidate in that order. *)
Theorem determineWinner_spec (users : list UserRow)
    (m : gmap Z (list ProgressRow)) :
  let active := List.filter (fun u => negb (has_elimination_date u)) users in
  let eliminated := List.filter has_elimination_date users in
  let pool := candidate_pool users in
  let counted := map (with_day_count m) pool in
  let byDays := stable_sort by_days_desc counted in
  (determineWinner users m = None <-> users = [])
  /\ (active <> [] -> pool = active)
  /\ (active = [] ->
      pool ≡ₚ eliminated
      /\ (valid_elimination_dates eliminated ->
          StronglySorted latest_elimination_first pool))
  /\ (forall c, pool = [c] -> determineWinner users m = Some (Bare c))
  /\ (byDays ≡ₚ counted
      /\ StronglySorted more_days_first byDays
      /\ forall k,
           List.filter (fun w => (totalDaysRun w =? k)%nat) byDays
           = List.filter (fun w => (totalDaysRun w =? k)%nat) counted)
  /\ ((2 <= List.length pool)%nat -> exists w0 w1 rest, byDays = w0 :: w1 :: rest)
  /\ (forall w0 w1 rest, byDays = w0 :: w1 :: rest ->
        ((totalDaysRun w1 < totalDaysRun w0)%nat ->
         determineWinner users m = Some (ByDays w0))
        /\ ((totalDaysRun w0 <= totalDaysRun w1)%nat ->
            exists pre ws post,
              determineWinner users m = Some (ByStreak ws)
              /\ map (with_streaks m) byDays = pre ++ ws :: post
              /\ Forall (fun c => (streak_length c < streak_length ws)%nat) pre
              /\ Forall (fun c => (streak_length c <= streak_length ws)%nat)
                        post)).
Proof.
  intros active eliminated pool counted byDays.
  assert (Hlen : List.length byDays = List.length pool).
  { unfold byDays, counted. rewrite stable_sort_length, length_map.
    reflexivity. }
  split; [| split; [| split; [| split; [| split; [| split]]]]].
  - rewrite determineWinner_pool. fold pool. split.
    + intros Hn. apply candidate_pool_nil. fold pool.
      destruct pool as [| c [| c' cs]]; [reflexivity | discriminate Hn |].
      destruct (break_ties_is_Some m c (c' :: cs)) as [w Hw].
      rewrite Hw in Hn. discriminate Hn.
    + intros Hu. apply candidate_pool_nil in Hu. fold pool in Hu.
      rewrite Hu. reflexivity.
  - intros Ha. unfold pool, candidate_pool. fold active.
    destruct active; [contradiction | reflexivity].
  - intros Ha. unfold pool, candidate_pool. fold active eliminated.
    rewrite Ha. split; [apply stable_sort_Permutation |].
    apply by_elimination_desc_sorted.
  - intros c Hc. rewrite determineWinner_pool. fold pool. rewrite Hc.
    reflexivity.
  - split; [apply stable_sort_Permutation |].
    split; [apply by_days_desc_sorted |].
    intros k. apply (stable_sort_desc_stable totalDaysRun k counted).
  - intros H2. destruct byDays as [| w0 [| w1 rest]]; simpl in Hlen;
      [lia | lia | eauto].
  - intros w0 w1 rest Hs.
    assert (Hd : determineWinner users m = break_ties m pool).
    { rewrite determineWinner_pool. fold pool.
      rewrite Hs in Hlen. simpl in Hlen.
      destruct pool as [| c [| c' cs]]; simpl in Hlen;
        [lia | lia | reflexivity]. }
    rewrite Hd. split.
    + apply (break_ties_outright m pool w0 w1 rest Hs).
    + intros Hle. rewrite Hs.
      apply (break_ties_by_streak m pool w0 w1 rest Hs Hle).
Qed.

Lemma determineWinner_spec_witness :
  determineWinner sample_runners
    (sample_days ["completed"; "completed"] ["completed"; "missed"])
  = Some (ByDays (mkWithDayCount (mkUser 1 "Ada" "Lovelace" 4 None None) 2))
  /\ exists ws,
       determineWinner sample_runners
         (sample_days ["completed"; "missed"; "bailout"]
                      ["bailout"; "completed"])
       = Some (ByStreak ws)
       /\ id (winner_user (ByStreak ws)) = 2.
Proof.
  split.
  - pose proof (determineWinner_spec sample_runners
                  (sample_days ["completed"; "completed"]
                               ["completed"; "missed"]))
      as (_ & _ & _ & _ & _ & _ & Htop).
    refine (proj1 (Htop _ (mkWithDayCount
                             (mkUser 2 "Alan" "Turing" 4 None None) 1)
                        [] _) _).
    + vm_compute. reflexivity.
    + simpl. lia.
  - pose proof (determineWinner_spec sample_runners
                  (sample_days ["completed"; "missed"; "bailout"]
                               ["bailout"; "completed"]))
      as (_ & _ & _ & _ & _ & _ & Htop).
    destruct (proj2 (Htop (mkWithDayCount
                             (mkUser 1 "Ada" "Lovelace" 4 None None) 1)
                          (mkWithDayCount
                             (mkUser 2 "Alan" "Turing" 4 None None) 1)
                          [] ltac:(vm_compute; reflexivity))
                    ltac:(simpl; lia))
      as (pre & ws & post & Hw & _).
    exists ws. split; [exact Hw |].
    vm_compute in Hw. injection Hw as <-. reflexivity.
Defined.

(** * Further properties *)

(** ** Range queries *)

Lemma unique_keys_dates (userId : Z) (p : ProgressRow -> bool)
    (rows : list ProgressRow) :
  (forall r, p r = true -> user_id r = userId) ->
  unique_keys rows -> NoDup (map date (List.filter p rows)).
Proof.
  intros Hp. unfold unique_keys.
  induction rows as [| r rows IH]; simpl; intros Hnd; [constructor |].
  apply NoDup_cons in Hnd as [Hr Hnd].
  destruct (p r) eqn:Hpr; simpl; [| apply IH; exact Hnd].
  apply NoDup_cons. split; [| apply IH; exact Hnd].
  intros Hin. apply Hr. apply list_elem_of_fmap in Hin as (r' & Hd & Hr').
  apply list_elem_of_In, filter_In in Hr' as [Hr' Hu].
  apply list_elem_of_fmap. exists r'.
  split; [| apply list_elem_of_In; exact Hr'].
  unfold progress_key. rewrite (Hp r Hpr), (Hp r' Hu), Hd. reflexivity.
Qed.

Lemma filter_none {A : Type} (p : A -> bool) (l : list A) :
  (forall x, p x = false) -> List.filter p l = [].
Proof.
  intros Hp. induction l as [| x l IH]; simpl; [reflexivity |].
  rewrite Hp. exact IH.
Qed.

(** X1: [getDailyProgress] returns exactly the rows of the user dated inside the
    window, each as often as the table holds it, newest first; with one row
    per (user, date) no date comes twice; and a window whose start is after
    its end is empty. *)
Theorem getDailyProgress_window (userId : Z) (startDate endDate : JsDate)
    (db : Db) :
  let result := getDailyProgress userId startDate endDate db in
  (forall r, r ∈ result <->
             r ∈ daily_progress db /\ user_id r = userId
             /\ String.leb (isoDate startDate) (date r) = true
             /\ String.leb (date r) (isoDate endDate) = true)
  /\ result ≡ₚ List.filter
                 (fun r => (user_id r =? userId)
                           && String.leb (isoDate startDate) (date r)
                           && String.leb (date r) (isoDate endDate))
                 (daily_progress db)
  /\ StronglySorted newer_first result
  /\ (unique_keys (daily_progress db) -> NoDup (map date result))
  /\ (String.leb (isoDate startDate) (isoDate endDate) = false ->
      result = []).
Proof.
  intros result.
  split; [intros r; apply getDailyProgress_elem_of |].
  split; [apply stable_sort_Permutation |].
  split; [apply order_by_date_desc_sorted |].
  split.
  - intros Hu. unfold result, getDailyProgress, order_by_date_desc.
    rewrite stable_sort_Permutation.
    apply (unique_keys_dates userId); [| exact Hu].
    intros r Hr. apply andb_true_iff in Hr as [Hr _].
    apply andb_true_iff in Hr as [Hr _]. apply Z.eqb_eq. exact Hr.
  - intros Hinv. unfold result, getDailyProgress, order_by_date_desc.
    rewrite filter_none; [reflexivity |].
    intros r. destruct (user_id r =? userId); [simpl | reflexivity].
    destruct (String.leb (isoDate startDate) (date r)) eqn:Hs;
      [simpl | reflexivity].
    destruct (String.leb (date r) (isoDate endDate)) eqn:He; [| reflexivity].
    rewrite (string_leb_trans _ _ _ Hs He) in Hinv. discriminate Hinv.
Qed.

Lemma getDailyProgress_window_witness :
  NoDup (map date (getDailyProgress 1 (mkDate 2024 2 1) (mkDate 2024 2 31)
                                    sample_history))
  /\ getDailyProgress 1 (mkDate 2024 2 31) (mkDate 2024 2 1) sample_history
     = [].
Proof.
  pose proof (getDailyProgress_window 1 (mkDate 2024 2 1) (mkDate 2024 2 31)
                sample_history) as (_ & _ & _ & Hnd & _).
  pose proof (getDailyProgress_window 1 (mkDate 2024 2 31) (mkDate 2024 2 1)
                sample_history) as (_ & _ & _ & _ & Hempty).
  split.
  - apply Hnd. unfold unique_keys. apply NoDup_ListNoDup.
    vm_compute. repeat constructor; simpl; intuition discriminate.
  - apply Hempty. reflexivity.
Defined.

(** ** Upserts *)

Lemma upsert_progress_filter (new : ProgressRow) (p : ProgressRow -> bool)
    (rows : list ProgressRow) :
  (forall r, progress_key r = progress_key new -> p r = false) ->
  List.filter p (upsert_progress new rows) = List.filter p rows.
Proof.
  intros Hp. induction rows as [| r rows IH]; simpl.
  - rewrite (Hp new eq_refl). reflexivity.
  - destruct (same_key (user_id new) (date new) r) eqn:Hk; simpl.
    + apply same_key_spec in Hk.
      rewrite (Hp r Hk), (Hp (on_conflict_update new r) Hk). reflexivity.
    + rewrite IH. reflexivity.
Qed.

Lemma upsert_progress_other (new r : ProgressRow) (rows : list ProgressRow) :
  progress_key r <> progress_key new ->
  r ∈ upsert_progress new rows <-> r ∈ rows.
Proof.
  intros Hne. induction rows as [| x rows IH]; simpl.
  - rewrite list_elem_of_singleton. split; [intros -> | intros H].
    + contradiction.
    + apply elem_of_nil in H. contradiction.
  - destruct (same_key (user_id new) (date new) x) eqn:Hk.
    + apply same_key_spec in Hk. rewrite !elem_of_cons.
      split; intros [-> | H]; auto; exfalso; apply Hne; exact Hk.
    + rewrite !elem_of_cons, IH. reflexivity.
Qed.

(** X2: [saveDailyProgress] leaves every row with another key as it is; what
    [getDailyProgress] and [getConsecutiveMisses] return for another user,
    and what [getDailyProgress] returns for a window that does not contain
    the date, do not change. *)
Theorem saveDailyProgress_frame (userId : Z) (d : JsDate)
    (required completed : Qc) (st : string) (db : Db) :
  let db' := fst (saveDailyProgress userId d required completed st db) in
  (forall r, progress_key r <> (userId, isoDate d) ->
             (r ∈ daily_progress db' <-> r ∈ daily_progress db))
  /\ (forall other startDate endDate, other <> userId ->
        getDailyProgress other startDate endDate db'
        = getDailyProgress other startDate endDate db)
  /\ (forall other asOfDate, other <> userId ->
        getConsecutiveMisses other asOfDate db'
        = getConsecutiveMisses other asOfDate db)
  /\ (forall startDate endDate,
        String.leb (isoDate startDate) (isoDate d)
        && String.leb (isoDate d) (isoDate endDate) = false ->
        getDailyProgress userId startDate endDate db'
        = getDailyProgress userId startDate endDate db).
Proof.
  intros db'. subst db'. cbn [saveDailyProgress fst daily_progress].
  split; [| split; [| split]].
  - intros r Hne. apply upsert_progress_other. exact Hne.
  - intros other s e Hne. unfold getDailyProgress. cbn [daily_progress].
    rewrite upsert_progress_filter; [reflexivity |].
    intros r [= Hu _]. rewrite Hu.
    destruct (Z.eqb_spec userId other); [congruence | reflexivity].
  - intros other asOf Hne. unfold getConsecutiveMisses, recent_days.
    cbn [daily_progress].
    rewrite upsert_progress_filter; [reflexivity |].
    intros r [= Hu _]. rewrite Hu.
    destruct (Z.eqb_spec userId other); [congruence | reflexivity].
  - intros s e Hout. unfold getDailyProgress. cbn [daily_progress].
    rewrite upsert_progress_filter; [reflexivity |].
    intros r [= _ Hd]. rewrite Hd. cbn [date].
    rewrite <- andb_assoc, Hout. apply andb_false_r.
Qed.

Lemma saveDailyProgress_frame_witness :
  getDailyProgress 1 (mkDate 2024 2 8) (mkDate 2024 2 31)
    (fst (saveDailyProgress 1 (mkDate 2024 2 7) (Q2Qc (307 # 100))
            (Q2Qc (4 # 1)) "completed" sample_history))
  = getDailyProgress 1 (mkDate 2024 2 8) (mkDate 2024 2 31) sample_history
  /\ getConsecutiveMisses 2 (mkDate 2024 2 10)
       (fst (saveDailyProgress 1 (mkDate 2024 2 7) (Q2Qc (307 # 100))
               (Q2Qc (4 # 1)) "completed" sample_history))
     = getConsecutiveMisses 2 (mkDate 2024 2 10) sample_history.
Proof.
  pose proof (saveDailyProgress_frame 1 (mkDate 2024 2 7) (Q2Qc (307 # 100))
                (Q2Qc (4 # 1)) "completed" sample_history)
    as (_ & _ & Hmiss & Hout).
  split.
  - apply Hout. reflexivity.
  - apply Hmiss. discriminate.
Defined.

Lemma upsert_progress_twice (u : Z) (ds : string) (r1 r2 c1 c2 : Qc)
    (s1 s2 : string) (rows : list ProgressRow) :
  upsert_progress (mkProgress u ds r2 c2 s2)
                  (upsert_progress (mkProgress u ds r1 c1 s1) rows)
  = upsert_progress (mkProgress u ds r1 c2 s2) rows.
Proof.
  induction rows as [| x rows IH]; cbn [upsert_progress user_id date].
  - assert (Hk : same_key u ds (mkProgress u ds r1 c1 s1) = true)
      by (apply same_key_spec; reflexivity).
    rewrite Hk. reflexivity.
  - destruct (same_key u ds x) eqn:Hk; cbn [upsert_progress user_id date].
    + assert (Hk' : same_key u ds (on_conflict_update
                                     (mkProgress u ds r1 c1 s1) x) = true).
      { apply same_key_spec. apply same_key_spec in Hk. exact Hk. }
      rewrite Hk'. reflexivity.
    + rewrite Hk, IH. reflexivity.
Qed.

(** X3: Two upserts of the same (user, date) leave what a single upsert with
    the first's required distance and the second's completed distance and
    status leaves: the last write wins for the two updated columns and
    never for the requirement.  Repeating an upsert changes nothing. *)
Theorem saveDailyProgress_twice (userId : Z) (d : JsDate)
    (r1 r2 c1 c2 : Qc) (s1 s2 : string) (db : Db) :
  fst (saveDailyProgress userId d r2 c2 s2
         (fst (saveDailyProgress userId d r1 c1 s1 db)))
  = fst (saveDailyProgress userId d r1 c2 s2 db)
  /\ fst (saveDailyProgress userId d r1 c1 s1
            (fst (saveDailyProgress userId d r1 c1 s1 db)))
     = fst (saveDailyProgress userId d r1 c1 s1 db).
Proof.
  unfold saveDailyProgress. cbn [fst users daily_progress].
  rewrite !upsert_progress_twice. split; reflexivity.
Qed.

(** ** Consecutive misses, continued *)

Lemma filter_length_Permutation {A : Type} (p : A -> bool) (l l' : list A) :
  l ≡ₚ l' ->
  List.length (List.filter p l) = List.length (List.filter p l').
Proof.
  induction 1 as [| x l l' _ IH | x y l | l l' l'' _ IH1 _ IH2]; simpl.
  - reflexivity.
  - destruct (p x); simpl; lia.
  - destruct (p x), (p y); reflexivity.
  - lia.
Qed.

Lemma filter_length_take {A : Type} (p : A -> bool) (n : nat) (l : list A) :
  (List.length (List.filter p (take n l)) <= List.length (List.filter p l))%nat.
Proof.
  revert n. induction l as [| x l IH]; intros [| n]; simpl; try lia.
  specialize (IH n). destruct (p x); simpl; lia.
Qed.

Lemma leading_misses_le (days : list ProgressRow) :
  (leading_misses days
   <= List.length (List.filter (fun d => (status d =? "missed")%string) days))%nat.
Proof.
  unfold leading_misses. induction days as [| day rest IH]; simpl; [lia |].
  destruct (counts_for_streak (status day)); simpl.
  - lia.
  - destruct (status day =? "missed")%string; simpl; lia.
Qed.

(** X4: [getConsecutiveMisses] is never above 10, however long the run of
    missed days, never above the number of "missed" rows the user has up to
    the day asked for, and 0 for a user without rows up to that day. *)
Theorem getConsecutiveMisses_bounds (userId : Z) (asOfDate : JsDate) (db : Db) :
  let matching :=
    List.filter (fun r => (user_id r =? userId)
                          && String.leb (date r) (isoDate asOfDate))
                (daily_progress db) in
  (getConsecutiveMisses userId asOfDate db <= 10)%nat
  /\ (getConsecutiveMisses userId asOfDate db
      <= List.length
           (List.filter (fun d => (status d =? "missed")%string) matching))%nat
  /\ (matching = [] -> getConsecutiveMisses userId asOfDate db = 0%nat).
Proof.
  intros matching. unfold getConsecutiveMisses.
  rewrite count_misses_leading. cbn [Nat.add].
  set (window := recent_days userId (isoDate asOfDate) db).
  assert (Hmiss := leading_misses_le window).
  assert (Hlen : (List.length window <= 10)%nat) by apply firstn_le_length.
  assert (Hf : (List.length
                  (List.filter (fun d => (status d =? "missed")%string) window)
                <= List.length window)%nat) by apply List.filter_length_le.
  split; [lia |]. split.
  - unfold window, recent_days in Hmiss. fold matching in Hmiss.
    etransitivity; [exact Hmiss |].
    etransitivity; [apply filter_length_take |].
    unfold order_by_date_desc.
    rewrite (filter_length_Permutation _ _ matching); [lia |].
    apply stable_sort_Permutation.
  - intros Hnone. unfold window, recent_days. fold matching.
    rewrite Hnone. reflexivity.
Qed.

Lemma getConsecutiveMisses_bounds_witness :
  getConsecutiveMisses 3 (mkDate 2024 2 10) sample_history = 0%nat.
Proof.
  apply (getConsecutiveMisses_bounds 3 (mkDate 2024 2 10) sample_history).
  reflexivity.
Defined.

Lemma string_leb_refl (a : string) : String.leb a a = true.
Proof.
  unfold String.leb.
  assert (H : String.compare a a = Eq).
  { induction a as [| x a IH]; simpl; [reflexivity |].
    destruct (ascii_compare_spec x x) as [_ | H | H]; [exact IH | lia | lia]. }
  rewrite H. reflexivity.
Qed.

Lemma newest_row_is_unique (rows : list ProgressRow) (userId : Z)
    (endStr : string) (w : ProgressRow) :
  unique_keys rows -> w ∈ rows -> progress_key w = (userId, endStr) ->
  exists rest,
    order_by_date_desc
      (List.filter (fun r => (user_id r =? userId)
                             && String.leb (date r) endStr) rows)
    = w :: rest.
Proof.
  intros Hu Hw Hk. injection Hk as Hwu Hwd.
  set (matching := List.filter _ rows).
  assert (Hin : forall r, r ∈ order_by_date_desc matching <->
                          r ∈ rows /\ user_id r = userId
                          /\ String.leb (date r) endStr = true).
  { intros r. unfold order_by_date_desc, matching.
    rewrite stable_sort_elem_of, !list_elem_of_In, filter_In.
    rewrite andb_true_iff, Z.eqb_eq. tauto. }
  assert (Hww : w ∈ order_by_date_desc matching).
  { apply Hin. split; [exact Hw |]. split; [exact Hwu |].
    rewrite Hwd. apply string_leb_refl. }
  assert (Hs := order_by_date_desc_sorted matching).
  destruct (order_by_date_desc matching) as [| h rest]; [inversion Hww |].
  exists rest. f_equal.
  assert (Hh : h ∈ h :: rest) by apply list_elem_of_here.
  apply Hin in Hh as (Hhr & Hhu & Hhd).
  apply (unique_keys_agree rows); try assumption.
  unfold progress_key. rewrite Hhu, Hwu. f_equal.
  apply StronglySorted_inv in Hs as [_ Hall].
  apply elem_of_cons in Hww as [-> | Hwr]; [reflexivity |].
  rewrite Forall_forall in Hall. specialize (Hall w Hwr).
  unfold newer_first in Hall. rewrite Hwd in Hall. rewrite Hwd.
  apply String.leb_antisym; [exact Hhd | exact Hall].
Qed.

Lemma good_newest_row_no_misses (userId : Z) (d : JsDate) (w : ProgressRow)
    (db : Db) :
  unique_keys (daily_progress db) ->
  w ∈ daily_progress db ->
  progress_key w = (userId, isoDate d) ->
  counts_for_streak (status w) = true ->
  getConsecutiveMisses userId d db = 0%nat.
Proof.
  intros Hu Hw Hk Hst.
  destruct (newest_row_is_unique (daily_progress db) userId (isoDate d) w
              Hu Hw Hk) as [rest Hsort].
  unfold getConsecutiveMisses, recent_days. rewrite Hsort.
  cbn [firstn count_misses].
  assert (Hm : (status w =? "missed")%string = false).
  { apply String.eqb_neq. apply done_is_not_missed. exact Hst. }
  rewrite Hm. fold (counts_for_streak (status w)). rewrite Hst. reflexivity.
Qed.

(** X5: Once a "completed" or "bailout" row is saved for a day,
    [getConsecutiveMisses] as of that day is 0, whatever came before. *)
Theorem getConsecutiveMisses_after_good_day (userId : Z) (d : JsDate)
    (required completed : Qc) (st : string) (db : Db) :
  unique_keys (daily_progress db) ->
  counts_for_streak st = true ->
  getConsecutiveMisses userId d
    (fst (saveDailyProgress userId d required completed st db)) = 0%nat.
Proof.
  intros Hu Hst.
  apply (good_newest_row_no_misses userId d
           (mkProgress userId (isoDate d)
                       (stored_requirement userId (isoDate d) required
                                           (daily_progress db))
                       completed st)).
  - apply upsert_progress_unique. exact Hu.
  - apply upsert_progress_written.
  - reflexivity.
  - exact Hst.
Qed.

Lemma getConsecutiveMisses_after_good_day_witness :
  getConsecutiveMisses 1 (mkDate 2024 2 10)
    (fst (saveDailyProgress 1 (mkDate 2024 2 10) (Q2Qc (310 # 100)) 0%Qc
                            "bailout" sample_history)) = 0%nat.
Proof.
  apply getConsecutiveMisses_after_good_day; [| reflexivity].
  unfold unique_keys. apply NoDup_ListNoDup.
  vm_compute. repeat constructor; simpl; intuition discriminate.
Defined.

(** ** Updates of the users table *)

Lemma find_user_eliminated (userId target : Z) (d reason : string)
    (us : list UserRow) :
  List.find (fun u => id u =? target)
            (map (fun u => if id u =? userId then set_elimination d reason u
                           else u) us)
  = option_map (fun u => if id u =? userId then set_elimination d reason u
                         else u)
               (List.find (fun u => id u =? target) us).
Proof.
  induction us as [| u us IH]; cbn [map List.find option_map]; [reflexivity |].
  assert (Hid : id (if id u =? userId then set_elimination d reason u else u)
                = id u) by (destruct (id u =? userId); reflexivity).
  rewrite Hid. destruct (id u =? target); [reflexivity | exact IH].
Qed.

Lemma find_user_None (userId : Z) (us : list UserRow) :
  List.find (fun u => id u =? userId) us = None ->
  Forall (fun u => (id u =? userId) = false) us.
Proof.
  induction us as [| u us IH]; simpl; [constructor |].
  destruct (id u =? userId) eqn:Hu; [discriminate |].
  intros H. constructor; [exact Hu | apply IH; exact H].
Qed.

Lemma filter_id_none (userId : Z) (us : list UserRow) :
  userId ∉ map id us -> List.filter (fun u => id u =? userId) us = [].
Proof.
  induction us as [| u us IH]; simpl; intros Hn; [reflexivity |].
  apply not_elem_of_cons in Hn as [Hne Hn].
  destruct (Z.eqb_spec (id u) userId); [congruence | apply IH; exact Hn].
Qed.

Lemma primary_key_one_row (userId : Z) (us : list UserRow) :
  primary_key us ->
  (List.length (List.filter (fun u => (id u =? userId)%Z) us) <= 1)%nat.
Proof.
  unfold primary_key. induction us as [| u us IH]; simpl; intros Hnd; [lia |].
  apply NoDup_cons in Hnd as [Hu Hnd]. specialize (IH Hnd).
  destruct (Z.eqb_spec (id u) userId) as [Heq | Hne]; simpl; [| exact IH].
  rewrite filter_id_none; [simpl; lia |]. rewrite <- Heq. exact Hu.
Qed.

Lemma no_row_no_update (userId : Z) (d reason : string) (us : list UserRow) :
  Forall (fun u => (id u =? userId) = false) us ->
  map (fun u => if id u =? userId then set_elimination d reason u else u) us
  = us
  /\ List.filter (fun u => id u =? userId) us = [].
Proof.
  induction 1 as [| u us Hu _ [IHm IHf]]; simpl; [split; reflexivity |].
  rewrite Hu, IHm, IHf. split; reflexivity.
Qed.

(** X6: [eliminateUser] on an id without a row changes nothing and reports 0
    changes; otherwise it sets the two elimination fields of that user's
    row and nothing else: other users, every bailout balance, the ids and
    the progress table stay as they are, and with [id] a primary key at
    most one row changes. *)
Theorem eliminateUser_effect (userId : Z) (d reason : string) (db : Db) :
  let db' := fst (eliminateUser userId d reason db) in
  let changes := snd (eliminateUser userId d reason db) in
  (getUserById userId db = None -> db' = db /\ changes = 0%nat)
  /\ (forall u, getUserById userId db = Some u ->
                getUserById userId db' = Some (set_elimination d reason u))
  /\ (forall other, other <> userId ->
        getUserById other db' = getUserById other db)
  /\ (forall any, getBailoutPasses any db' = getBailoutPasses any db)
  /\ map id (users db') = map id (users db)
  /\ (primary_key (users db) -> (changes <= 1)%nat)
  /\ daily_progress db' = daily_progress db.
Proof.
  intros db' changes. subst db' changes.
  unfold getUserById, getBailoutPasses, eliminateUser.
  cbn [fst snd users daily_progress].
  split; [| split; [| split; [| split; [| split; [| split]]]]].
  - intros Hnone. apply find_user_None in Hnone.
    destruct (no_row_no_update userId d reason (users db) Hnone) as [Hm Hf].
    rewrite Hm, Hf. destruct db; split; reflexivity.
  - intros u Hu. rewrite find_user_eliminated, Hu. simpl.
    apply List.find_some in Hu as [_ Hid]. rewrite Hid. reflexivity.
  - intros other Hne. rewrite find_user_eliminated.
    destruct (List.find (fun u => id u =? other) (users db)) as [u |] eqn:Hu;
      [| reflexivity].
    simpl. apply List.find_some in Hu as [_ Hid]. apply Z.eqb_eq in Hid.
    destruct (Z.eqb_spec (id u) userId); [congruence | reflexivity].
  - intros any. rewrite find_user_eliminated.
    destruct (List.find (fun u => id u =? any) (users db)) as [u |];
      [| reflexivity].
    simpl. destruct (id u =? userId); reflexivity.
  - rewrite map_map. apply map_ext. intros u.
    destruct (id u =? userId); reflexivity.
  - apply primary_key_one_row.
  - reflexivity.
Qed.

Lemma eliminateUser_effect_witness :
  eliminateUser 7 "2024-03-10" "Three consecutive missed days" sample_users
  = (sample_users, 0%nat)
  /\ getUserById 1 (fst (eliminateUser 1 "2024-03-10"
                           "Three consecutive missed days" sample_users))
     = Some (mkUser 1 "Ada" "Lovelace" 2 (Some "2024-03-10")
                    (Some "Three consecutive missed days")).
Proof.
  pose proof (eliminateUser_effect 7 "2024-03-10"
                "Three consecutive missed days" sample_users)
    as (Hnone & _).
  pose proof (eliminateUser_effect 1 "2024-03-10"
                "Three consecutive missed days" sample_users)
    as (_ & Hsome & _).
  split.
  - destruct (Hnone eq_refl) as [Hdb Hch].
    rewrite (surjective_pairing (eliminateUser 7 _ _ _)), Hdb, Hch.
    reflexivity.
  - apply (Hsome (mkUser 1 "Ada" "Lovelace" 2 None None)). reflexivity.
Defined.

(** X7: Spending a pass and recording an elimination do not interfere: in
    either order they leave the same store; and [useBailoutPass] never
    touches an id or an elimination field. *)
Theorem useBailoutPass_eliminateUser_commute (a b : Z) (d reason : string)
    (db : Db) :
  fst (useBailoutPass a (fst (eliminateUser b d reason db)))
  = fst (eliminateUser b d reason (fst (useBailoutPass a db)))
  /\ map id (users (fst (useBailoutPass a db))) = map id (users db)
  /\ map elimination_date (users (fst (useBailoutPass a db)))
     = map elimination_date (users db)
  /\ map elimination_reason (users (fst (useBailoutPass a db)))
     = map elimination_reason (users db).
Proof.
  unfold useBailoutPass, eliminateUser. cbn [fst users daily_progress].
  split; [| split; [| split]].
  - f_equal. rewrite !map_map. apply map_ext. intros u.
    destruct (id u =? b) eqn:Hb; destruct (id u =? a) eqn:Ha;
      cbn [id bailout_passes set_elimination spend_pass andb];
      rewrite ?Ha, ?Hb; cbn [andb];
      destruct (0 <? bailout_passes u); cbn [id spend_pass];
      rewrite ?Hb; reflexivity.
  - rewrite map_map. apply map_ext. intros u.
    destruct ((id u =? a) && (0 <? bailout_passes u)); reflexivity.
  - rewrite map_map. apply map_ext. intros u.
    destruct ((id u =? a) && (0 <? bailout_passes u)); reflexivity.
  - rewrite map_map. apply map_ext. intros u.
    destruct ((id u =? a) && (0 <? bailout_passes u)); reflexivity.
Qed.

(** ** Elimination, continued *)

Lemma getUserById_eliminateUser (userId : Z) (d reason : string) (db : Db)
    (u : UserRow) :
  getUserById userId db = Some u ->
  getUserById userId (fst (eliminateUser userId d reason db))
  = Some (set_elimination d reason u).
Proof.
  unfold getUserById, eliminateUser. cbn [fst users]. intros Hu.
  rewrite find_user_eliminated, Hu. simpl.
  apply List.find_some in Hu as [_ Hid]. rewrite Hid. reflexivity.
Qed.

(** X8: An elimination is never taken back and its date is not kept: after a
    user is eliminated, a later [validateStreak] with fewer than 3 misses
    leaves the elimination fields as they are, and one with 3 or more
    replaces the elimination date by the day of that later call. *)
Theorem validateStreak_elimination_kept_or_redated (now1 now2 : JsDate)
    (userId cm1 cm2 : Z) (db : Db) (u : UserRow) :
  getUserById userId db = Some u ->
  3 <= cm1 ->
  let reason := "Three consecutive missed days" in
  let db1 := snd (validateStreak now1 userId cm1 db) in
  let db2 := snd (validateStreak now2 userId cm2 db1) in
  (cm2 < 3 ->
   getUserById userId db2 = Some (set_elimination (isoDate now1) reason u))
  /\ (3 <= cm2 ->
      getUserById userId db2 = Some (set_elimination (isoDate now2) reason u)).
Proof.
  intros Hu H1 reason db1 db2.
  assert (Hdb1 : db1 = fst (eliminateUser userId (isoDate now1) reason db)).
  { unfold db1, validateStreak. apply Z.leb_le in H1. rewrite H1. reflexivity. }
  assert (Hu1 : getUserById userId db1
                = Some (set_elimination (isoDate now1) reason u)).
  { rewrite Hdb1. apply getUserById_eliminateUser. exact Hu. }
  split.
  - intros H2. unfold db2, validateStreak.
    assert (H3 : (3 <=? cm2) = false) by (apply Z.leb_gt; exact H2).
    rewrite H3. destruct (cm2 =? 2); exact Hu1.
  - intros H2. unfold db2, validateStreak. apply Z.leb_le in H2. rewrite H2.
    cbn [snd]. fold reason.
    rewrite (getUserById_eliminateUser userId (isoDate now2) reason db1 _ Hu1).
    reflexivity.
Qed.

Lemma validateStreak_elimination_kept_or_redated_witness :
  getUserById 1
    (snd (validateStreak (mkDate 2024 2 12) 1 3
            (snd (validateStreak (mkDate 2024 2 10) 1 3 sample_users))))
  = Some (mkUser 1 "Ada" "Lovelace" 2 (Some "2024-03-12")
                 (Some "Three consecutive missed days"))
  /\ getUserById 1
       (snd (validateStreak (mkDate 2024 2 12) 1 0
               (snd (validateStreak (mkDate 2024 2 10) 1 3 sample_users))))
     = Some (mkUser 1 "Ada" "Lovelace" 2 (Some "2024-03-10")
                    (Some "Three consecutive missed days")).
Proof.
  split.
  - refine (proj2 (validateStreak_elimination_kept_or_redated
                     (mkDate 2024 2 10) (mkDate 2024 2 12) 1 3 3 sample_users
                     (mkUser 1 "Ada" "Lovelace" 2 None None) eq_refl _) _);
      lia.
  - refine (proj1 (validateStreak_elimination_kept_or_redated
                     (mkDate 2024 2 10) (mkDate 2024 2 12) 1 3 0 sample_users
                     (mkUser 1 "Ada" "Lovelace" 2 None None) eq_refl _) _);
      lia.
Defined.

(** X9: From the newest rows to the verdict: three "missed" rows at the head of
    the rows read eliminate the user, with that day written to their row;
    two followed by a "completed" or "bailout" row put them at risk; and a
    "completed" or "bailout" newest row keeps them active.  In the last two
    cases nothing is written. *)
Theorem streak_status_from_history (now asOfDate : JsDate) (userId : Z)
    (db : Db) :
  let window := recent_days userId (isoDate asOfDate) db in
  let misses := Z.of_nat (getConsecutiveMisses userId asOfDate db) in
  let verdict := validateStreak now userId misses db in
  (forall r1 r2 r3 rest u,
      window = r1 :: r2 :: r3 :: rest ->
      status r1 = "missed" -> status r2 = "missed" -> status r3 = "missed" ->
      getUserById userId db = Some u ->
      streak_status (fst verdict) = "eliminated"
      /\ getUserById userId (snd verdict)
         = Some (set_elimination (isoDate now)
                                 "Three consecutive missed days" u))
  /\ (forall r1 r2 r3 rest,
        window = r1 :: r2 :: r3 :: rest ->
        status r1 = "missed" -> status r2 = "missed" ->
        counts_for_streak (status r3) = true ->
        streak_status (fst verdict) = "at_risk" /\ snd verdict = db)
  /\ (forall r1 rest,
        window = r1 :: rest -> counts_for_streak (status r1) = true ->
        fst verdict = mkStreakStatus "active" None /\ snd verdict = db).
Proof.
  intros window misses verdict. subst verdict misses.
  unfold getConsecutiveMisses. fold window.
  split; [| split].
  - intros r1 r2 r3 rest u Hw H1 H2 H3 Hu. rewrite Hw.
    cbn [count_misses]. rewrite H1, H2, H3. cbn [String.eqb Ascii.eqb Bool.eqb].
    rewrite count_misses_leading. unfold validateStreak.
    assert (Hge : (3 <=? Z.of_nat (3 + leading_misses rest)) = true)
      by (apply Z.leb_le; lia).
    rewrite Hge. cbn [fst snd streak_status]. split; [reflexivity |].
    apply getUserById_eliminateUser. exact Hu.
  - intros r1 r2 r3 rest Hw H1 H2 H3. rewrite Hw.
    cbn [count_misses]. rewrite H1, H2. cbn [String.eqb Ascii.eqb Bool.eqb].
    assert (Hm : (status r3 =? "missed")%string = false).
    { apply String.eqb_neq. apply done_is_not_missed. exact H3. }
    rewrite Hm. fold (counts_for_streak (status r3)). rewrite H3.
    split; reflexivity.
  - intros r1 rest Hw H1. rewrite Hw. cbn [count_misses].
    assert (Hm : (status r1 =? "missed")%string = false).
    { apply String.eqb_neq. apply done_is_not_missed. exact H1. }
    rewrite Hm. fold (counts_for_streak (status r1)). rewrite H1.
    split; reflexivity.
Qed.

Lemma streak_status_from_history_witness :
  streak_status
    (fst (validateStreak (mkDate 2024 2 10) 1
            (Z.of_nat (getConsecutiveMisses 1 (mkDate 2024 2 10)
                                            sample_history))
            sample_history)) = "at_risk".
Proof.
  pose proof (streak_status_from_history (mkDate 2024 2 10) (mkDate 2024 2 10)
                1 sample_history) as (_ & Hrisk & _).
  refine (proj1 (Hrisk _ _ _ _ _ _ _ _)).
  - vm_compute. reflexivity.
  - reflexivity.
  - reflexivity.
  - reflexivity.
Defined.

(** ** Distance rule, continued *)

Lemma distance_rule_ordered_holds :
  forallb distance_ordered_after distance_values = true.
Proof. vm_cast_no_check (eq_refl true). Qed.

Lemma distance_ordered_after_eq (x : (Z * Z) * option Qc) :
  distance_ordered_after x
  = distance_bounded x && forallb (distance_pair_ordered x) distance_values.
Proof. reflexivity. Qed.

Lemma distance_values_complete (m d : Z) :
  0 <= m <= 11 -> 1 <= d <= 31 ->
  In ((m, d), getRequiredDistance (mkDate 0 m d)) distance_values.
Proof.
  intros Hm Hd. unfold distance_values.
  apply (in_map (fun md => (md, getRequiredDistance
                                  (mkDate 0 (fst md) (snd md))))
                month_day_pairs (m, d)).
  apply list_elem_of_In, month_day_pairs_complete; assumption.
Qed.

Lemma distance_rule_ordered_at (x y : (Z * Z) * option Qc) :
  In x distance_values -> In y distance_values ->
  distance_bounded x = true /\ distance_pair_ordered x y = true.
Proof.
  intros Hx Hy.
  pose proof (proj1 (forallb_forall _ _) distance_rule_ordered_holds x Hx)
    as H.
  rewrite distance_ordered_after_eq in H.
  apply andb_true_iff in H as [Hb Hall]. split; [exact Hb |].
  exact (proj1 (forallb_forall _ _) Hall y Hy).
Qed.

(** X10: For the dates of one year the required distance grows with the date:
    the earlier of two dates requires strictly less, so no two days of a
    year require the same; and it always lies between 1.01 and 12.31. *)
Theorem getRequiredDistance_increases_through_year (d1 d2 : JsDate) :
  0 <= getMonth d1 <= 11 -> 1 <= getDate d1 <= 31 ->
  0 <= getMonth d2 <= 11 -> 1 <= getDate d2 <= 31 ->
  exists a b : Qc,
    getRequiredDistance d1 = Some a /\ getRequiredDistance d2 = Some b
    /\ (Q2Qc (101 # 100) <= a <= Q2Qc (1231 # 100))%Qc
    /\ (getMonth d1 < getMonth d2
        \/ (getMonth d1 = getMonth d2 /\ getDate d1 < getDate d2) ->
        (a < b)%Qc).
Proof.
  intros Hm1 Hd1 Hm2 Hd2.
  destruct d1 as [y1 m1 dd1], d2 as [y2 m2 dd2].
  cbn [getMonth getDate] in *.
  rewrite (getRequiredDistance_year_irrelevant y1 0).
  rewrite (getRequiredDistance_year_irrelevant y2 0).
  destruct (distance_rule_ordered_at _ _
              (distance_values_complete m1 dd1 Hm1 Hd1)
              (distance_values_complete m2 dd2 Hm2 Hd2)) as [Hb Ho].
  unfold distance_bounded, distance_pair_ordered in Hb, Ho.
  cbn [fst snd] in Hb, Ho.
  destruct (getRequiredDistance (mkDate 0 m1 dd1)) as [a |]; [| discriminate].
  destruct (getRequiredDistance (mkDate 0 m2 dd2)) as [b |]; [| discriminate].
  apply andb_true_iff in Hb as [Hlo Hhi].
  apply bool_decide_eq_true in Hlo. apply bool_decide_eq_true in Hhi.
  exists a, b. split; [reflexivity |]. split; [reflexivity |].
  split; [split; assumption |].
  intros Hlt.
  assert (He : earlier_in_year (m1, dd1) (m2, dd2) = true).
  { unfold earlier_in_year. cbn [fst snd]. apply orb_true_iff.
    destruct Hlt as [Hlt | [Heq Hlt]].
    - left. apply Z.ltb_lt. exact Hlt.
    - right. apply andb_true_iff. split;
        [apply Z.eqb_eq; exact Heq | apply Z.ltb_lt; exact Hlt]. }
  rewrite He in Ho. cbn [implb] in Ho. apply bool_decide_eq_true in Ho.
  exact Ho.
Qed.

Lemma getRequiredDistance_increases_through_year_witness :
  exists a b : Qc,
    getRequiredDistance (mkDate 2024 0 31) = Some a
    /\ getRequiredDistance (mkDate 2024 1 1) = Some b
    /\ (a < b)%Qc.
Proof.
  destruct (getRequiredDistance_increases_through_year
              (mkDate 2024 0 31) (mkDate 2024 1 1)
              ltac:(simpl; lia) ltac:(simpl; lia)
              ltac:(simpl; lia) ltac:(simpl; lia))
    as (a & b & Ha & Hb & _ & Hlt).
  exists a, b. split; [exact Ha |]. split; [exact Hb |].
  apply Hlt. left. simpl. lia.
Defined.

(** ** Goal evaluator, continued *)



Lemma checkDailyGoal_total (runs : list Run) (required : Qc) :
  totalDistance (checkDailyGoal runs required) = sum_distances runs.
Proof.
  unfold checkDailyGoal. cbn [totalDistance].
  rewrite fold_left_distance. ring.
Qed.





(** ** Streak analyzer, continued *)

Lemma count_done_Permutation (l l' : list ProgressRow) :
  l ≡ₚ l' -> count_done l = count_done l'.
Proof. apply filter_length_Permutation. Qed.

Lemma count_done_app (l l' : list ProgressRow) :
  count_done (l ++ l') = (count_done l + count_done l')%nat.
Proof. unfold count_done. rewrite List.filter_app, length_app. reflexivity. Qed.

Lemma missed_free_no_missed (l : list ProgressRow) :
  List.filter (fun d => (status d =? "missed")%string) l = [] ->
  missed_free l.
Proof.
  unfold missed_free. induction l as [| x l IH]; simpl; [constructor |].
  destruct (String.eqb_spec (status x) "missed") as [Hm | Hm]; [discriminate |].
  intros H. constructor; [exact Hm | apply IH; exact H].
Qed.

Lemma ends_with_missed_free (pre tail : list ProgressRow) :
  ends_with_missed pre -> missed_free (pre ++ tail) -> pre = [].
Proof.
  intros [-> | (pre' & m & -> & Hm)] Hfree; [reflexivity |].
  unfold missed_free in Hfree. rewrite !Forall_app in Hfree.
  destruct Hfree as [[_ Hm'] _]. apply (proj1 (Forall_singleton _ _)) in Hm'.
  destruct (Hm' Hm).
Qed.

(** X13: The streaks are bounded by the history: current <= longest <= number of
    "completed" or "bailout" rows <= number of rows; the longest streak is
    0 exactly when no row is "completed" or "bailout"; and in a history
    without a "missed" row both streaks are the number of "completed" or
    "bailout" rows. *)
Theorem calculateStreaks_bounds (progressData : list ProgressRow) :
  let s := calculateStreaks progressData in
  (currentStreak s <= longestStreak s)%nat
  /\ (longestStreak s <= count_done progressData)%nat
  /\ (count_done progressData <= List.length progressData)%nat
  /\ (longestStreak s = 0%nat <-> count_done progressData = 0%nat)
  /\ (List.filter (fun d => (status d =? "missed")%string) progressData = [] ->
      currentStreak s = count_done progressData
      /\ longestStreak s = count_done progressData).
Proof.
  intros s. subst s.
  destruct (calculateStreaks_fields progressData) as [-> ->].
  set (sorted := stable_sort by_date_asc progressData).
  assert (Hperm : sorted ≡ₚ progressData) by apply stable_sort_Permutation.
  rewrite <- (count_done_Permutation _ _ Hperm).
  destruct (streak_inv_fold sorted)
    as (Htail & (p & t & Hpt & Hfree & Hend & Hct) & Hub
        & (p' & r & q & Hprq & _ & Hcr) & Hle).
  set (longest := fst (fold_left streak_step sorted (0%nat, 0%nat))) in *.
  set (current := snd (fold_left streak_step sorted (0%nat, 0%nat))) in *.
  assert (Hlong : (longest <= count_done sorted)%nat).
  { rewrite <- Hcr, Hprq, !count_done_app. lia. }
  split; [exact Hle |]. split; [exact Hlong |]. split.
  { rewrite <- (Permutation_length Hperm). apply List.filter_length_le. }
  split.
  - split; [| lia]. intros Hzero.
    destruct (Nat.eq_dec (count_done sorted) 0%nat) as [Hz | Hnz]; [exact Hz |].
    exfalso. unfold count_done in Hnz.
    destruct (List.filter (fun d => counts_for_streak (status d)) sorted)
      as [| x xs] eqn:Hf; [apply Hnz; reflexivity |].
    assert (Hx : In x (List.filter (fun d => counts_for_streak (status d))
                                   sorted)) by (rewrite Hf; left; reflexivity).
    apply filter_In in Hx as [Hin Hdone].
    apply in_split in Hin as (l1 & l2 & Hsplit).
    assert (Hone : (count_done [x] <= longest)%nat).
    { apply (Hub l1 [x] l2); [exact Hsplit |].
      apply Forall_singleton. apply done_is_not_missed. exact Hdone. }
    unfold count_done in Hone. simpl in Hone. rewrite Hdone in Hone.
    simpl in Hone. lia.
  - intros Hnone.
    assert (Hfs : missed_free sorted).
    { apply missed_free_no_missed.
      apply length_zero_iff_nil.
      rewrite (filter_length_Permutation _ _ _ Hperm), Hnone. reflexivity. }
    assert (Hall : (count_done sorted <= longest)%nat).
    { apply (Hub [] sorted []); [rewrite app_nil_r; reflexivity | exact Hfs]. }
    split; [| lia].
    rewrite Hpt in Hfs. rewrite (ends_with_missed_free p t Hend Hfs) in Hpt.
    simpl in Hpt. rewrite Hpt. symmetry. exact Hct.
Qed.

Lemma calculateStreaks_bounds_witness :
  currentStreak (calculateStreaks (firstn 2 sample_progress)) = 2%nat.
Proof.
  pose proof (calculateStreaks_bounds (firstn 2 sample_progress))
    as (_ & _ & _ & _ & Hnone).
  destruct (Hnone eq_refl) as [Hc _]. rewrite Hc. reflexivity.
Defined.

Lemma strongly_sorted_unique {A : Type} (R : A -> A -> Prop) (l1 l2 : list A) :
  StronglySorted R l1 -> StronglySorted R l2 -> l1 ≡ₚ l2 ->
  (forall x y, x ∈ l1 -> y ∈ l1 -> R x y -> R y x -> x = y) ->
  l1 = l2.
Proof.
  intros H1. revert l2.
  induction H1 as [| a t1 Ht1 IH Ha]; intros l2 H2 Hperm Hanti.
  - apply Permutation_nil_l in Hperm. subst l2. reflexivity.
  - destruct H2 as [| b t2 Ht2 Hb].
    + apply Permutation_nil_r in Hperm. discriminate Hperm.
    + assert (Hab : a = b).
      { assert (Hain : a ∈ b :: t2)
          by (rewrite <- Hperm; apply list_elem_of_here).
        assert (Hbin : b ∈ a :: t1)
          by (rewrite Hperm; apply list_elem_of_here).
        apply elem_of_cons in Hain as [Heq | Hain]; [exact Heq |].
        apply elem_of_cons in Hbin as [Heq | Hbin]; [symmetry; exact Heq |].
        rewrite Forall_forall in Ha, Hb.
        apply Hanti.
        - apply list_elem_of_here.
        - apply list_elem_of_further. exact Hbin.
        - apply Ha. exact Hbin.
        - apply Hb. exact Hain. }
      subst b. f_equal. apply IH; [exact Ht2 | |].
      * apply Permutation_cons_inv in Hperm. exact Hperm.
      * intros x y Hx Hy. apply Hanti; apply list_elem_of_further; assumption.
Qed.

Lemma NoDup_fmap_agree {A B : Type} (f : A -> B) (l : list A) (x y : A) :
  NoDup (map f l) -> x ∈ l -> y ∈ l -> f x = f y -> x = y.
Proof.
  induction l as [| a l IH]; simpl; intros Hnd Hx Hy Hf.
  - apply elem_of_nil in Hx. contradiction.
  - apply NoDup_cons in Hnd as [Ha Hnd].
    apply elem_of_cons in Hx as [-> | Hx]; apply elem_of_cons in Hy as [-> | Hy].
    + reflexivity.
    + exfalso. apply Ha. rewrite Hf. apply list_elem_of_fmap_2. exact Hy.
    + exfalso. apply Ha. rewrite <- Hf. apply list_elem_of_fmap_2. exact Hx.
    + apply IH; assumption.
Qed.

(** X14: The order in which the rows are handed to [calculateStreaks] does not
    matter when they carry valid and pairwise different days: any
    rearrangement, such as the newest-first order of [getDailyProgress],
    gives the same two streaks. *)
Theorem calculateStreaks_order_insensitive (l l' : list ProgressRow) :
  l ≡ₚ l' -> valid_dates l -> NoDup (map time_of l) ->
  calculateStreaks l = calculateStreaks l'.
Proof.
  intros Hperm Hvalid Hnd.
  assert (Hvalid' : valid_dates l').
  { unfold valid_dates. rewrite <- Hperm. exact Hvalid. }
  assert (Hs : stable_sort by_date_asc l = stable_sort by_date_asc l').
  { apply (strongly_sorted_unique oldest_first).
    - apply by_date_asc_sorted. exact Hvalid.
    - apply by_date_asc_sorted. exact Hvalid'.
    - rewrite !stable_sort_Permutation. exact Hperm.
    - intros x y Hx Hy Hxy Hyx.
      apply stable_sort_elem_of in Hx. apply stable_sort_elem_of in Hy.
      apply (NoDup_fmap_agree time_of l); try assumption.
      unfold oldest_first in *. lia. }
  unfold calculateStreaks. rewrite Hs. reflexivity.
Qed.

Lemma calculateStreaks_order_insensitive_witness :
  calculateStreaks sample_progress = calculateStreaks (rev sample_progress).
Proof.
  apply calculateStreaks_order_insensitive.
  - apply Permutation_rev.
  - unfold valid_dates, sample_progress.
    repeat (apply List.Forall_cons; [eexists; vm_compute; reflexivity |]).
    apply List.Forall_nil.
  - apply NoDup_ListNoDup. vm_compute.
    repeat constructor; simpl; intuition discriminate.
Defined.

(** ** Winner resolver, continued *)

Lemma head_elem_of {A : Type} (l : list A) (x : A) : head l = Some x -> x ∈ l.
Proof. destruct l; [discriminate |]. intros [= ->]. apply list_elem_of_here. Qed.

Lemma candidate_pool_elem (users : list UserRow) (c : UserRow) :
  c ∈ candidate_pool users ->
  c ∈ users
  /\ (List.filter (fun u => negb (has_elimination_date u)) users <> [] ->
      has_elimination_date c = false).
Proof.
  unfold candidate_pool.
  destruct (List.filter (fun u => negb (has_elimination_date u)) users)
    as [| a active] eqn:Ha.
  - intros Hc. apply stable_sort_elem_of in Hc.
    apply list_elem_of_In, filter_In in Hc as [Hc _].
    split; [apply list_elem_of_In; exact Hc | intros H; contradiction].
  - intros Hc. rewrite <- Ha in Hc.
    apply list_elem_of_In, filter_In in Hc as [Hc Hact].
    split; [apply list_elem_of_In; exact Hc |].
    intros _. apply negb_true_iff. exact Hact.
Qed.

Lemma break_ties_winner (m : gmap Z (list ProgressRow)) (cs : list UserRow)
    (w : Winner) :
  break_ties m cs = Some w ->
  winner_user w ∈ cs
  /\ match w with
     | Bare _ => False
     | ByDays c => c = with_day_count m (counted_user c)
     | ByStreak s => s = with_streaks m (with_day_count m
                                           (counted_user (streaked s)))
     end.
Proof.
  unfold break_ties.
  set (byDays := stable_sort by_days_desc (map (with_day_count m) cs)).
  assert (Hd : forall c, c ∈ byDays ->
                         counted_user c ∈ cs
                         /\ c = with_day_count m (counted_user c)).
  { intros c Hc. apply stable_sort_elem_of in Hc.
    apply list_elem_of_fmap in Hc as (u & -> & Hu). split; [exact Hu |].
    reflexivity. }
  match goal with |- (if ?b then _ else _) = _ -> _ => destruct b end.
  - destruct (head byDays) as [c |] eqn:Hh; [| discriminate].
    intros [= <-]. apply head_elem_of in Hh. apply Hd. exact Hh.
  - destruct (head (stable_sort by_streak_desc
                      (map (with_streaks m) byDays))) as [s |] eqn:Hh;
      [| discriminate].
    intros [= <-]. apply head_elem_of in Hh.
    apply stable_sort_elem_of in Hh.
    apply list_elem_of_fmap in Hh as (c & -> & Hc).
    destruct (Hd c Hc) as [Hu Hc']. cbn [winner_user streaked with_streaks].
    split; [exact Hu |]. rewrite <- Hc'. reflexivity.
Qed.

(** X15: The winner is one of the users handed in, with their row unchanged; if
    any user is without an elimination date, so is the winner; and the
    figures attached to the winner are computed from the winner's own
    history. *)
Theorem determineWinner_winner_is_a_user (users : list UserRow)
    (m : gmap Z (list ProgressRow)) (w : Winner) :
  determineWinner users m = Some w ->
  winner_user w ∈ users
  /\ ((exists u, u ∈ users /\ has_elimination_date u = false) ->
      has_elimination_date (winner_user w) = false)
  /\ match w with
     | Bare _ => True
     | ByDays c =>
         totalDaysRun c = getTotalDaysRun (progress_of m (counted_user c))
     | ByStreak s =>
         totalDaysRun (streaked s)
         = getTotalDaysRun (progress_of m (counted_user (streaked s)))
         /\ streaks s
            = calculateStreaks (progress_of m (counted_user (streaked s)))
     end.
Proof.
  rewrite determineWinner_pool. intros Hw.
  assert (Hpool : winner_user w ∈ candidate_pool users
                  /\ match w with
                     | Bare _ => True
                     | ByDays c =>
                         totalDaysRun c
                         = getTotalDaysRun (progress_of m (counted_user c))
                     | ByStreak s =>
                         totalDaysRun (streaked s)
                         = getTotalDaysRun
                             (progress_of m (counted_user (streaked s)))
                         /\ streaks s
                            = calculateStreaks
                                (progress_of m (counted_user (streaked s)))
                     end).
  { destruct (candidate_pool users) as [| c [| c' cs]]; [discriminate | |].
    - injection Hw as <-. split; [apply list_elem_of_here | exact I].
    - apply break_ties_winner in Hw as [Hin Hfig]. split; [exact Hin |].
      destruct w as [u | c0 | s]; [contradiction | |].
      + rewrite Hfig at 1. reflexivity.
      + split; rewrite Hfig at 1; reflexivity. }
  destruct Hpool as [Hin Hfig].
  apply candidate_pool_elem in Hin as [Hin Hact].
  split; [exact Hin |]. split; [| exact Hfig].
  intros (u & Hu & Hnone). apply Hact.
  intros Hnil.
  assert (Hu' : In u (List.filter (fun u => negb (has_elimination_date u))
                                  users)).
  { apply filter_In. split; [apply list_elem_of_In; exact Hu |].
    rewrite Hnone. reflexivity. }
  rewrite Hnil in Hu'. exact Hu'.
Qed.

Lemma determineWinner_winner_is_a_user_witness :
  exists w,
    determineWinner sample_runners
      (sample_days ["completed"; "completed"] ["completed"; "missed"])
    = Some w
    /\ winner_user w ∈ sample_runners.
Proof.
  eexists. split; [vm_compute; reflexivity |].
  refine (proj1 (determineWinner_winner_is_a_user sample_runners
                   (sample_days ["completed"; "completed"]
                                ["completed"; "missed"]) _ _)).
  vm_compute. reflexivity.
Defined.

Lemma filter_idem {A : Type} (p : A -> bool) (l : list A) :
  List.filter p (List.filter p l) = List.filter p l.
Proof.
  induction l as [| x l IH]; simpl; [reflexivity |].
  destruct (p x) eqn:Hp; simpl; rewrite ?Hp, IH; reflexivity.
Qed.

(** X16: As soon as one user is without an elimination date, the eliminated
    users play no part: the winner is the one found among the users without
    an elimination date alone. *)
Theorem determineWinner_ignores_eliminated (users : list UserRow)
    (m : gmap Z (list ProgressRow)) :
  let active :=
    List.filter (fun u => negb (has_elimination_date u)) users in
  active <> [] ->
  determineWinner users m = determineWinner active m.
Proof.
  intros active Hne. rewrite !determineWinner_pool.
  assert (H1 : candidate_pool users = active).
  { unfold candidate_pool. fold active.
    destruct active; [contradiction | reflexivity]. }
  assert (H2 : candidate_pool active = active).
  { unfold candidate_pool, active. rewrite filter_idem. fold active.
    destruct active; [contradiction | reflexivity]. }
  rewrite H1, H2. reflexivity.
Qed.

Lemma determineWinner_ignores_eliminated_witness :
  determineWinner
    (mkUser 3 "Grace" "Hopper" 0 (Some "2024-03-05")
            (Some "Three consecutive missed days") :: sample_runners)
    (sample_days ["completed"; "completed"] ["completed"; "missed"])
  = determineWinner sample_runners
      (sample_days ["completed"; "completed"] ["completed"; "missed"]).
Proof.
  apply (determineWinner_ignores_eliminated
           (mkUser 3 "Grace" "Hopper" 0 (Some "2024-03-05")
                   (Some "Three consecutive missed days") :: sample_runners)).
  discriminate.
Defined.

(** ** Activities *)

Lemma text_desc_sorted {A : Type} (key : A -> string) (l : list A) :
  StronglySorted (fun a b => String.leb (key b) (key a) = true)
                 (stable_sort (fun a b => text_cmp (key b) (key a)) l).
Proof.
  apply (stable_sort_StronglySorted _ _ (fun _ => True)).
  - intros x y z Hxy Hyz. eapply string_leb_trans; eassumption.
  - intros x y _ _. split; [apply text_cmp_le | apply text_cmp_gt].
  - apply Forall_forall. intros; exact I.
Qed.

Lemma upsert_activity_stored (userId : Z) (a : Activity)
    (rows : list ActivityRow) :
  stored_activity userId a rows ∈ fst (saveActivity userId a rows).
Proof.
  unfold stored_activity, saveActivity. cbn [fst].
  induction rows as [| r rows IH]; cbn [upsert_activity List.find strava_activity_id].
  - apply list_elem_of_here.
  - destruct (String.eqb_spec (strava_activity_id r)
                              (Js.toString (activity_id a))) as [Heq | Hne].
    + unfold activity_conflict_update. cbn. rewrite Heq.
      apply list_elem_of_here.
    + apply list_elem_of_further. exact IH.
Qed.







Lemma filter_upsert_activity_owner (other : Z) (new old : ActivityRow)
    (rows : list ActivityRow) :
  List.find (fun r => (strava_activity_id r
                       =? strava_activity_id new)%string) rows = Some old ->
  row_user_id old <> other ->
  List.filter (fun r => row_user_id r =? other) (upsert_activity new rows)
  = List.filter (fun r => row_user_id r =? other) rows.
Proof.
  induction rows as [| r rows IH]; simpl; [discriminate |].
  destruct (strava_activity_id r =? strava_activity_id new)%string.
  - intros [= ->] Hne. simpl.
    destruct (Z.eqb_spec (row_user_id old) other); [contradiction | reflexivity].
  - intros Hf Hne. simpl. rewrite (IH Hf Hne). reflexivity.
Qed.

(** X18: An activity never changes hands: when the table already holds the
    activity for one user, [saveActivity] by another user refreshes that
    row for its owner and leaves the caller's own list as it was. *)
Theorem saveActivity_keeps_owner (owner other : Z) (a : Activity)
    (rows : list ActivityRow) (old : ActivityRow) (limit : option Z) :
  List.find (fun r => (strava_activity_id r
                       =? Js.toString (activity_id a))%string) rows
  = Some old ->
  row_user_id old = owner ->
  other <> owner ->
  let rows' := fst (saveActivity other a rows) in
  getActivitiesByUser other limit rows' = getActivitiesByUser other limit rows
  /\ row_user_id (stored_activity other a rows) = owner
  /\ stored_activity other a rows ∈ rows'.
Proof.
  intros Hf Ho Hne rows'. split; [| split].
  - unfold getActivitiesByUser, rows', saveActivity. cbn [fst].
    rewrite (filter_upsert_activity_owner other _ old); [reflexivity | | ].
    + exact Hf.
    + congruence.
  - unfold stored_activity. rewrite Hf. exact Ho.
  - apply upsert_activity_stored.
Qed.

Lemma saveActivity_keeps_owner_witness :
  getActivitiesByUser 2 None
    (fst (saveActivity 2 (mkActivity 101 "Copy" (Q2Qc (6000 # 1)) 1 1 "Run"
                                     "2024-03-09")
            (fst (saveActivity 1 (mkActivity 101 "Morning run"
                                             (Q2Qc (5000 # 1)) 1500 1600
                                             "Run" "2024-03-07") []))))
  = [].
Proof.
  refine (eq_trans
            (proj1 (saveActivity_keeps_owner 1 2
                      (mkActivity 101 "Copy" (Q2Qc (6000 # 1)) 1 1 "Run"
                                  "2024-03-09")
                      (fst (saveActivity 1 (mkActivity 101 "Morning run"
                                                       (Q2Qc (5000 # 1))
                                                       1500 1600 "Run"
                                                       "2024-03-07") []))
                      _ None eq_refl eq_refl _)) _).
  - discriminate.
  - reflexivity.
Defined.

(** X19: [getActivitiesByUser] returns rows of that user only, newest start date
    first; without a second argument at most 30 of them, with a limit of 0
    or more at most that many, and with a negative limit all of them; the
    rows left out are no newer than the rows returned. *)
Theorem getActivitiesByUser_spec (userId : Z) (limit : option Z)
    (rows : list ActivityRow) :
  let result := getActivitiesByUser userId limit rows in
  let mine := List.filter (fun r => row_user_id r =? userId) rows in
  let n := default 30 limit in
  (forall r, r ∈ result -> r ∈ rows /\ row_user_id r = userId)
  /\ (exists older,
        result ++ older ≡ₚ mine
        /\ StronglySorted newest_activity_first (result ++ older))
  /\ (0 <= n ->
      List.length result = Nat.min (Z.to_nat n) (List.length mine))
  /\ (n < 0 -> result ≡ₚ mine)
  /\ (limit = None ->
      List.length result = Nat.min 30 (List.length mine)).
Proof.
  intros result mine n.
  set (sorted := stable_sort
                   (fun a b => text_cmp (row_start_date b) (row_start_date a))
                   mine).
  assert (Hperm : sorted ≡ₚ mine) by apply stable_sort_Permutation.
  assert (Hsorted : StronglySorted newest_activity_first sorted)
    by apply (text_desc_sorted row_start_date).
  assert (Hres : result = if n <? 0 then sorted
                          else firstn (Z.to_nat n) sorted) by reflexivity.
  assert (Hsplit : exists older, result ++ older = sorted).
  { rewrite Hres. destruct (n <? 0).
    - exists []. apply app_nil_r.
    - exists (skipn (Z.to_nat n) sorted). apply firstn_skipn. }
  destruct Hsplit as [older Hsplit].
  split; [| split; [| split; [| split]]].
  - intros r Hr.
    assert (Hin : r ∈ sorted).
    { rewrite <- Hsplit. apply elem_of_app. left. exact Hr. }
    rewrite Hperm in Hin. apply list_elem_of_In, filter_In in Hin as [Hin Hu].
    split; [apply list_elem_of_In; exact Hin | apply Z.eqb_eq; exact Hu].
  - exists older. rewrite Hsplit. split; assumption.
  - intros Hn. rewrite Hres.
    assert (Hf : (n <? 0) = false) by (apply Z.ltb_ge; exact Hn).
    rewrite Hf, length_take. unfold sorted. rewrite stable_sort_length.
    reflexivity.
  - intros Hn. rewrite Hres. apply Z.ltb_lt in Hn. rewrite Hn. exact Hperm.
  - intros ->. rewrite Hres. unfold n. cbn [default Z.ltb Z.compare].
    rewrite length_take. unfold sorted. rewrite stable_sort_length.
    reflexivity.
Qed.

Lemma getActivitiesByUser_spec_witness :
  List.length (getActivitiesByUser 1 (Some 1)
                 (fst (saveActivity 1 (mkActivity 103 "Treadmill"
                                                  (Q2Qc (3000 # 1)) 900 900
                                                  "VirtualRun" "2024-03-08")
                         (fst (saveActivity 1 (mkActivity 101 "Morning run"
                                                          (Q2Qc (5000 # 1))
                                                          1500 1600 "Run"
                                                          "2024-03-07")
                                 []))))) = 1%nat.
Proof.
  pose proof (getActivitiesByUser_spec 1 (Some 1)
                (fst (saveActivity 1 (mkActivity 103 "Treadmill"
                                                 (Q2Qc (3000 # 1)) 900 900
                                                 "VirtualRun" "2024-03-08")
                        (fst (saveActivity 1 (mkActivity 101 "Morning run"
                                                         (Q2Qc (5000 # 1))
                                                         1500 1600 "Run"
                                                         "2024-03-07")
                                []))))) as (_ & _ & Hlen & _).
  rewrite Hlen; [reflexivity | simpl; lia].
Defined.

(** ** Runs of a day *)

(** X20: [getRunsForDate] fails exactly when some activity of the feed, of
    whatever type, has a start date that is not a date.  Otherwise it
    returns, in feed order, the activities of type "Run" or "VirtualRun"
    that started on the day asked for, and asking again on its own result
    returns the same. *)
Theorem getRunsForDate_spec (new_Date : string -> option JsDate)
    (activities : list Activity) (date : JsDate) :
  (is_Some (getRunsForDate new_Date activities date)
   <-> Forall (fun a => is_Some (new_Date (start_date a))) activities)
  /\ forall runs,
       getRunsForDate new_Date activities date = Some runs ->
       sublist runs activities
       /\ (forall a, a ∈ runs <->
                     a ∈ activities
                     /\ (activity_type a = "Run"
                         \/ activity_type a = "VirtualRun")
                     /\ option_map isoDate (new_Date (start_date a))
                        = Some (isoDate date))
       /\ getRunsForDate new_Date runs date = Some runs.
Proof.
  induction activities as [| x activities [IHsome IHruns]].
  - split.
    + split; [intros _; constructor | intros _; eexists; reflexivity].
    + intros runs [= <-]. split; [constructor |]. split; [| reflexivity].
      intros a. split; [intros Ha | intros [Ha _]];
        apply elem_of_nil in Ha; contradiction.
  - cbn [getRunsForDate].
    destruct (new_Date (start_date x)) as [started |] eqn:Hx.
    + destruct (getRunsForDate new_Date activities date) as [runs0 |] eqn:Hr.
      * specialize (IHruns runs0 eq_refl) as (Hsub & Hmem & Hidem).
        assert (Hkeep : is_run x = true <->
                        (activity_type x = "Run"
                         \/ activity_type x = "VirtualRun")).
        { unfold is_run. rewrite orb_true_iff, !String.eqb_eq. reflexivity. }
        split.
        { split.
          - intros _. constructor; [eexists; exact Hx |].
            apply IHsome. eexists; reflexivity.
          - intros _.
            destruct ((isoDate started =? isoDate date)%string && is_run x);
              eexists; reflexivity. }
        intros runs Hruns.
        destruct ((isoDate started =? isoDate date)%string && is_run x)
          eqn:Hc; injection Hruns as <-.
        -- apply andb_true_iff in Hc as [Hday Hrun].
           apply String.eqb_eq in Hday.
           split; [apply sublist_skip; exact Hsub |]. split.
           ++ intros a. rewrite !elem_of_cons, Hmem. split.
              ** intros [-> | H]; [| tauto].
                 split; [left; reflexivity |].
                 split; [apply Hkeep; exact Hrun |].
                 rewrite Hx. simpl. rewrite Hday. reflexivity.
              ** intros [[-> | Ha] H]; [left; reflexivity | right; tauto].
           ++ cbn [getRunsForDate]. rewrite Hx, Hidem.
              rewrite Hday, String.eqb_refl, Hrun. reflexivity.
        -- split; [apply sublist_cons; exact Hsub |]. split; [| exact Hidem].
           intros a. rewrite elem_of_cons, Hmem. split; [tauto |].
           intros [[-> | Ha] [Ht Hd]]; [| tauto].
           exfalso. rewrite Hx in Hd. simpl in Hd. injection Hd as Hd.
           apply Hkeep in Ht. rewrite Hd, String.eqb_refl, Ht in Hc.
           discriminate Hc.
      * split; [| discriminate].
        split; [intros [? H]; discriminate H |].
        intros HF. apply Forall_cons in HF as [_ HF].
        apply IHsome in HF. destruct HF as [? HF]. discriminate HF.
    + split; [| discriminate].
      split; [intros [? H]; discriminate H |].
      intros HF. apply Forall_cons in HF as [[? HF] _].
      rewrite Hx in HF. discriminate HF.
Qed.

Lemma getRunsForDate_spec_witness :
  getRunsForDate Date_of_string sample_feed (mkDate 2024 2 7)
  = Some [mkActivity 101 "Morning run" (Q2Qc (5000 # 1)) 1500 1600 "Run"
                     "2024-03-07"]
  /\ getRunsForDate Date_of_string
       [mkActivity 104 "Broken" 0%Qc 0 0 "Ride" "someday"] (mkDate 2024 2 7)
     = None.
Proof.
  split; [reflexivity |].
  pose proof (getRunsForDate_spec Date_of_string
                [mkActivity 104 "Broken" 0%Qc 0 0 "Ride" "someday"]
                (mkDate 2024 2 7)) as [Hsome _].
  destruct (getRunsForDate Date_of_string
              [mkActivity 104 "Broken" 0%Qc 0 0 "Ride" "someday"]
              (mkDate 2024 2 7)) as [runs |] eqn:Hr; [| reflexivity].
  exfalso. assert (Hs : is_Some (Some runs)) by (eexists; reflexivity).
  apply Hsome in Hs. apply Forall_cons in Hs as [[d Hd] _].
  discriminate Hd.
Defined.

(** ** The calendar from 1970 to 2099 *)

Ltac split_tests :=
  repeat match goal with
         | |- context [if ?a <? ?b then _ else _] =>
             destruct (Z.ltb_spec a b)
         | |- context [if ?a <=? ?b then _ else _] =>
             destruct (Z.leb_spec a b)
         | |- context [?a =? ?b] => destruct (Z.eqb_spec a b)
         end.

Lemma calendar_days_complete (d : JsDate) :
  1970 <= getFullYear d <= 2099 ->
  0 <= getMonth d <= 11 ->
  1 <= getDate d <= days_in_month (getFullYear d) (getMonth d + 1) ->
  In d calendar_days.
Proof.
  intros Hy Hm Hd. apply list_elem_of_In. unfold calendar_days.
  apply list_elem_of_bind. exists (getFullYear d).
  split; [| apply elem_of_seqZ; lia].
  apply list_elem_of_bind. exists (getMonth d).
  split; [| apply elem_of_seqZ; lia].
  apply list_elem_of_bind. exists (getDate d).
  split; [| apply elem_of_seqZ; lia].
  destruct d. apply list_elem_of_singleton. reflexivity.
Qed.

Lemma calendar_days_length : List.length calendar_days = Z.to_nat 47482.
Proof. vm_cast_no_check (eq_refl (Z.to_nat 47482)). Qed.

Lemma same_day_eq (a b : JsDate) : same_day a b = true <-> a = b.
Proof.
  unfold same_day. rewrite !andb_true_iff, !Z.eqb_eq.
  destruct a, b; simpl. split; [intros [[-> ->] ->]; reflexivity |].
  intros [= -> -> ->]. auto.
Qed.

Lemma day_number_civil_from_days (z : Z) :
  0 <= z < 47482 -> day_number (civil_from_days z) = z.
Proof.
  intros Hz. unfold day_number, civil_from_days, days_from_civil.
  cbv zeta. cbn [getFullYear getMonth getDate].
  split_tests; Z.div_mod_to_equations; lia.
Qed.

Lemma civil_from_days_range (z : Z) :
  0 <= z < 47482 ->
  1970 <= getFullYear (civil_from_days z) <= 2099
  /\ 0 <= getMonth (civil_from_days z) <= 11
  /\ 1 <= getDate (civil_from_days z).
Proof.
  intros Hz. unfold civil_from_days.
  cbv zeta. cbn [getFullYear getMonth getDate].
  split_tests; Z.div_mod_to_equations; lia.
Qed.

Lemma civil_from_days_month_end (z : Z) :
  0 <= z < 47482 ->
  getDate (civil_from_days z)
  <= days_in_month (getFullYear (civil_from_days z))
                   (getMonth (civil_from_days z) + 1).
Proof.
  intros Hz. unfold civil_from_days, days_in_month, is_leap.
  cbv zeta. cbn [getFullYear getMonth getDate].
  split_tests; cbn [andb orb negb]; Z.div_mod_to_equations; lia.
Qed.

Lemma day_number_of_civil (z : Z) :
  0 <= z < 47482 ->
  day_number (civil_from_days z) = z
  /\ 1970 <= getFullYear (civil_from_days z) <= 2099
  /\ 0 <= getMonth (civil_from_days z) <= 11
  /\ 1 <= getDate (civil_from_days z)
     <= days_in_month (getFullYear (civil_from_days z))
                      (getMonth (civil_from_days z) + 1).
Proof.
  intros Hz.
  destruct (civil_from_days_range z Hz) as (Hy & Hm & Hd).
  pose proof (civil_from_days_month_end z Hz).
  pose proof (day_number_civil_from_days z Hz).
  repeat split; try assumption; lia.
Qed.

Lemma days_in_month_le_31 (y m : Z) : days_in_month y m <= 31.
Proof.
  unfold days_in_month.
  destruct (m =? 2); [destruct (is_leap y); lia |].
  destruct ((m =? 4) || (m =? 6) || (m =? 9) || (m =? 11)); lia.
Qed.

Lemma day_number_range (d : JsDate) :
  1970 <= getFullYear d <= 2099 ->
  0 <= getMonth d <= 11 ->
  1 <= getDate d <= days_in_month (getFullYear d) (getMonth d + 1) ->
  0 <= day_number d < 47482
  /\ (1971 <= getFullYear d -> 365 <= day_number d).
Proof.
  intros Hy Hm Hd.
  pose proof (days_in_month_le_31 (getFullYear d) (getMonth d + 1)).
  unfold day_number, days_from_civil. cbv zeta.
  split_tests; Z.div_mod_to_equations; lia.
Qed.

(** The days the counts 0 to 47481 denote are 47482 different days of the
    calendar, which has 47482 days: every day of the calendar is denoted
    by a count. *)
Lemma calendar_days_counted (d : JsDate) :
  In d calendar_days ->
  exists z, 0 <= z < 47482 /\ d = civil_from_days z.
Proof.
  intros Hd.
  assert (Hnd : List.NoDup (map civil_from_days (seqZ 0 47482))).
  { apply NoDup_ListNoDup. apply NoDup_fmap_2_strong; [| apply NoDup_seqZ].
    intros a b Ha Hb Heq.
    apply elem_of_seqZ in Ha. apply elem_of_seqZ in Hb.
    rewrite <- (day_number_civil_from_days a), <- (day_number_civil_from_days b)
      by lia.
    rewrite Heq. reflexivity. }
  assert (Hincl : incl (map civil_from_days (seqZ 0 47482)) calendar_days).
  { intros x Hx. apply in_map_iff in Hx as (z & <- & Hz).
    apply list_elem_of_In, elem_of_seqZ in Hz.
    destruct (day_number_of_civil z ltac:(lia)) as (_ & Hy & Hm & Hday).
    apply calendar_days_complete; assumption. }
  assert (Hlen : (List.length calendar_days
                  <= List.length (map civil_from_days (seqZ 0 47482)))%nat).
  { rewrite calendar_days_length, length_map, length_seqZ. lia. }
  pose proof (NoDup_length_incl Hnd Hlen Hincl d Hd) as Hin.
  apply in_map_iff in Hin as (z & <- & Hz).
  apply list_elem_of_In, elem_of_seqZ in Hz.
  exists z. split; [lia | reflexivity].
Qed.

Lemma civil_of_day_number (d : JsDate) :
  1970 <= getFullYear d <= 2099 ->
  0 <= getMonth d <= 11 ->
  1 <= getDate d <= days_in_month (getFullYear d) (getMonth d + 1) ->
  civil_from_days (day_number d) = d
  /\ 0 <= day_number d < 47482
  /\ (1971 <= getFullYear d -> 365 <= day_number d).
Proof.
  intros Hy Hm Hd.
  split; [| apply day_number_range; assumption].
  destruct (calendar_days_counted d (calendar_days_complete d Hy Hm Hd))
    as (z & Hz & ->).
  rewrite day_number_civil_from_days by exact Hz. reflexivity.
Qed.

Lemma isoDate_inj (d1 d2 : JsDate) :
  1970 <= getFullYear d1 <= 2099 -> 0 <= getMonth d1 <= 11 ->
  1 <= getDate d1 <= days_in_month (getFullYear d1) (getMonth d1 + 1) ->
  1970 <= getFullYear d2 <= 2099 -> 0 <= getMonth d2 <= 11 ->
  1 <= getDate d2 <= days_in_month (getFullYear d2) (getMonth d2 + 1) ->
  isoDate d1 = isoDate d2 -> d1 = d2.
Proof.
  intros Hy1 Hm1 Hd1 Hy2 Hm2 Hd2 Hiso.
  pose proof (Date_parse_isoDate d1 Hy1 Hm1 Hd1) as H1.
  pose proof (Date_parse_isoDate d2 Hy2 Hm2 Hd2) as H2.
  rewrite Hiso, H2 in H1. injection H1 as H1.
  fold (day_number d1) in H1. fold (day_number d2) in H1.
  destruct (civil_of_day_number d1 Hy1 Hm1 Hd1) as [<- _].
  destruct (civil_of_day_number d2 Hy2 Hm2 Hd2) as [<- _].
  f_equal. lia.
Qed.

Lemma setDate_days_before (today : JsDate) (i : Z) :
  setDate today (getDate today - i) = days_before today i.
Proof.
  unfold setDate, days_before, day_number. f_equal.
  unfold days_from_civil. cbv zeta. lia.
Qed.

(** ** The day evaluation of the progress page *)

Lemma getRunsForDate_readable (new_Date : string -> option JsDate)
    (activities : list Activity) (date : JsDate) :
  Forall (fun a => is_Some (new_Date (start_date a))) activities ->
  is_Some (getRunsForDate new_Date activities date).
Proof.
  induction 1 as [| a activities [d Hd] _ [runs IH]]; cbn [getRunsForDate].
  - eexists; reflexivity.
  - rewrite Hd, IH.
    destruct ((isoDate d =? isoDate date)%string && is_run a);
      eexists; reflexivity.
Qed.

Lemma getRequiredDistance_is_Some (d : JsDate) :
  0 <= getMonth d <= 11 -> 1 <= getDate d <= 31 ->
  is_Some (getRequiredDistance d).
Proof.
  intros Hm Hd.
  pose proof (proj1 (forallb_forall _ _) distance_rule_all_pairs
                (getMonth d, getDate d)
                (proj1 (list_elem_of_In _ _)
                       (month_day_pairs_complete _ _ Hm Hd))) as H.
  unfold distance_rule_holds in H. apply bool_decide_eq_true in H.
  destruct H as [_ H]. destruct d as [y m dd]. cbn [getMonth getDate] in H.
  rewrite (getRequiredDistance_year_irrelevant y 0), H. eexists; reflexivity.
Qed.

Lemma days_before_calendar (today : JsDate) (i : Z) :
  calendar_day today -> 0 <= i <= 29 ->
  day_number (days_before today i) = day_number today - i
  /\ 1970 <= getFullYear (days_before today i) <= 2099
  /\ 0 <= getMonth (days_before today i) <= 11
  /\ 1 <= getDate (days_before today i)
     <= days_in_month (getFullYear (days_before today i))
                      (getMonth (days_before today i) + 1).
Proof.
  intros (Hy & Hm & Hd) Hi.
  destruct (civil_of_day_number today ltac:(lia) Hm Hd) as (_ & Hr & H365).
  specialize (H365 ltac:(lia)).
  unfold days_before. apply day_number_of_civil. lia.
Qed.

Lemma days_before_today (today : JsDate) (i : Z) :
  calendar_day today -> 0 <= i <= 29 ->
  same_day (days_before today i) today = (i =? 0).
Proof.
  intros Hc Hi.
  destruct (days_before_calendar today i Hc Hi) as (Hn & _).
  destruct Hc as (Hy & Hm & Hd).
  destruct (civil_of_day_number today ltac:(lia) Hm Hd) as (Hcivil & _).
  destruct (Z.eqb_spec i 0) as [-> | Hne].
  - apply same_day_eq. unfold days_before.
    rewrite Z.sub_0_r. exact Hcivil.
  - destruct (same_day (days_before today i) today) eqn:Hs; [| reflexivity].
    apply same_day_eq in Hs. rewrite Hs in Hn. lia.
Qed.

Lemma evaluate_day_returns (new_Date : string -> option JsDate)
    (today : JsDate) (activities : list Activity) (userId i : Z) (db : Db) :
  calendar_day today -> 0 <= i <= 29 ->
  Forall (fun a => is_Some (new_Date (start_date a))) activities ->
  exists runs required,
    getRunsForDate new_Date activities (days_before today i) = Some runs
    /\ getRequiredDistance (days_before today i) = Some required
    /\ evaluate_day new_Date today activities userId i db
       = Returned
           (fst (saveDailyProgress userId (days_before today i) required
                   (sum_distances (map run_of runs))
                   (evaluated_status
                      (bool_decide
                         (required <= sum_distances (map run_of runs))%Qc) i)
                   db)).
Proof.
  intros Hc Hi Hfeed.
  destruct (days_before_calendar today i Hc Hi) as (Hn & Hy & Hm & Hd).
  destruct (getRunsForDate_readable new_Date activities
              (days_before today i) Hfeed) as [runs Hruns].
  assert (Hd31 : 1 <= getDate (days_before today i) <= 31).
  { pose proof (days_in_month_le_31
                  (getFullYear (days_before today i))
                  (getMonth (days_before today i) + 1)). lia. }
  destruct (getRequiredDistance_is_Some (days_before today i) Hm Hd31)
    as [required Hreq].
  exists runs, required. split; [exact Hruns |]. split; [exact Hreq |].
  unfold evaluate_day. rewrite setDate_days_before, Hruns, Hreq.
  cbv zeta. rewrite Hn, (days_before_today today i Hc Hi).
  assert (Hfut : (day_number today <? day_number today - i) = false)
    by (apply Z.ltb_ge; lia).
  rewrite Hfut.
  assert (Htot := checkDailyGoal_total (map run_of runs) required).
  unfold checkDailyGoal in *. cbn [totalDistance goalMet] in *.
  rewrite Htot. reflexivity.
Qed.

Lemma stored_requirement_other (new : ProgressRow) (u : Z) (ds : string)
    (r : Qc) (rows : list ProgressRow) :
  (u, ds) <> progress_key new ->
  stored_requirement u ds r (upsert_progress new rows)
  = stored_requirement u ds r rows.
Proof.
  intros Hne. unfold stored_requirement.
  induction rows as [| x rows IH]; cbn [upsert_progress List.find].
  - destruct (same_key u ds new) eqn:Hk; [| reflexivity].
    apply same_key_spec in Hk. congruence.
  - destruct (same_key (user_id new) (date new) x) eqn:Hx;
      cbn [List.find].
    + apply same_key_spec in Hx.
      assert (H1 : same_key u ds x = false).
      { destruct (same_key u ds x) eqn:H; [| reflexivity].
        apply same_key_spec in H. unfold progress_key in *. congruence. }
      assert (H2 : same_key u ds (on_conflict_update new x) = false).
      { destruct (same_key u ds (on_conflict_update new x)) eqn:H;
          [| reflexivity].
        apply same_key_spec in H. unfold progress_key in *.
        cbn [on_conflict_update user_id date] in H. congruence. }
      rewrite H1, H2. reflexivity.
    + destruct (same_key u ds x); [reflexivity | exact IH].
Qed.

Lemma window_keys_differ (today : JsDate) (i j : Z) :
  calendar_day today -> 0 <= i <= 29 -> 0 <= j <= 29 -> i <> j ->
  isoDate (days_before today i) <> isoDate (days_before today j).
Proof.
  intros Hc Hi Hj Hne Heq.
  destruct (days_before_calendar today i Hc Hi) as (Hni & Hyi & Hmi & Hdi).
  destruct (days_before_calendar today j Hc Hj) as (Hnj & Hyj & Hmj & Hdj).
  apply isoDate_inj in Heq; try assumption.
  rewrite Heq in Hni. lia.
Qed.

Lemma progress_key_date (u u' : Z) (ds ds' : string) (required done : Qc)
    (st : string) :
  progress_key (mkProgress u ds required done st) = (u', ds') -> ds = ds'.
Proof.
  intros [= _ H]. exact H.
Qed.

Lemma evaluate_days_rows (new_Date : string -> option JsDate)
    (today : JsDate) (activities : list Activity) (userId : Z)
    (offsets : list Z) :
  calendar_day today ->
  Forall (fun a => is_Some (new_Date (start_date a))) activities ->
  Forall (fun i => 0 <= i <= 29) offsets -> NoDup offsets ->
  forall db,
  exists db',
    evaluate_days new_Date today activities userId offsets db = Returned db'
    /\ users db' = users db
    /\ (unique_keys (daily_progress db) -> unique_keys (daily_progress db'))
    /\ (forall r,
          (forall i, i ∈ offsets ->
                     progress_key r
                     <> (userId, isoDate (days_before today i))) ->
          (r ∈ daily_progress db' <-> r ∈ daily_progress db))
    /\ forall i, i ∈ offsets ->
         exists runs required,
           getRunsForDate new_Date activities (days_before today i)
           = Some runs
           /\ getRequiredDistance (days_before today i) = Some required
           /\ mkProgress userId (isoDate (days_before today i))
                (stored_requirement userId (isoDate (days_before today i))
                                    required (daily_progress db))
                (sum_distances (map run_of runs))
                (evaluated_status
                   (bool_decide
                      (required <= sum_distances (map run_of runs))%Qc) i)
              ∈ daily_progress db'.
Proof.
  intros Hc Hfeed Hrange Hnd.
  induction offsets as [| i rest IH]; intros db; cbn [evaluate_days].
  - exists db. split; [reflexivity |]. split; [reflexivity |].
    split; [auto |]. split; [intros; reflexivity |].
    intros i Hi. apply elem_of_nil in Hi. contradiction.
  - apply Forall_cons in Hrange as [Hi Hrange].
    apply NoDup_cons in Hnd as [Hfresh Hnd].
    destruct (evaluate_day_returns new_Date today activities userId i db
                Hc Hi Hfeed) as (runs & required & Hruns & Hreq & Hday).
    rewrite Hday.
    set (db1 := fst (saveDailyProgress userId (days_before today i) required
                       (sum_distances (map run_of runs))
                       (evaluated_status
                          (bool_decide
                             (required <= sum_distances (map run_of runs))%Qc)
                          i) db)) in *.
    destruct (IH Hrange Hnd db1) as (db' & Hret & Husers & Huniq & Hframe & Hrows).
    exists db'. split; [exact Hret |]. split; [rewrite Husers; reflexivity |].
    split; [| split].
    + intros Hu. apply Huniq. apply upsert_progress_unique. exact Hu.
    + intros r Hr. rewrite Hframe.
      * apply upsert_progress_other.
        apply (Hr i). apply list_elem_of_here.
      * intros j Hj. apply Hr. apply list_elem_of_further. exact Hj.
    + intros j Hj. apply elem_of_cons in Hj as [-> | Hj].
      * exists runs, required. split; [exact Hruns |]. split; [exact Hreq |].
        apply Hframe.
        -- intros j Hj Hkey. apply progress_key_date in Hkey.
           rewrite Forall_forall in Hrange.
           apply (window_keys_differ today i j Hc Hi (Hrange j Hj));
             [| exact Hkey].
           intros ->. exact (Hfresh Hj).
        -- apply upsert_progress_written.
      * destruct (Hrows j Hj) as (runs' & required' & Hr' & Hq' & Hin).
        exists runs', required'. split; [exact Hr' |]. split; [exact Hq' |].
        unfold db1 in Hin. cbn [saveDailyProgress fst daily_progress] in Hin.
        rewrite stored_requirement_other in Hin; [exact Hin |].
        intros Hkey. symmetry in Hkey. apply progress_key_date in Hkey.
        symmetry in Hkey.
        rewrite Forall_forall in Hrange.
        apply (window_keys_differ today j i Hc (Hrange j Hj) Hi);
          [| exact Hkey].
        intros ->. exact (Hfresh Hj).
Qed.

Lemma progress_offsets_range (i : Z) :
  i ∈ progress_offsets <-> 0 <= i <= 29.
Proof.
  unfold progress_offsets. rewrite list_elem_of_fmap. split.
  - intros (k & -> & Hk). apply list_elem_of_In, in_seq in Hk. lia.
  - intros Hi. exists (Z.to_nat (29 - i)). split; [lia |].
    apply list_elem_of_In, in_seq. lia.
Qed.

Lemma progress_offsets_NoDup : NoDup progress_offsets.
Proof.
  unfold progress_offsets. apply NoDup_fmap_2.
  - intros x y H. lia.
  - apply NoDup_ListNoDup, seq_NoDup.
Qed.



Lemma evaluated_status_cases (met : bool) (i : Z) :
  (evaluated_status met i = "completed" /\ met = true)
  \/ (evaluated_status met i = "pending" /\ met = false /\ i = 0)
  \/ (evaluated_status met i = "missed" /\ met = false /\ i <> 0).
Proof.
  unfold evaluated_status. destruct met; [left; auto |].
  destruct (Z.eqb_spec i 0); [right; left | right; right]; auto.
Qed.

(** X22: After the loop of the progress page no day of the window is a bailout
    day any more: whatever status a row of the user for one of the 30 days
    had, it now reads "completed", "pending" or "missed", and "pending"
    only for today. *)
Theorem progress_days_overwrites_status (new_Date : string -> option JsDate)
    (today : JsDate) (activities : list Activity) (userId : Z)
    (db db' : Db) :
  calendar_day today ->
  Forall (fun a => is_Some (new_Date (start_date a))) activities ->
  unique_keys (daily_progress db) ->
  progress_days new_Date today activities userId db = Returned db' ->
  forall r i,
    r ∈ daily_progress db' -> user_id r = userId -> 0 <= i <= 29 ->
    date r = isoDate (days_before today i) ->
    (status r = "completed" \/ status r = "pending" \/ status r = "missed")
    /\ status r <> "bailout"
    /\ (status r = "pending" -> i = 0).
Proof.
  intros Hc Hfeed Hu Hret r i Hr Huid Hi Hdate.
  assert (Hrange : Forall (fun i => 0 <= i <= 29) progress_offsets).
  { apply Forall_forall. intros j Hj. apply progress_offsets_range. exact Hj. }
  destruct (evaluate_days_rows new_Date today activities userId
              progress_offsets Hc Hfeed Hrange progress_offsets_NoDup db)
    as (db'' & Hret' & _ & Huniq & _ & Hrows).
  unfold progress_days in Hret. fold progress_offsets in Hret.
  rewrite Hret' in Hret. injection Hret as ->.
  destruct (Hrows i (proj2 (progress_offsets_range i) Hi))
    as (runs & required & _ & _ & Hin).
  assert (Heq : r = mkProgress userId (isoDate (days_before today i))
                      (stored_requirement userId
                         (isoDate (days_before today i)) required
                         (daily_progress db))
                      (sum_distances (map run_of runs))
                      (evaluated_status
                         (bool_decide
                            (required <= sum_distances (map run_of runs))%Qc)
                         i)).
  { apply (unique_keys_agree (daily_progress db')); try assumption.
    - apply Huniq. exact Hu.
    - unfold progress_key. cbn [user_id date]. rewrite Huid, Hdate.
      reflexivity. }
  rewrite Heq. cbn [status].
  destruct (evaluated_status_cases
              (bool_decide (required <= sum_distances (map run_of runs))%Qc) i)
    as [[-> _] | [[-> [_ Hz]] | [-> _]]].
  - split; [auto |]. split; [discriminate | discriminate].
  - split; [auto |]. split; [discriminate | intros _; exact Hz].
  - split; [auto |]. split; [discriminate | discriminate].
Qed.

Lemma progress_days_overwrites_status_witness :
  exists db' r,
    progress_days Date_of_string (mkDate 2024 2 10) [] 1 sample_bailout
    = Returned db'
    /\ r ∈ daily_progress db' /\ user_id r = 1 /\ date r = "2024-03-08"
    /\ status r <> "bailout".
Proof.
  set (out := progress_days Date_of_string (mkDate 2024 2 10) [] 1
                            sample_bailout).
  assert (Hret : out = Returned (outcome_store out))
    by (vm_compute; reflexivity).
  exists (outcome_store out),
         (mkProgress 1 "2024-03-08" (Q2Qc (308 # 100)) 0%Qc "missed").
  assert (Hr : mkProgress 1 "2024-03-08" (Q2Qc (308 # 100)) 0%Qc "missed"
               ∈ daily_progress (outcome_store out)).
  { apply list_elem_of_In. vm_compute.
    repeat first [left; reflexivity | right]. }
  split; [exact Hret |]. split; [exact Hr |].
  split; [reflexivity |]. split; [reflexivity |].
  refine (proj1 (proj2 (progress_days_overwrites_status Date_of_string
                          (mkDate 2024 2 10) [] 1 sample_bailout
                          (outcome_store out) _ _ _ Hret _ 2 Hr _ _ _))).
  - unfold calendar_day. cbn [getFullYear getMonth getDate].
    change (days_in_month 2024 (2 + 1)) with 31. lia.
  - apply List.Forall_nil.
  - unfold unique_keys. apply NoDup_ListNoDup. vm_compute.
    repeat constructor; simpl; intuition discriminate.
  - reflexivity.
  - lia.
  - reflexivity.
Defined.

Lemma getRunsForDate_unreadable (new_Date : string -> option JsDate)
    (activities : list Activity) (date : JsDate) :
  ~ Forall (fun a => is_Some (new_Date (start_date a))) activities ->
  getRunsForDate new_Date activities date = None.
Proof.
  induction activities as [| a activities IH]; intros Hn.
  - exfalso. apply Hn. constructor.
  - cbn [getRunsForDate].
    destruct (new_Date (start_date a)) as [d |] eqn:Hd; [| reflexivity].
    rewrite IH; [reflexivity |].
    intros HF. apply Hn. constructor; [eexists; exact Hd | exact HF].
Qed.

(** X23: One activity whose start date is not a date, of whatever type and day,
    makes the loop of the progress page throw on its first day, before
    anything is written. *)
Theorem progress_days_unreadable_feed (new_Date : string -> option JsDate)
    (today : JsDate) (activities : list Activity) (userId : Z) (db : Db) :
  (exists a, a ∈ activities /\ new_Date (start_date a) = None) ->
  progress_days new_Date today activities userId db = Threw db.
Proof.
  intros (a & Ha & Hnone).
  unfold progress_days.
  change (map (fun k => 29 - Z.of_nat k) (seq 0 30))
    with (29 :: map (fun k => 29 - Z.of_nat k) (seq 1 29)).
  cbn [evaluate_days]. unfold evaluate_day.
  rewrite getRunsForDate_unreadable; [reflexivity |].
  intros HF. rewrite Forall_forall in HF. destruct (HF a Ha) as [d Hd].
  rewrite Hnone in Hd. discriminate Hd.
Qed.

Lemma progress_days_unreadable_feed_witness :
  progress_days Date_of_string (mkDate 2024 2 10)
    (mkActivity 104 "Broken" 0%Qc 0 0 "Ride" "someday" :: sample_feed)
    1 sample_history
  = Threw sample_history.
Proof.
  apply progress_days_unreadable_feed.
  exists (mkActivity 104 "Broken" 0%Qc 0 0 "Ride" "someday").
  split; [apply list_elem_of_here | reflexivity].
Defined.

(** ** The bailout page *)

Lemma getUserById_balance (userId : Z) (db : Db) (u : UserRow) :
  getUserById userId db = Some u ->
  id u = userId /\ getBailoutPasses userId db = bailout_passes u.
Proof.
  unfold getUserById, getBailoutPasses. intros Hu. rewrite Hu.
  apply List.find_some in Hu as [_ Hid]. apply Z.eqb_eq in Hid. auto.
Qed.

Lemma getBailoutPasses_users (userId : Z) (db db' : Db) :
  users db' = users db ->
  getBailoutPasses userId db' = getBailoutPasses userId db.
Proof. unfold getBailoutPasses. intros ->. reflexivity. Qed.

(** X24: The bailout page touches the store only for a logged-in user who exists
    and has a pass left, and only when a date is given: in every other case
    the store is left as it is.  It answers with the redirect to the
    progress page only when, on top of that, the date given is a date. *)
Theorem use_bailout_guard (new_Date : string -> option JsDate)
    (sessionUserId : option Z) (queryDate : option string) (db : Db) :
  let out := use_bailout new_Date sessionUserId queryDate db in
  (snd out <> db \/ fst out = Redirect "/progress" ->
   exists userId s u,
     sessionUserId = Some userId /\ userId <> 0
     /\ queryDate = Some s /\ s <> ""
     /\ getUserById userId db = Some u /\ 0 < bailout_passes u
     /\ (fst out = Redirect "/progress" -> is_Some (new_Date s))).
Proof.
  intros out. subst out. unfold use_bailout.
  destruct sessionUserId as [userId |];
    [| intros [H | H]; [contradiction | discriminate]].
  destruct (Z.eqb_spec userId 0) as [Hz | Hnz];
    [intros [H | H]; [contradiction | discriminate] |].
  destruct queryDate as [s |];
    [| intros [H | H]; [contradiction | discriminate]].
  destruct (String.eqb_spec s "") as [Hs | Hs];
    [intros [H | H]; [contradiction | discriminate] |].
  destruct (getUserById userId db) as [u |] eqn:Hu;
    [| intros [H | H]; [contradiction | discriminate]].
  destruct (Z.leb_spec (bailout_passes u) 0) as [Hb | Hb];
    [intros [H | H]; [contradiction | discriminate] |].
  intros _. exists userId, s, u. repeat (split; [first [reflexivity | assumption] |]).
  destruct (new_Date s) as [date |]; [intros _; eexists; reflexivity |].
  cbn [fst]. discriminate.
Qed.

Lemma use_bailout_guard_witness :
  exists u, getUserById 1 sample_history = Some u /\ 0 < bailout_passes u.
Proof.
  destruct (use_bailout_guard Date_of_string (Some 1) (Some "2024-03-09")
              sample_history)
    as (userId & s & u & Hs & _ & _ & _ & Hu & Hb & _).
  - right. reflexivity.
  - injection Hs as <-. exists u. split; assumption.
Defined.



(** X26: A date that is not a date costs a pass and buys nothing: the handler
    has already taken the pass when saving the day throws, so the user is
    left with one pass fewer and no row is written. *)
Theorem use_bailout_invalid_date (new_Date : string -> option JsDate)
    (userId : Z) (s : string) (u : UserRow) (db : Db) :
  userId <> 0 -> s <> "" ->
  getUserById userId db = Some u -> 0 < bailout_passes u ->
  new_Date s = None ->
  exists db',
    use_bailout new_Date (Some userId) (Some s) db = (Failed, db')
    /\ getBailoutPasses userId db' = bailout_passes u - 1
    /\ daily_progress db' = daily_progress db.
Proof.
  intros Hnz Hs Hu Hb Hdate.
  destruct (getUserById_balance userId db u Hu) as [Hid Hbal].
  exists (fst (useBailoutPass userId db)).
  split; [| split; [| reflexivity]].
  - unfold use_bailout.
    apply Z.eqb_neq in Hnz. rewrite Hnz.
    apply String.eqb_neq in Hs. rewrite Hs, Hu.
    assert (Hpos : (bailout_passes u <=? 0) = false)
      by (apply Z.leb_gt; exact Hb).
    rewrite Hpos, Hdate, Hid. reflexivity.
  - rewrite getBailoutPasses_after_use, Hbal, Z.eqb_refl.
    apply Z.ltb_lt in Hb. rewrite Hb. reflexivity.
Qed.

Lemma use_bailout_invalid_date_witness :
  exists db',
    use_bailout Date_of_string (Some 1) (Some "yesterday") sample_history
    = (Failed, db')
    /\ getBailoutPasses 1 db' = 3
    /\ daily_progress db' = daily_progress sample_history.
Proof.
  destruct (use_bailout_invalid_date Date_of_string 1 "yesterday"
              (mkUser 1 "Ada" "Lovelace" 4 None None) sample_history)
    as (db' & Hout & Hbal & Hrows).
  - discriminate.
  - discriminate.
  - reflexivity.
  - cbn. lia.
  - reflexivity.
  - exists db'. split; [exact Hout |]. split; [exact Hbal | exact Hrows].
Defined.

Lemma required_distance_positive (d : JsDate) (required : Qc) :
  0 <= getMonth d <= 11 -> 1 <= getDate d <= 31 ->
  getRequiredDistance d = Some required -> (0 < required)%Qc.
Proof.
  intros Hm Hd Hreq.
  destruct (distance_rule_ordered_at _ _
              (distance_values_complete _ _ Hm Hd)
              (distance_values_complete _ _ Hm Hd)) as [Hb _].
  unfold distance_bounded in Hb. cbn [snd] in Hb.
  destruct d as [y m dd]. cbn [getMonth getDate] in Hb.
  rewrite (getRequiredDistance_year_irrelevant y 0) in Hreq.
  rewrite Hreq in Hb. apply andb_true_iff in Hb as [Hlo _].
  apply bool_decide_eq_true in Hlo.
  eapply Qclt_le_trans; [| exact Hlo].
  apply Qclt_by_computation. vm_compute. reflexivity.
Qed.

(** X27: The bailout page redirects to the progress page, and the loop of that
    page undoes the bailout: for a day of the last 30, the pass stays
    spent, but the day's row no longer reads "bailout", and reads "missed"
    again when the day is before today and no run of the feed started on
    it. *)
Theorem bailout_undone_by_progress_page (new_Date : string -> option JsDate)
    (today : JsDate) (activities : list Activity) (userId i : Z)
    (s : string) (u : UserRow) (db db1 : Db) :
  userId <> 0 -> s <> "" ->
  getUserById userId db = Some u -> 0 < bailout_passes u ->
  new_Date s = Some (days_before today i) -> 0 <= i <= 29 ->
  calendar_day today ->
  Forall (fun a => is_Some (new_Date (start_date a))) activities ->
  unique_keys (daily_progress db) ->
  use_bailout new_Date (Some userId) (Some s) db
  = (Redirect "/progress", db1) ->
  exists db2,
    progress_days new_Date today activities userId db1 = Returned db2
    /\ getBailoutPasses userId db2 = bailout_passes u - 1
    /\ forall r,
         r ∈ daily_progress db2 -> user_id r = userId ->
         date r = isoDate (days_before today i) ->
         status r <> "bailout"
         /\ (i <> 0 ->
             getRunsForDate new_Date activities (days_before today i)
             = Some [] ->
             status r = "missed").
Proof.
  intros Hnz Hs Hu Hb Hdate Hi Hc Hfeed Huniq Hout.
  destruct (days_before_calendar today i Hc Hi) as (_ & _ & Hm & Hd).
  assert (Hd31 : 1 <= getDate (days_before today i) <= 31).
  { pose proof (days_in_month_le_31
                  (getFullYear (days_before today i))
                  (getMonth (days_before today i) + 1)). lia. }
  destruct (getUserById_balance userId db u Hu) as [Hid Hbal].
  destruct (getRequiredDistance_is_Some _ Hm Hd31) as [req0 Hreq0].
  assert (Hdb1 : db1 = fst (saveDailyProgress userId (days_before today i)
                              req0 0%Qc "bailout"
                              (fst (useBailoutPass userId db)))).
  { unfold use_bailout in Hout.
    apply Z.eqb_neq in Hnz. rewrite Hnz in Hout.
    apply String.eqb_neq in Hs. rewrite Hs, Hu in Hout.
    assert (Hpos : (bailout_passes u <=? 0) = false)
      by (apply Z.leb_gt; exact Hb).
    rewrite Hpos, Hdate, Hreq0, Hid in Hout. injection Hout as <-.
    reflexivity. }
  assert (Hbal1 : getBailoutPasses userId db1 = bailout_passes u - 1).
  { rewrite Hdb1.
    transitivity (getBailoutPasses userId (fst (useBailoutPass userId db)));
      [reflexivity |].
    rewrite getBailoutPasses_after_use, Hbal, Z.eqb_refl.
    apply Z.ltb_lt in Hb. rewrite Hb. reflexivity. }
  assert (Huniq1 : unique_keys (daily_progress db1)).
  { rewrite Hdb1. apply upsert_progress_unique. exact Huniq. }
  assert (Hrange : Forall (fun i => 0 <= i <= 29) progress_offsets).
  { apply Forall_forall. intros j Hj. apply progress_offsets_range. exact Hj. }
  destruct (evaluate_days_rows new_Date today activities userId
              progress_offsets Hc Hfeed Hrange progress_offsets_NoDup db1)
    as (db2 & Hret & Husers & Hu2 & _ & Hrows).
  exists db2. split; [exact Hret |]. split.
  { rewrite (getBailoutPasses_users userId db1 db2 Husers). exact Hbal1. }
  intros r Hr Huid Hrd.
  destruct (Hrows i (proj2 (progress_offsets_range i) Hi))
    as (runs & required & Hruns & Hreq & Hin).
  assert (Heq : r = mkProgress userId (isoDate (days_before today i))
                      (stored_requirement userId
                         (isoDate (days_before today i)) required
                         (daily_progress db1))
                      (sum_distances (map run_of runs))
                      (evaluated_status
                         (bool_decide
                            (required <= sum_distances (map run_of runs))%Qc)
                         i)).
  { apply (unique_keys_agree (daily_progress db2)); try assumption.
    - apply Hu2. exact Huniq1.
    - unfold progress_key. cbn [user_id date]. rewrite Huid, Hrd.
      reflexivity. }
  rewrite Heq. cbn [status]. split.
  - destruct (evaluated_status_cases
                (bool_decide (required <= sum_distances (map run_of runs))%Qc)
                i) as [[-> _] | [[-> _] | [-> _]]]; discriminate.
  - intros Hi0 Hnone. rewrite Hnone in Hruns. injection Hruns as <-.
    cbn [map sum_distances].
    assert (Hpos := required_distance_positive _ _ Hm Hd31 Hreq).
    assert (Hnot : bool_decide (required <= 0)%Qc = false).
    { apply bool_decide_eq_false. apply Qclt_not_le. exact Hpos. }
    rewrite Hnot. unfold evaluated_status.
    apply Z.eqb_neq in Hi0. rewrite Hi0. reflexivity.
Qed.

Lemma bailout_undone_by_progress_page_witness :
  exists db1 db2,
    use_bailout Date_of_string (Some 1) (Some "2024-03-09") sample_history
    = (Redirect "/progress", db1)
    /\ progress_days Date_of_string (mkDate 2024 2 10) [] 1 db1
       = Returned db2
    /\ getBailoutPasses 1 db2 = 3.
Proof.
  eexists.
  destruct (bailout_undone_by_progress_page Date_of_string (mkDate 2024 2 10)
              [] 1 1 "2024-03-09" (mkUser 1 "Ada" "Lovelace" 4 None None)
              sample_history _
              ltac:(discriminate) ltac:(discriminate) eq_refl
              ltac:(cbn; lia) eq_refl ltac:(lia)
              ltac:(unfold calendar_day; cbn [getFullYear getMonth getDate];
                    change (days_in_month 2024 (2 + 1)) with 31; lia)
              ltac:(apply List.Forall_nil)
              ltac:(unfold unique_keys; apply NoDup_ListNoDup; vm_compute;
                    repeat constructor; simpl; intuition discriminate)
              eq_refl)
    as (db2 & Hret & Hbal & _).
  exists db2. split; [reflexivity |]. split; [exact Hret | exact Hbal].
Defined.
